(** * screed: FASTA/FASTQ parsers, store builder, read-only store, serializer

    A shallow embedding of [screed/__init__.py] and [screed/seqparse.py].

    - Python byte strings are [string]; dictionaries are [gmap string _].
    - A file handle opened for reading is the list of the raw lines that
      successive [readline()] calls return; past the last line [readline()]
      returns the empty string, for ever.
    - A generator is a state machine advanced by [gen_next]; the dictionary
      it yields lives in a heap, so that aliasing between yields is visible.
    - Loops that Python runs until a condition on the input holds take a
      [fuel] bound and answer "out of fuel" when it is exhausted.
    - The sqlite engine is a small state: the committed database file on the
      filesystem and the connection's working copy. *)

From Equations Require Import Equations.
From stdpp Require Import base gmap strings list pretty.
From Stdlib Require Import Ascii ZArith Lia.


(** ** Python strings *)

Module Py.

(** [s.lstrip()], [s.rstrip()], [s.strip()]: remove surrounding whitespace
    (tab, newline, vertical tab, form feed, carriage return, space). *)
Fixpoint lstrip (s : string) : string :=
  match s with
  | EmptyString => EmptyString
  | String c s' => if Ascii.is_space c then lstrip s' else s
  end.

Fixpoint rstrip (s : string) : string :=
  match s with
  | EmptyString => EmptyString
  | String c s' =>
      match rstrip s' with
      | EmptyString => if Ascii.is_space c then EmptyString else String c EmptyString
      | r => String c r
      end
  end.

Definition strip (s : string) : string := rstrip (lstrip s).

(** [s.startswith(p)] *)
Definition startswith (p s : string) : bool := String.prefix p s.

(** [s[1:]] *)
Definition from1 (s : string) : string :=
  match s with
  | EmptyString => EmptyString
  | String _ s' => s'
  end.

(** [s.split(' ', 1)]: at most one split, at the first space. *)
Fixpoint split_space1 (s : string) : list string :=
  match s with
  | EmptyString => [EmptyString]
  | String c s' =>
      if Ascii.eqb c " "%char then [EmptyString; s']
      else match split_space1 s' with
           | a :: rest => String c a :: rest
           | [] => [String c EmptyString]
           end
  end.

(** [''.join(l)] *)
Definition join (l : list string) : string := String.concat "" l.

(** [sep.join(l)] *)
Definition join_with (sep : string) (l : list string) : string :=
  String.concat sep l.

(** [s[b:b+n]] *)
Definition slice (b n : nat) (s : string) : string := String.substring b n s.

(** [c * n] for a one-character string [c] *)
Fixpoint repeat (c : string) (n : nat) : string :=
  match n with
  | O => EmptyString
  | S n' => c +:+ repeat c n'
  end.

Abbreviation len := String.length.

(** The lines of a text, each with its terminating newline (the last one
    possibly without): what iterating [readline()] over a file gives. *)
Fixpoint readlines_go (cur : string) (s : string) : list string :=
  match s with
  | EmptyString => match cur with EmptyString => [] | _ => [String.rev cur] end
  | String c s' =>
      if Ascii.eqb c "010"%char
      then String.rev (String c cur) :: readlines_go EmptyString s'
      else readlines_go (String c cur) s'
  end.

Definition readlines (s : string) : list string := readlines_go EmptyString s.

End Py.

(** ** Exceptions and results *)

Inductive exn :=
| IOError | KeyError | ValueError | TypeError | AttributeError
| IndexError | IntegrityError | OperationalError.

Global Instance exn_eq_dec : EqDecision exn.
Proof. solve_decision. Defined.

(** The outcome of a call: a value, an exception, or no return at all (the
    call was still running when the fuel of an iterator it drives ran out). *)
Inductive result (A : Type) :=
| Ok (a : A)
| Raise (e : exn)
| Hang.
Arguments Ok {A} a.
Arguments Raise {A} e.
Arguments Hang {A}.

Definition res_bind {A B} (r : result A) (k : A → result B) : result B :=
  match r with
  | Ok a => k a
  | Raise e => Raise e
  | Hang => Hang
  end.

Notation "'let?' x ':=' r 'in' k" := (res_bind r (λ x, k))
  (at level 10, x name, r at level 100, k at level 200).

(** ** File handles *)

Definition handle := list string.

(** [handle.readline()]: the next raw line and the advanced handle. *)
Definition readline (h : handle) : string * handle :=
  match h with
  | [] => (EmptyString, [])
  | l :: h' => (l, h')
  end.

(** [handle.readline().strip()] *)
Definition readline_strip (h : handle) : string * handle :=
  let '(raw, h') := readline h in (Py.strip raw, h').

(** ** Parser iterators *)

(** The mapping [data] that a parser fills in and yields. *)
Abbreviation dict := (gmap string string).

(** What one round of a parser's outer [while] loop does, from just after the
    loop test up to the [yield]: it parks at the [yield] with an updated
    [data], the look-ahead [line] and the handle; or raises; or never gets
    there within the fuel. *)
Inductive body_result :=
| BYield (data : dict) (line : string) (h : handle)
| BRaise (e : exn) (data : dict)
| BTimeout.

Module Fastq.

(** [while not line.startswith('+'): sequence.append(line); line = ...] *)
Fixpoint sequence_loop (fuel : nat) (sequence : list string)
    (line : string) (h : handle) : option (list string * string * handle) :=
  match fuel with
  | O => None
  | S fuel' =>
      if negb (Py.startswith "+" line) then
        let sequence := sequence ++ [line] in
        let '(line, h) := readline_strip h in
        sequence_loop fuel' sequence line h
      else Some (sequence, line, h)
  end.

(** [while not line.startswith('@') and not line == '': ...] *)
Fixpoint accuracy_loop (fuel : nat) (accuracy : list string)
    (line : string) (h : handle) : option (list string * string * handle) :=
  match fuel with
  | O => None
  | S fuel' =>
      if negb (Py.startswith "@" line) && negb (bool_decide (line = "")) then
        let accuracy := accuracy ++ [line] in
        let '(line, h) := readline_strip h in
        accuracy_loop fuel' accuracy line h
      else Some (accuracy, line, h)
  end.

(** The name and the optional annotations of a header line. *)
Definition set_header (line : string) (data : dict) : dict :=
  match Py.split_space1 (Py.from1 line) with
  | [n; a] => <["annotations" := a]> (<["name" := n]> data)
  | _ => <["annotations" := ""]> (<["name" := Py.from1 line]> data)
  end.

(** Body of [while line:] in [fqiter]. *)
Definition body (fuel : nat) (data : dict) (line : string) (h : handle)
    : body_result :=
  if negb (Py.startswith "@" line) then BRaise IOError data
  else
    let data := set_header line data in
    let '(line, h) := readline_strip h in
    match sequence_loop fuel [] line h with
    | None => BTimeout
    | Some (sequence, line, h) =>
        let data := <["sequence" := Py.join sequence]> data in
        let '(line, h) := readline_strip h in
        match accuracy_loop fuel [] line h with
        | None => BTimeout
        | Some (accuracy, line, h) =>
            let data := <["accuracy" := Py.join accuracy]> data in
            if negb (Py.len (data !!! "sequence") =? Py.len (data !!! "accuracy"))%nat
            then BRaise IOError data
            else BYield data line h
        end
    end.

End Fastq.

Module Fasta.

(** [while line != '' and not line.startswith('>'): ...] *)
Fixpoint sequence_loop (fuel : nat) (sequenceList : list string)
    (line : string) (h : handle) : option (list string * string * handle) :=
  match fuel with
  | O => None
  | S fuel' =>
      if negb (bool_decide (line = "")) && negb (Py.startswith ">" line) then
        let sequenceList := sequenceList ++ [line] in
        let '(line, h) := readline_strip h in
        sequence_loop fuel' sequenceList line h
      else Some (sequenceList, line, h)
  end.

(** The name and the optional description of a header line, both stripped. *)
Definition set_header (line : string) (data : dict) : dict :=
  let data :=
    match Py.split_space1 (Py.from1 line) with
    | [n; d] => <["description" := d]> (<["name" := n]> data)
    | _ => <["description" := ""]> (<["name" := Py.from1 line]> data)
    end in
  let data := <["name" := Py.strip (data !!! "name")]> data in
  <["description" := Py.strip (data !!! "description")]> data.

(** Body of [while line != '':] in [faiter]. *)
Definition body (fuel : nat) (data : dict) (line : string) (h : handle)
    : body_result :=
  if negb (Py.startswith ">" line) then BRaise IOError data
  else
    let data := set_header line data in
    let '(line, h) := readline_strip h in
    match sequence_loop fuel [] line h with
    | None => BTimeout
    | Some (sequenceList, line, h) =>
        let data := <["sequence" := Py.join sequenceList]> data in
        BYield data line h
    end.

End Fasta.

Module Hava.

(** Body of [while line:] in [havaiter]: six stripped lines, then the
    look-ahead line, then the [yield]. *)
Definition body (fuel : nat) (data : dict) (line : string) (h : handle)
    : body_result :=
  let data := <["hava" := line]> data in
  let '(l, h) := readline_strip h in
  let data := <["quarzk" := l]> data in
  let '(l, h) := readline_strip h in
  let data := <["muchalo" := l]> data in
  let '(l, h) := readline_strip h in
  let data := <["fakours" := l]> data in
  let '(l, h) := readline_strip h in
  let data := <["selimizicka" := l]> data in
  let '(l, h) := readline_strip h in
  let data := <["marshoon" := l]> data in
  let '(line, h) := readline_strip h in
  BYield data line h.

End Hava.

(** ** Generators

    [fqiter], [faiter] and [havaiter] share one shape:
<<
    data = {}
    line = handle.readline().strip()
    while line:          # or: while line != ''
        BODY
        yield data
>>
    [data = {}] allocates one dictionary when the generator is first
    advanced; each [yield data] hands out a reference to it. *)

Abbreviation loc := positive.
Abbreviation heap := (gmap loc dict).

Record parser := Parser {
  parser_body : nat → dict → string → handle → body_result
}.

Definition fqiter : parser := Parser Fastq.body.
Definition faiter : parser := Parser Fasta.body.
Definition havaiter : parser := Parser Hava.body.

Inductive gen_state :=
| GCreated (h : handle)
| GParked (data : loc) (line : string) (h : handle)
| GFinished.

Inductive gen_result :=
| Yielded (v : loc)
| StopIteration
| Raised (e : exn)
| OutOfFuel.

(** From the loop test to the next [yield], [raise] or end of the loop. *)
Definition gen_loop (p : parser) (fuel : nat) (data : loc) (line : string)
    (h : handle) (σ : heap) : gen_result * gen_state * heap :=
  if bool_decide (line = "") then (StopIteration, GFinished, σ)
  else
    match parser_body p fuel (σ !!! data) line h with
    | BYield d line' h' => (Yielded data, GParked data line' h', <[data := d]> σ)
    | BRaise e d => (Raised e, GFinished, <[data := d]> σ)
    | BTimeout => (OutOfFuel, GFinished, σ)
    end.

(** [gen.next()] *)
Definition gen_next (p : parser) (fuel : nat) (g : gen_state) (σ : heap)
    : gen_result * gen_state * heap :=
  match g with
  | GCreated h =>
      let data := fresh (dom σ) in
      let σ := <[data := ∅]> σ in
      let '(line, h) := readline_strip h in
      gen_loop p fuel data line h σ
  | GParked data line h => gen_loop p fuel data line h σ
  | GFinished => (StopIteration, GFinished, σ)
  end.

(** How the run of an iterator ends. *)
Inductive ending :=
| Stopped
| Failed (e : exn)
| Diverged.

Global Instance ending_eq_dec : EqDecision ending.
Proof. solve_decision. Defined.

(** Advancing a generator until it stops ([for x in gen], [list(gen)]):
    the references yielded, each with the contents of the dictionary it
    points to at the time of the yield; how the run ended; the final heap. *)
Fixpoint drive (p : parser) (fuel : nat) (k : nat) (g : gen_state) (σ : heap)
    : list (loc * dict) * ending * heap :=
  match k with
  | O => ([], Diverged, σ)
  | S k' =>
      match gen_next p fuel g σ with
      | (Yielded l, g', σ') =>
          let '(ys, e, σ'') := drive p fuel k' g' σ' in
          ((l, σ' !!! l) :: ys, e, σ'')
      | (StopIteration, _, σ') => ([], Stopped, σ')
      | (Raised e, _, σ') => ([], Failed e, σ')
      | (OutOfFuel, _, σ') => ([], Diverged, σ')
      end
  end.

(** What a consumer that uses each record before asking for the next one
    sees of an iterator: the records, then the ending. *)
Definition trace : Type := list dict * ending.

Definition run (p : parser) (fuel : nat) (h : handle) : trace :=
  let '(ys, e, _) := drive p fuel fuel (GCreated h) ∅ in (ys.*2, e).

(** [list(gen)] followed by a look at every element: the references are
    dereferenced in the final heap. *)
Definition materialize (p : parser) (fuel : nat) (h : handle)
    : list loc * list dict * ending :=
  let '(ys, e, σ) := drive p fuel fuel (GCreated h) ∅ in
  (ys.*1, (λ l, σ !!! l) <$> ys.*1, e).

(** ** Filesystem and the sqlite engine

    Only what [create_db] and [screedDB] ask of sqlite is modelled: two
    tables, one unique index, inserts, point queries, [MAX], and the
    transaction discipline of Python's [sqlite3] module (a statement that is
    not an [INSERT] first commits the pending transaction and then runs on
    its own; an [INSERT] joins or opens a transaction, which reaches the file
    at [commit()] only). *)

Record table := Table {
  columns : list string;            (* the TEXT columns, in declaration order *)
  rows : list (Z * list string)     (* (INTEGER PRIMARY KEY, column values) *)
}.

Record database := Database {
  admin : option (list (Z * string));   (* admin table: (ID, FIELDNAME) *)
  dict_table : option table;            (* dictionary table *)
  unique_index : option string          (* column with the UNIQUE INDEX *)
}.

Definition empty_database : database := Database None None None.

Inductive file :=
| TextFile (content : string)
| DbFile (db : database).

Abbreviation filesystem := (gmap string file).

(** Calls that read or change the filesystem. *)
Definition io (A : Type) : Type := filesystem → result A * filesystem.

Definition io_ret {A} (a : A) : io A := λ fs, (Ok a, fs).
Definition io_raise {A} (e : exn) : io A := λ fs, (Raise e, fs).
Definition io_hang {A} : io A := λ fs, (Hang, fs).
Definition io_bind {A B} (m : io A) (k : A → io B) : io B :=
  λ fs, match m fs with
        | (Ok a, fs') => k a fs'
        | (Raise e, fs') => (Raise e, fs')
        | (Hang, fs') => (Hang, fs')
        end.
Definition io_lift {A} (r : result A) : io A := λ fs, (r, fs).

Notation "'let*' x ':=' m 'in' k" := (io_bind m (λ x, k))
  (at level 10, x name, m at level 100, k at level 200).

Fixpoint io_fold {A B} (f : A → B → io A) (a : A) (l : list B) : io A :=
  match l with
  | [] => io_ret a
  | b :: l' => let* a' := f a b in io_fold f a' l'
  end.

(** [os.path.exists], [os.unlink] *)
Definition os_path_exists (p : string) : io bool :=
  λ fs, (Ok (bool_decide (is_Some (fs !! p))), fs).
Definition os_unlink (p : string) : io unit :=
  λ fs, (Ok tt, delete p fs).

(** [open(filename, 'rb')]; a store file is not a text to read lines from. *)
Definition open_rb (p : string) : io handle :=
  λ fs, match fs !! p with
        | Some (TextFile s) => (Ok (Py.readlines s), fs)
        | _ => (Raise IOError, fs)
        end.

Record connection := Connection {
  con_path : string;
  con_db : database        (* the connection's view, pending inserts included *)
}.

(** [sqlite3.connect]: opens the file, creating an empty one if missing. *)
Definition sqlite3_connect (p : string) : io connection :=
  λ fs, match fs !! p with
        | None => (Ok (Connection p empty_database), <[p := DbFile empty_database]> fs)
        | Some (DbFile db) => (Ok (Connection p db), fs)
        | Some (TextFile _) => (Raise OperationalError, fs)
        end.

(** [con.commit()] *)
Definition con_commit (con : connection) : io unit :=
  λ fs, (Ok tt, <[con_path con := DbFile (con_db con)]> fs).

(** [cur.execute] of a [CREATE] statement. *)
Definition execute_ddl (stmt : database → result database) (con : connection)
    : io connection :=
  let* _ := con_commit con in
  let* db := io_lift (stmt (con_db con)) in
  let con := Connection (con_path con) db in
  let* _ := con_commit con in
  io_ret con.

(** [cur.execute] of an [INSERT] statement. *)
Definition execute_dml (stmt : database → result database) (con : connection)
    : io connection :=
  let* db := io_lift (stmt (con_db con)) in
  io_ret (Connection (con_path con) db).

(** The key sqlite gives a row inserted without one. *)
Definition next_rowid {A} (rs : list (Z * A)) : Z :=
  (1 + foldr Z.max 0%Z (rs.*1))%Z.

(** [SELECT MAX(key)]: [None] is SQL's NULL, the answer on an empty table. *)
Definition max_rowid {A} (rs : list (Z * A)) : option Z :=
  match rs with
  | [] => None
  | _ => Some (foldr Z.max 0%Z (rs.*1))
  end.

Definition create_admin_table (db : database) : result database :=
  match admin db with
  | Some _ => Raise OperationalError
  | None => Ok (Database (Some []) (dict_table db) (unique_index db))
  end.

Definition insert_admin (attribute : string) (db : database) : result database :=
  match admin db with
  | None => Raise OperationalError
  | Some rs =>
      Ok (Database (Some (rs ++ [(next_rowid rs, attribute)]))
            (dict_table db) (unique_index db))
  end.

(** ** Records of an opened store *)

Inductive pyval :=
| VInt (z : Z)
| VStr (s : string)
| VNone.

Global Instance pyval_eq_dec : EqDecision pyval.
Proof. solve_decision. Defined.

Global Instance pyval_inhabited : Inhabited pyval := populate VNone.

(** [str(v)], also what [%s] formats. *)
Definition str (v : pyval) : string :=
  match v with
  | VInt z => pretty z
  | VStr s => s
  | VNone => "None"
  end.

(** A text operand ([len], slicing). *)
Definition as_text (v : pyval) : result string :=
  match v with
  | VStr s => Ok s
  | _ => Raise TypeError
  end.

Abbreviation record := (gmap string pyval).

Section Screed.

(** [dbConstants] is not among the sources; its constants are parameters.
    The table names only occur inside the SQL text, which the model replaces
    by the two table slots of [database]. *)
Variable fileExtension : string.
Variable _PRIMARY_KEY : string.

(** [CREATE TABLE dict (key INTEGER PRIMARY KEY, f1 TEXT, ..., fn TEXT)]:
    refused without columns or with a column name used twice. *)
Definition create_dict_table (fields : list string) (db : database)
    : result database :=
  match dict_table db with
  | Some _ => Raise OperationalError
  | None =>
      if bool_decide (fields ≠ [] ∧ NoDup (_PRIMARY_KEY :: fields))
      then Ok (Database (admin db) (Some (Table fields [])) (unique_index db))
      else Raise OperationalError
  end.

(** The value a row has in a TEXT column. *)
Definition cell (t : table) (col : string) (r : Z * list string) : option string :=
  i ← list_find (λ c, c = col) (columns t) ≫= (λ ic, Some ic.1);
  r.2 !! i.

(** [CREATE UNIQUE INDEX ... ON dict(col)] *)
Definition create_unique_index (col : string) (db : database) : result database :=
  match dict_table db with
  | None => Raise OperationalError
  | Some t =>
      if bool_decide (col ∈ columns t)
      then if bool_decide (NoDup (cell t col <$> rows t))
           then Ok (Database (admin db) (dict_table db) (Some col))
           else Raise IntegrityError
      else Raise OperationalError
  end.

(** [INSERT INTO dict (f1, ..., fn) VALUES (?, ..., ?)] with [data] bound to
    the question marks: the row gets the next key; the unique index refuses a
    value it already holds. *)
Definition insert_row (fields : list string) (data : list string) (db : database)
    : result database :=
  match dict_table db with
  | None => Raise OperationalError
  | Some t =>
      if bool_decide (fields = columns t ∧ length data = length fields) then
        let r := (next_rowid (rows t), data) in
        match unique_index db with
        | Some col =>
            if bool_decide (cell t col r ∈ cell t col <$> rows t)
            then Raise IntegrityError
            else Ok (Database (admin db) (Some (Table (columns t) (rows t ++ [r])))
                       (unique_index db))
        | None =>
            Ok (Database (admin db) (Some (Table (columns t) (rows t ++ [r])))
                  (unique_index db))
        end
      else Raise OperationalError
  end.

(** ** The store builder *)

(** [tuple([record[key] for key in fields])] *)
Fixpoint record_tuple (record : dict) (fields : list string) : result (list string) :=
  match fields with
  | [] => Ok []
  | key :: fields' =>
      match record !! key with
      | None => Raise KeyError
      | Some v => let? vs := record_tuple record fields' in Ok (v :: vs)
      end
  end.

(** [s.endswith(suffix)] *)
Definition endswith (suffix s : string) : bool :=
  String.prefix (String.rev suffix) (String.rev s).

(** [for record in rcrditer: ...]: every record the iterator yields is
    inserted; then the iterator's ending decides how the loop is left. *)
Definition insert_records (fields : list string) (rcrditer : trace)
    (con : connection) : io connection :=
  let* con := io_fold (λ con record,
                  let* data := io_lift (record_tuple record fields) in
                  execute_dml (insert_row fields data) con) con rcrditer.1 in
  match rcrditer.2 with
  | Stopped => io_ret con
  | Failed e => io_raise e
  | Diverged => io_hang
  end.

Definition create_db (filepath : string) (fields : list string) (rcrditer : trace)
    : io unit :=
  let filepath :=
    if negb (endswith fileExtension filepath)
    then filepath +:+ fileExtension else filepath in
  let* ex := os_path_exists filepath in
  let* _ := (if ex : bool then os_unlink filepath else io_ret tt) in
  let* con := sqlite3_connect filepath in
  let* con := execute_ddl create_admin_table con in
  let* con := io_fold (λ con attribute, execute_dml (insert_admin attribute) con) con fields in
  let* con := execute_ddl (create_dict_table fields) con in
  let* queryby := io_lift (match fields with f :: _ => Ok f | [] => Raise IndexError end) in
  let* con := execute_ddl (create_unique_index queryby) con in
  let* con := insert_records fields rcrditer con in
  con_commit con.

Definition FASTQFIELDTYPES : list string :=
  ["name"; "annotations"; "sequence"; "accuracy"].
Definition FASTAFIELDTYPES : list string :=
  ["name"; "description"; "sequence"].

Definition read_fastq_sequences (fuel : nat) (filename : string) : io unit :=
  let* theFile := open_rb filename in
  let iterfunc := run fqiter fuel theFile in
  create_db filename FASTQFIELDTYPES iterfunc.

Definition read_fasta_sequences (fuel : nat) (filename : string) : io unit :=
  let* theFile := open_rb filename in
  let iterfunc := run faiter fuel theFile in
  create_db filename FASTAFIELDTYPES iterfunc.

(** [WHERE queryBy = ?] with [key] bound: the key column holds integers, the
    other columns text (a non-text key is compared through its text). *)
Definition matches (t : table) (queryBy : string) (key : pyval)
    (r : Z * list string) : bool :=
  if bool_decide (queryBy = _PRIMARY_KEY) then bool_decide (key = VInt r.1)
  else match key with
       | VNone => false
       | _ => bool_decide (cell t queryBy r = Some (str key))
       end.

Definition select_where (t : table) (queryBy : string) (key : pyval)
    : list (Z * list string) :=
  filter (λ r, matches t queryBy key r = true) (rows t).

(** Modelled from the spec: [screedRecord._buildRecord] is not among the
    sources. "get(key): point lookup by LookupKey; returns the matching
    Record (with its RowID attached)"; "Record: a mapping from field name to
    text value, one per schema field"; "RowID: a monotonic integer assigned
    in insertion order, 1-based internally, exposed to callers as 0-based".
    The record is built from the row whose column [queryBy] holds [key]. *)
Definition _buildRecord (fieldTuple : list string) (cursor : table)
    (key : pyval) (queryBy : string) : result record :=
  match select_where cursor queryBy key with
  | [] => Raise TypeError
  | r :: _ =>
      Ok (<[_PRIMARY_KEY := VInt (r.1 - 1)]>
            (list_to_map (zip fieldTuple (VStr <$> r.2))))
  end.

(** ** The read-only store *)

Record screedDB := ScreedDB {
  _db : option table;          (* the dictionary table; [None] once closed *)
  _fieldTuple : list string;
  _queryBy : string;
  _len : option Z              (* [None] is Python's [None] *)
}.

Definition normalize (filepath : string) : string :=
  if negb (endswith fileExtension filepath)
  then filepath +:+ fileExtension else filepath.

(** Modelled from the spec: [screedUtility.getScreedDB] is not among the
    sources. "open(path): loads FieldSchema metadata ...; fails if the path
    does not exist or the schema/table metadata is absent or inconsistent";
    "LookupKey: the value of the schema's first field". *)
Definition getScreedDB (filepath : string) : io (table * list string * string) :=
  λ fs,
    match fs !! normalize filepath with
    | Some (DbFile db) =>
        match admin db, dict_table db with
        | Some adm, Some t =>
            match adm.*2 with
            | queryBy :: _ =>
                if bool_decide (adm.*2 = columns t)
                then (Ok (t, adm.*2, queryBy), fs)
                else (Raise ValueError, fs)
            | [] => (Raise ValueError, fs)
            end
        | _, _ => (Raise ValueError, fs)
        end
    | _ => (Raise ValueError, fs)
    end.

(** [screedDB(filepath)] *)
Definition __init__ (filepath : string) : io screedDB :=
  let* opened := getScreedDB filepath in
  let '(db, fieldTuple, queryBy) := opened in
  io_ret (ScreedDB (Some db) fieldTuple queryBy (max_rowid (rows db))).

Definition close (self : screedDB) : screedDB :=
  ScreedDB None (_fieldTuple self) (_queryBy self) (_len self).

(** [self._db.cursor()] *)
Definition cursor (self : screedDB) : result table :=
  match _db self with
  | Some t => Ok t
  | None => Raise AttributeError
  end.

Definition __getitem__ (self : screedDB) (key : pyval) : result record :=
  let? cursor := cursor self in
  let key := VStr (str key) in
  match select_where cursor (_queryBy self) key with
  | [] => Raise KeyError
  | _ => _buildRecord (_fieldTuple self) cursor key (_queryBy self)
  end.

Definition loadRecordByIndex (self : screedDB) (index : Z) : result record :=
  let? cursor := cursor self in
  let index := (index + 1)%Z in
  match select_where cursor _PRIMARY_KEY (VInt index) with
  | [] => Raise KeyError
  | _ => _buildRecord (_fieldTuple self) cursor (VInt index) _PRIMARY_KEY
  end.

Definition __len__ (self : screedDB) : option Z := _len self.

(** [len(db)] *)
Definition len (self : screedDB) : result Z :=
  match __len__ self with
  | Some n => Ok n
  | None => Raise TypeError
  end.

(** The records a store iterator yields, then its ending. *)
Fixpoint build_records (self : screedDB) (cursor : table) (indices : list Z)
    : list record * ending :=
  match indices with
  | [] => ([], Stopped)
  | index :: indices' =>
      match _buildRecord (_fieldTuple self) cursor (VInt index) _PRIMARY_KEY with
      | Ok v => let '(vs, e) := build_records self cursor indices' in (v :: vs, e)
      | Raise e => ([], Failed e)
      | Hang => ([], Diverged)
      end
  end.

(** [for index in xrange(1, self.__len__()+1): yield _buildRecord(...)] *)
Definition itervalues (self : screedDB) : list record * ending :=
  match cursor self with
  | Ok cursor =>
      match __len__ self with
      | Some n => build_records self cursor (seqZ 1 n)
      | None => ([], Failed TypeError)
      end
  | Raise e => ([], Failed e)
  | Hang => ([], Diverged)
  end.

(** [SELECT queryBy FROM dict], rows as the table has them. *)
Definition iterkeys (self : screedDB) : list string * ending :=
  match cursor self with
  | Ok cursor => (omap (cell cursor (_queryBy self)) (rows cursor), Stopped)
  | Raise e => ([], Failed e)
  | Hang => ([], Diverged)
  end.

Fixpoint index_pairs (vs : list record) (e : ending)
    : list (string * record) * ending :=
  match vs with
  | [] => ([], e)
  | v :: vs' =>
      match v !! _PRIMARY_KEY with
      | Some i => let '(ps, e') := index_pairs vs' e in ((str i, v) :: ps, e')
      | None => ([], Failed KeyError)
      end
  end.

(** [for v in self.itervalues(): yield str(v[_PRIMARY_KEY]), v] *)
Definition iteritems (self : screedDB) : list (string * record) * ending :=
  let '(vs, e) := itervalues self in index_pairs vs e.

(** [list(it)] *)
Definition to_list {A} (it : list A * ending) : result (list A) :=
  match it.2 with
  | Stopped => Ok it.1
  | Failed e => Raise e
  | Diverged => Hang
  end.

Definition values (self : screedDB) : result (list record) := to_list (itervalues self).
Definition items (self : screedDB) : result (list (string * record)) :=
  to_list (iteritems self).
Definition keys (self : screedDB) : result (list string) := to_list (iterkeys self).

Definition __contains__ (self : screedDB) (key : pyval) : result bool :=
  let? cursor := cursor self in
  match select_where cursor (_queryBy self) key with
  | [] => Ok false
  | _ => Ok true
  end.

Definition has_key (self : screedDB) (key : pyval) : result bool :=
  __contains__ self key.

Definition copy (self : screedDB) : screedDB := self.

(** *** The methods that are not implemented

    A call binds the positional arguments to the parameters before the body
    runs: with a wrong number of them Python raises [TypeError] and the body
    is not entered. Each method returns the outcome and the store after the
    call. *)
Definition call {A} (parameters : nat) (args : list pyval) (body : result A)
    : result A :=
  if (length args =? parameters)%nat then body else Raise TypeError.

Definition __setitem__ (self : screedDB) (args : list pyval) : result unit * screedDB :=
  (call 1 args (Raise AttributeError), self).
Definition clear (self : screedDB) (args : list pyval) : result unit * screedDB :=
  (call 0 args (Raise AttributeError), self).
Definition update (self : screedDB) (args : list pyval) : result unit * screedDB :=
  (call 1 args (Raise AttributeError), self).
Definition setdefault (self : screedDB) (args : list pyval) : result unit * screedDB :=
  (call 1 args (Raise AttributeError), self).
Definition pop (self : screedDB) (args : list pyval) : result unit * screedDB :=
  (call 0 args (Raise AttributeError), self).
Definition popitem (self : screedDB) (args : list pyval) : result unit * screedDB :=
  (call 0 args (Raise AttributeError), self).

(** [db[key] = value] *)
Definition assign_item (self : screedDB) (key value : pyval) : result unit * screedDB :=
  __setitem__ self [key; value].

(** ** The serializer *)

Definition _MAXLINELEN : nat := 80.
Definition _null_accuracy : string := String "034"%char EmptyString.
Definition newline : string := String "010"%char EmptyString.

Definition getComments (value : record) : pyval :=
  match value !! "description" with
  | Some d => d
  | None =>
      match value !! "annotations" with
      | Some a => a
      | None => VStr ""
      end
  end.

(** [while begin < len(longString): res.append(...); begin += _MAXLINELEN] *)
Equations? linewrap_loop (longString : string) (begin : nat) (res : list string)
    : list string by wf (Py.len longString - begin) lt :=
  linewrap_loop longString begin res with decide (begin < Py.len longString) => {
    | left _ =>
        linewrap_loop longString (begin + _MAXLINELEN)
          (res ++ [Py.slice begin _MAXLINELEN longString]);
    | right _ => res }.
Proof. unfold _MAXLINELEN. lia. Qed.

Definition linewrap (longString : string) : string :=
  Py.join_with newline (linewrap_loop longString 0 []).

Definition generateAccuracy (value : record) : result string :=
  match value !! "accuracy" with
  | Some a => let? a := as_text a in Ok (linewrap a)
  | None =>
      match value !! "sequence" with
      | Some s =>
          let? s := as_text s in
          Ok (linewrap (Py.repeat _null_accuracy (Py.len s)))
      | None => Raise KeyError
      end
  end.

(** [value[key]] *)
Definition getitem (value : record) (key : string) : result pyval :=
  match value !! key with
  | Some v => Ok v
  | None => Raise KeyError
  end.

(** ['@%s %s\n%s\n+\n%s\n' % (value['name'], getComments(value),
    linewrap(value['sequence']), generateAccuracy(value))] *)
Definition fastq_text (value : record) : result string :=
  let? name := getitem value "name" in
  let comments := getComments value in
  let? sequence := getitem value "sequence" in
  let? sequence := as_text sequence in
  let? accuracy := generateAccuracy value in
  Ok ("@" +:+ str name +:+ " " +:+ str comments +:+ newline +:+
      linewrap sequence +:+ newline +:+ "+" +:+ newline +:+
      accuracy +:+ newline).

(** ['>%s %s\n%s\n' % (value['name'], getComments(value),
    linewrap(value['sequence']))] *)
Definition fasta_text (value : record) : result string :=
  let? name := getitem value "name" in
  let comments := getComments value in
  let? sequence := getitem value "sequence" in
  let? sequence := as_text sequence in
  Ok (">" +:+ str name +:+ " " +:+ str comments +:+ newline +:+
      linewrap sequence +:+ newline).

(** [outFile.write(text)] *)
Definition write (outputFile : string) (text : string) : io unit :=
  λ fs, match fs !! outputFile with
        | Some (TextFile s) => (Ok tt, <[outputFile := TextFile (s +:+ text)]> fs)
        | _ => (Raise ValueError, fs)
        end.

(** [open(outputFile, 'wb')] *)
Definition open_wb (outputFile : string) : io unit :=
  λ fs, (Ok tt, <[outputFile := TextFile ""]> fs).

(** [for value in db.itervalues(): outFile.write(text(value))] *)
Definition write_all (text : record → result string) (outputFile : string)
    (it : list record * ending) : io unit :=
  let* _ := io_fold (λ _ value,
               let* t := io_lift (text value) in write outputFile t) tt it.1 in
  match it.2 with
  | Stopped => io_ret tt
  | Failed e => io_raise e
  | Diverged => io_hang
  end.

Definition toFastq (dbFile outputFile : string) : io unit :=
  let* _ := open_wb outputFile in
  let* db := __init__ dbFile in
  write_all fastq_text outputFile (itervalues db).

Definition toFasta (dbFile outputFile : string) : io unit :=
  let* _ := open_wb outputFile in
  let* db := __init__ dbFile in
  write_all fasta_text outputFile (itervalues db).

(** ** Invariants of a built store *)

(** The rows of the admin table after the field names went in, in order. *)
Definition admin_rows (fields : list string) : list (Z * string) :=
  zip (seqZ 1 (Z.of_nat (length fields))) fields.

(** The database as [create_db] has it on file when the first record is
    asked of the iterator: both tables, the index, no record. *)
Definition schema_only (fields : list string) : database :=
  Database (Some (admin_rows fields)) (Some (Table fields [])) (head fields).

(** What the insert loop of [create_db] does to the connection's view. *)
Fixpoint insert_all (fields : list string) (records : list dict) (db : database)
    : result database :=
  match records with
  | [] => Ok db
  | record :: records' =>
      let? data := record_tuple record fields in
      let? db := insert_row fields data db in
      insert_all fields records' db
  end.

Definition valid_schema (fields : list string) : Prop :=
  fields ≠ [] ∧ NoDup (_PRIMARY_KEY :: fields).

(** A dictionary table as the builder leaves it: keys [1..n] in order, one
    value per column in every row, no lookup key twice. *)
Record table_ok (queryBy : string) (t : table) : Prop := TableOk {
  ok_keys : (rows t).*1 = seqZ 1 (Z.of_nat (length (rows t)));
  ok_width : Forall (λ r, length r.2 = length (columns t)) (rows t);
  ok_unique : NoDup (cell t queryBy <$> rows t)
}.

(** An open store over such a table. *)
Record store_ok (self : screedDB) : Prop := StoreOk {
  ok_table : ∃ t, _db self = Some t ∧ columns t = _fieldTuple self
                  ∧ table_ok (_queryBy self) t
                  ∧ _len self = max_rowid (rows t);
  ok_queryBy : head (_fieldTuple self) = Some (_queryBy self);
  ok_fields : NoDup (_PRIMARY_KEY :: _fieldTuple self)
}.

(** The table of an open store. *)
Definition the_table (self : screedDB) : table :=
  default (Table [] []) (_db self).

(** The record that [_buildRecord] makes of a row. *)
Definition row_record (fieldTuple : list string) (r : Z * list string) : record :=
  <[_PRIMARY_KEY := VInt (r.1 - 1)]> (list_to_map (zip fieldTuple (VStr <$> r.2))).

(** ** Shape of a wrapped text *)

(** Lines of exactly [width] characters, except that the last one has
    between one and [width]. *)
Fixpoint wrapped (width : nat) (ls : list string) : Prop :=
  match ls with
  | [] => True
  | l :: ls' =>
      match ls' with
      | [] => 1 ≤ Py.len l ≤ width
      | _ => Py.len l = width
      end ∧ wrapped width ls'
  end.

(** The quality text of a record whose sequence is [sequence]: its accuracy
    if it has one, else the sentinel character once per base. *)
Definition quality_of (value : record) (sequence : string) : string :=
  match value !! "accuracy" with
  | Some a => str a
  | None => Py.repeat _null_accuracy (Py.len sequence)
  end.

(** The comment of a record: its description if it has one, else its
    annotations if it has them, else nothing. *)
Definition comment_of (value : record) : string :=
  match value !! "description" with
  | Some d => str d
  | None =>
      match value !! "annotations" with
      | Some a => str a
      | None => ""
      end
  end.

(** The FASTQ text of a record with the given name and sequence. *)
Definition fastq_entry (value : record) (name sequence : string) : string :=
  "@" +:+ name +:+ " " +:+ comment_of value +:+ newline +:+
  linewrap sequence +:+ newline +:+ "+" +:+ newline +:+
  linewrap (quality_of value sequence) +:+ newline.

(** ** Streams made of record blocks *)

(** A header remainder up to its first space, and what follows that space. *)
Fixpoint before_space (s : string) : string :=
  match s with
  | EmptyString => EmptyString
  | String c s' => if Ascii.eqb c " "%char then EmptyString else String c (before_space s')
  end.

Fixpoint after_space (s : string) : string :=
  match s with
  | EmptyString => EmptyString
  | String c s' => if Ascii.eqb c " "%char then s' else after_space s'
  end.

(** The next stripped line of a handle. *)
Definition next_line (h : handle) : string := (readline_strip h).1.

(** The raw lines of one FASTQ record. *)
Record fq_block := FqBlock {
  fq_header : string;
  fq_sequence : list string;
  fq_plus : string;
  fq_accuracy : list string
}.

Definition fq_lines (b : fq_block) : list string :=
  fq_header b :: fq_sequence b ++ fq_plus b :: fq_accuracy b.

Record fq_block_ok (b : fq_block) : Prop := FqBlockOk {
  fq_header_ok : Py.startswith "@" (Py.strip (fq_header b)) = true;
  fq_sequence_ok :
    Forall (λ l, Py.startswith "+" (Py.strip l) = false) (fq_sequence b);
  fq_plus_ok : Py.startswith "+" (Py.strip (fq_plus b)) = true;
  fq_accuracy_ok :
    Forall (λ l, Py.startswith "@" (Py.strip l) = false ∧ Py.strip l ≠ "")
      (fq_accuracy b)
}.

Definition fq_fields (name annotations sequence accuracy : string) : dict :=
  <["accuracy" := accuracy]> (<["sequence" := sequence]>
    (<["annotations" := annotations]> (<["name" := name]> ∅))).

Definition fq_record (b : fq_block) : dict :=
  fq_fields (before_space (Py.from1 (Py.strip (fq_header b))))
            (after_space (Py.from1 (Py.strip (fq_header b))))
            (Py.join (Py.strip <$> fq_sequence b))
            (Py.join (Py.strip <$> fq_accuracy b)).

Definition fq_balanced (b : fq_block) : Prop :=
  Py.len (Py.join (Py.strip <$> fq_sequence b))
  = Py.len (Py.join (Py.strip <$> fq_accuracy b)).

(** Where the accuracy lines of a FASTQ record end: before a line that
    begins with [@], a blank line, or the end of the stream. *)
Definition fq_stop (h : handle) : Prop :=
  next_line h = "" ∨ Py.startswith "@" (next_line h) = true.

(** Where the sequence lines of a FASTA record end: before a line that
    begins with [>], a blank line, or the end of the stream. *)
Definition fa_stop (h : handle) : Prop :=
  next_line h = "" ∨ Py.startswith ">" (next_line h) = true.

(** The raw lines of one FASTA record. *)
Record fa_block := FaBlock {
  fa_header : string;
  fa_sequence : list string
}.

Definition fa_lines (b : fa_block) : list string :=
  fa_header b :: fa_sequence b.

Record fa_block_ok (b : fa_block) : Prop := FaBlockOk {
  fa_header_ok : Py.startswith ">" (Py.strip (fa_header b)) = true;
  fa_sequence_ok :
    Forall (λ l, Py.startswith ">" (Py.strip l) = false ∧ Py.strip l ≠ "")
      (fa_sequence b)
}.

Definition fa_fields (name description sequence : string) : dict :=
  <["sequence" := sequence]> (<["description" := description]> (<["name" := name]> ∅)).

Definition fa_record (b : fa_block) : dict :=
  fa_fields (Py.strip (before_space (Py.from1 (Py.strip (fa_header b)))))
            (Py.strip (after_space (Py.from1 (Py.strip (fa_header b)))))
            (Py.join (Py.strip <$> fa_sequence b)).

(** The keys of the dictionaries that the FASTQ and FASTA parsers fill. *)
Definition fq_keys : gset string :=
  {[ "name"; "annotations"; "sequence"; "accuracy" ]}.
Definition fa_keys : gset string :=
  {[ "name"; "description"; "sequence" ]}.

(** ** The grammars in the words of the specification

    Over the stripped lines of a stream: a record per line that begins with
    the marker; FASTQ sequence lines up to a line that begins with [+], which
    is dropped, then accuracy lines up to a line that begins with [@] or the
    end of the stream; FASTA sequence lines up to the next line that begins
    with [>] or the end of the stream. *)
Fixpoint span_until (stop : string → bool) (ls : list string)
    : list string * list string :=
  match ls with
  | [] => ([], [])
  | l :: ls' =>
      if stop l then ([], ls)
      else let '(a, b) := span_until stop ls' in (l :: a, b)
  end.

Fixpoint fastq_by_the_words (n : nat) (lines : list string) : trace :=
  match n with
  | O => ([], Diverged)
  | S n' =>
      match lines with
      | [] => ([], Stopped)
      | header :: rest =>
          if negb (Py.startswith "@" header) then ([], Failed IOError)
          else
            let '(sequence, rest) := span_until (Py.startswith "+") rest in
            let '(accuracy, rest) := span_until (Py.startswith "@") (tail rest) in
            if negb (Py.len (Py.join sequence) =? Py.len (Py.join accuracy))%nat
            then ([], Failed IOError)
            else
              let '(records, e) := fastq_by_the_words n' rest in
              (fq_fields (before_space (Py.from1 header)) (after_space (Py.from1 header))
                 (Py.join sequence) (Py.join accuracy) :: records, e)
      end
  end.

Fixpoint fasta_by_the_words (n : nat) (lines : list string) : trace :=
  match n with
  | O => ([], Diverged)
  | S n' =>
      match lines with
      | [] => ([], Stopped)
      | header :: rest =>
          if negb (Py.startswith ">" header) then ([], Failed IOError)
          else
            let '(sequence, rest) := span_until (Py.startswith ">") rest in
            let '(records, e) := fasta_by_the_words n' rest in
            (fa_fields (Py.strip (before_space (Py.from1 header)))
               (Py.strip (after_space (Py.from1 header)))
               (Py.join sequence) :: records, e)
      end
  end.

(** The number of lines of a stream that begin with a marker. *)
Definition count_headers (marker : string) (h : handle) : nat :=
  length (filter (λ l, Py.startswith marker l = true) h).

(** ** Sample inputs

    [dbConstants.fileExtension] is taken to be [_screed] and
    [dbConstants._PRIMARY_KEY] to be [id] (the tests read a record's row
    index as [record.id]) where a run needs them. *)

Definition ext : string := "_screed".
Definition pk : string := "id".

(** A FASTQ file with one record, five bases and four qualities. *)
Definition unbalanced_fastq : string :=
  "@r1" +:+ newline +:+ "ACGTA" +:+ newline +:+ "+" +:+ newline +:+
  "IIII" +:+ newline.

(** A store file that was built before. *)
Definition old_store : database :=
  Database (Some [(1%Z, "name"); (2%Z, "sequence")])
    (Some (Table ["name"; "sequence"] [(1%Z, ["old"; "TTTT"])]))
    (Some "name").

(** A FASTQ stream of two records, and the records. *)
Definition two_fastq_records : handle :=
  Py.readlines ("@r1 first" +:+ newline +:+ "ACGT" +:+ newline +:+ "+" +:+ newline +:+
                "IIII" +:+ newline +:+ "@r2" +:+ newline +:+ "GG" +:+ newline +:+
                "+" +:+ newline +:+ "HH" +:+ newline).

Definition fastq_r1 : dict :=
  {[ "name" := "r1"; "annotations" := "first"; "sequence" := "ACGT"; "accuracy" := "IIII" ]}.
Definition fastq_r2 : dict :=
  {[ "name" := "r2"; "annotations" := ""; "sequence" := "GG"; "accuracy" := "HH" ]}.

(** A FASTA file of two records, the filesystem after its store was built,
    the opened store and its records. *)
Definition two_fasta_records : string :=
  ">A" +:+ newline +:+ "ACGT" +:+ newline +:+
  ">B sample" +:+ newline +:+ "TTTT" +:+ newline.

Definition sample_table : table :=
  Table FASTAFIELDTYPES [(1%Z, ["A"; ""; "ACGT"]); (2%Z, ["B"; "sample"; "TTTT"])].

Definition sample_fs : filesystem :=
  {[ "two.fa" := TextFile two_fasta_records;
     "two.fa_screed" :=
       DbFile (Database (Some [(1%Z, "name"); (2%Z, "description"); (3%Z, "sequence")])
                 (Some sample_table) (Some "name")) ]}.

Definition sample_store : screedDB :=
  ScreedDB (Some sample_table) FASTAFIELDTYPES "name" (Some 2%Z).

Definition record_A : record :=
  {[ "id" := VInt 0; "name" := VStr "A"; "description" := VStr ""; "sequence" := VStr "ACGT" ]}.
Definition record_B : record :=
  {[ "id" := VInt 1; "name" := VStr "B"; "description" := VStr "sample";
     "sequence" := VStr "TTTT" ]}.

(** Two FASTQ records with a blank line between them; the first record as
    a block, and the lines after it. *)
Definition fastq_with_blank_line : string :=
  "@a" +:+ newline +:+ "AC" +:+ newline +:+ "+" +:+ newline +:+ "II" +:+ newline +:+
  newline +:+
  "@b" +:+ newline +:+ "GG" +:+ newline +:+ "+" +:+ newline +:+ "HH" +:+ newline.

Definition block_a : fq_block :=
  FqBlock ("@a" +:+ newline) ["AC" +:+ newline] ("+" +:+ newline) ["II" +:+ newline].

Definition after_block_a : handle :=
  [newline; "@b" +:+ newline; "GG" +:+ newline; "+" +:+ newline; "HH" +:+ newline].

(** Two FASTA records with a blank line between them; the first record as
    a block, and the lines after it. *)
Definition fasta_with_blank_line : string :=
  ">a" +:+ newline +:+ "AC" +:+ newline +:+ newline +:+
  ">b" +:+ newline +:+ "GG" +:+ newline.

Definition block_fa : fa_block := FaBlock (">a" +:+ newline) ["AC" +:+ newline].

Definition after_block_fa : handle := [newline; ">b" +:+ newline; "GG" +:+ newline].

(** A FASTA record after a leading blank line. *)
Definition fasta_after_blank_line : string :=
  newline +:+ ">a" +:+ newline +:+ "AC" +:+ newline.

(** ** More of the parsers and their callers *)

(** The lines a parked iterator still has to look at: the look-ahead line,
    if it is not empty, and the lines left in the handle. *)
Definition pending (line : string) (h : handle) : nat :=
  length h + (if bool_decide (line = "") then 0 else 1).

(** The raw lines of one record of the fixed-schema ("hava") format. *)
Record hava_block := HavaBlock {
  hava_line : string;
  quarzk_line : string;
  muchalo_line : string;
  fakours_line : string;
  selimizicka_line : string;
  marshoon_line : string
}.

Definition hava_lines (b : hava_block) : list string :=
  [hava_line b; quarzk_line b; muchalo_line b; fakours_line b;
   selimizicka_line b; marshoon_line b].

Definition hava_fields (a b c d e f : string) : dict :=
  <["marshoon" := f]> (<["selimizicka" := e]> (<["fakours" := d]>
    (<["muchalo" := c]> (<["quarzk" := b]> (<["hava" := a]> ∅))))).

Definition hava_record (b : hava_block) : dict :=
  hava_fields (Py.strip (hava_line b)) (Py.strip (quarzk_line b))
    (Py.strip (muchalo_line b)) (Py.strip (fakours_line b))
    (Py.strip (selimizicka_line b)) (Py.strip (marshoon_line b)).

Definition hava_keys : gset string :=
  {[ "hava"; "quarzk"; "muchalo"; "fakours"; "selimizicka"; "marshoon" ]}.

Definition HAVAFIELDS : list string :=
  ["hava"; "quarzk"; "muchalo"; "fakours"; "selimizicka"; "marshoon"].

(** How a build from complete records comes out: it returns and the store
    then opens with one row per record; or a lookup key came twice; or the
    iterator raised; or the iterator never came to an end. *)
Inductive build_outcome (filepath : string) (fields : list string) (q : string)
    (records : list dict) (e : ending) (fs : filesystem)
    : result unit → filesystem → Prop :=
| BuildDone (db : database) (self : screedDB) :
    e = Stopped → NoDup ((λ r, r !! q) <$> records) →
    __init__ filepath (<[normalize filepath := DbFile db]> fs)
      = (Ok self, <[normalize filepath := DbFile db]> fs) →
    store_ok self → _fieldTuple self = fields →
    length (rows (the_table self)) = length records →
    build_outcome filepath fields q records e fs
      (Ok tt) (<[normalize filepath := DbFile db]> fs)
| BuildRepeatedKey :
    ¬ NoDup ((λ r, r !! q) <$> records) →
    build_outcome filepath fields q records e fs
      (Raise IntegrityError)
      (<[normalize filepath := DbFile (schema_only fields)]> fs)
| BuildIteratorRaised (x : exn) :
    e = Failed x → NoDup ((λ r, r !! q) <$> records) →
    build_outcome filepath fields q records e fs
      (Raise x) (<[normalize filepath := DbFile (schema_only fields)]> fs)
| BuildIteratorDiverged :
    e = Diverged → NoDup ((λ r, r !! q) <$> records) →
    build_outcome filepath fields q records e fs
      Hang (<[normalize filepath := DbFile (schema_only fields)]> fs).

(** Records for the builder: two with distinct names, two with the same
    name, and one without a sequence; one group of the fixed-schema format. *)
Definition two_records : list dict :=
  [fa_fields "A" "" "ACGT"; fa_fields "B" "sample" "TTTT"].



Definition hava_group : hava_block :=
  HavaBlock ("a" +:+ newline) ("b" +:+ newline) ("c" +:+ newline)
    ("d" +:+ newline) ("e" +:+ newline) ("f" +:+ newline).

(** Whether a character occurs in a text. *)
Fixpoint has_char (c : ascii) (s : string) : bool :=
  match s with
  | EmptyString => false
  | String a s' => Ascii.eqb a c || has_char c s'
  end.

(** ** Records that survive the way through a FASTA text *)

(** Whether every character of a text passes a test. *)
Fixpoint all_chars (p : ascii → bool) (s : string) : bool :=
  match s with
  | EmptyString => true
  | String a s' => p a && all_chars p s'
  end.

Definition not_space (c : ascii) : bool := negb (Ascii.is_space c).
Definition not_newline (c : ascii) : bool := negb (Ascii.eqb c "010"%char).
Definition is_base (c : ascii) : bool :=
  negb (Ascii.is_space c) && negb (Ascii.eqb c ">"%char).

(** A name, a description and a sequence; the store record and the parser
    record that hold them. *)
Record fa_entry := FaEntry {
  entry_name : string;
  entry_description : string;
  entry_sequence : string
}.

Definition entry_value (e : fa_entry) : record :=
  <["sequence" := VStr (entry_sequence e)]>
    (<["description" := VStr (entry_description e)]>
       (<["name" := VStr (entry_name e)]> ∅)).

Definition entry_record (e : fa_entry) : dict :=
  fa_fields (entry_name e) (entry_description e) (entry_sequence e).

(** The name has no whitespace; the description has no newline and no
    whitespace around it; the sequence is not empty and has neither
    whitespace nor the marker [>]. *)
Record entry_clean (e : fa_entry) : Prop := EntryClean {
  clean_name : all_chars not_space (entry_name e) = true;
  clean_description : all_chars not_newline (entry_description e) = true;
  clean_stripped : Py.strip (entry_description e) = entry_description e;
  clean_nonempty : entry_sequence e ≠ "";
  clean_sequence : all_chars is_base (entry_sequence e) = true
}.

(** The lines of the text written for an entry, without their newlines, and
    with them as a block of the stream. *)
Definition entry_raw (e : fa_entry) : list string :=
  (">" +:+ entry_name e +:+ " " +:+ entry_description e)
  :: linewrap_loop (entry_sequence e) 0 [].

Definition entry_block (e : fa_entry) : fa_block :=
  FaBlock (">" +:+ entry_name e +:+ " " +:+ entry_description e +:+ newline)
    ((λ l, l +:+ newline) <$> linewrap_loop (entry_sequence e) 0 []).

(** Two entries and the texts written for them. *)
Definition two_entries : list fa_entry :=
  [FaEntry "A" "" "ACGT"; FaEntry "B" "sample" "TTTT"].

Definition two_entry_texts : list string :=
  [">A " +:+ newline +:+ "ACGT" +:+ newline;
   ">B sample" +:+ newline +:+ "TTTT" +:+ newline].

(** ** Records that survive the way through a FASTQ text *)

Definition is_sequence_char (c : ascii) : bool :=
  negb (Ascii.is_space c) && negb (Ascii.eqb c "+"%char).
Definition is_accuracy_char (c : ascii) : bool :=
  negb (Ascii.is_space c) && negb (Ascii.eqb c "@"%char).

Record fq_entry := FqEntry {
  qentry_name : string;
  qentry_annotations : string;
  qentry_sequence : string;
  qentry_accuracy : string
}.

Definition qentry_value (e : fq_entry) : record :=
  <["accuracy" := VStr (qentry_accuracy e)]>
    (<["sequence" := VStr (qentry_sequence e)]>
       (<["annotations" := VStr (qentry_annotations e)]>
          (<["name" := VStr (qentry_name e)]> ∅))).

Definition qentry_record (e : fq_entry) : dict :=
  fq_fields (qentry_name e) (qentry_annotations e) (qentry_sequence e)
    (qentry_accuracy e).

(** The name has no whitespace; the annotations have no newline and no
    whitespace at their end; the sequence is not empty and has neither
    whitespace nor [+]; the accuracy is as long as the sequence and has
    neither whitespace nor [@]. *)
Record qentry_clean (e : fq_entry) : Prop := QEntryClean {
  qclean_name : all_chars not_space (qentry_name e) = true;
  qclean_annotations : all_chars not_newline (qentry_annotations e) = true;
  qclean_stripped : Py.rstrip (qentry_annotations e) = qentry_annotations e;
  qclean_nonempty : qentry_sequence e ≠ "";
  qclean_sequence : all_chars is_sequence_char (qentry_sequence e) = true;
  qclean_accuracy : all_chars is_accuracy_char (qentry_accuracy e) = true;
  qclean_balanced : Py.len (qentry_sequence e) = Py.len (qentry_accuracy e)
}.

Definition qentry_raw (e : fq_entry) : list string :=
  ("@" +:+ qentry_name e +:+ " " +:+ qentry_annotations e)
  :: linewrap_loop (qentry_sequence e) 0 []
  ++ "+" :: linewrap_loop (qentry_accuracy e) 0 [].

Definition qentry_block (e : fq_entry) : fq_block :=
  FqBlock ("@" +:+ qentry_name e +:+ " " +:+ qentry_annotations e +:+ newline)
    ((λ l, l +:+ newline) <$> linewrap_loop (qentry_sequence e) 0 [])
    ("+" +:+ newline)
    ((λ l, l +:+ newline) <$> linewrap_loop (qentry_accuracy e) 0 []).

(** Two FASTQ entries and the texts written for them. *)
Definition two_fastq_entries : list fq_entry :=
  [FqEntry "r1" "first" "ACGT" "IIII"; FqEntry "r2" "" "GG" "HH"].

Definition two_fastq_entry_texts : list string :=
  ["@r1 first" +:+ newline +:+ "ACGT" +:+ newline +:+ "+" +:+ newline +:+
   "IIII" +:+ newline;
   "@r2 " +:+ newline +:+ "GG" +:+ newline +:+ "+" +:+ newline +:+ "HH" +:+ newline].

(** * Properties *)

(** ** The FASTQ iterator on a stream cut inside a sequence block *)

Lemma startswith_empty (p : string) :
  p ≠ "" → Py.startswith p "" = false.
Proof. by destruct p. Qed.

Lemma startswith_nonempty (p s : string) :
  p ≠ "" → Py.startswith p s = true → s ≠ "".
Proof. intros Hp Hs ->. by rewrite startswith_empty in Hs. Qed.

Lemma readline_strip_nil : readline_strip [] = ("", []).
Proof. reflexivity. Qed.

Lemma readline_strip_cons (l : string) (h : handle) :
  readline_strip (l :: h) = (Py.strip l, h).
Proof. reflexivity. Qed.

(** Without a line that starts with [+] ahead, the sequence loop of [fqiter]
    uses up any fuel: at the end of the stream [readline()] keeps returning
    the empty string, which does not start with [+] either. *)
Lemma fastq_sequence_loop_no_plus (fuel : nat) (sequence : list string)
    (line : string) (h : handle) :
  Py.startswith "+" line = false →
  Forall (λ l, Py.startswith "+" (Py.strip l) = false) h →
  Fastq.sequence_loop fuel sequence line h = None.
Proof.
  revert sequence line h.
  induction fuel as [|fuel IH]; intros sequence line h Hline Hh; [done|].
  simpl. rewrite Hline. simpl.
  destruct h as [|l h].
  - rewrite readline_strip_nil. by apply IH.
  - rewrite readline_strip_cons. inversion_clear Hh. by apply IH.
Qed.

Lemma fqiter_truncated (fuel : nat) (header : string) (h : handle) :
  Py.startswith "@" (Py.strip header) = true →
  Forall (λ l, Py.startswith "+" (Py.strip l) = false) h →
  run fqiter fuel (header :: h) = ([], Diverged).
Proof.
  intros Hhd Hh. unfold run.
  destruct fuel as [|fuel]; [done|].
  cbn [drive gen_next]. rewrite readline_strip_cons.
  unfold gen_loop.
  rewrite bool_decide_eq_false_2 by (by eapply startswith_nonempty; [|done]).
  cbn [parser_body fqiter]. unfold Fastq.body. rewrite Hhd. cbn [negb].
  destruct h as [|l h].
  - rewrite readline_strip_nil.
    by rewrite fastq_sequence_loop_no_plus.
  - rewrite readline_strip_cons. inversion_clear Hh.
    by rewrite fastq_sequence_loop_no_plus.
Qed.

(** C9, at the failing input: on the two-line stream [@r1], [ACGT] (no line
    beginning with [+]) the FASTQ iterator yields nothing and does not
    terminate, whatever fuel it is given. *)
Theorem fqiter_truncated_stream_never_returns :
  ∀ fuel : nat,
    run fqiter fuel (Py.readlines ("@r1" +:+ newline +:+ "ACGT" +:+ newline))
    = ([], Diverged).
Proof.
  intros fuel.
  change (Py.readlines _) with ["@r1" +:+ newline; "ACGT" +:+ newline].
  apply fqiter_truncated; [done|].
  by repeat constructor.
Qed.

(** ** Aliasing between the records a parser yields *)


Section Aliasing.
Variable p : parser.
Variable fuel : nat.





End Aliasing.

(** ** The methods that are not implemented *)

(** Called with as many arguments as it declares, each of them raises
    [AttributeError] and hands the store back as it was. *)
Lemma mutators_declared_arity (self : screedDB) (something : pyval) :
  __setitem__ self [something] = (Raise AttributeError, self) ∧
  clear self [] = (Raise AttributeError, self) ∧
  update self [something] = (Raise AttributeError, self) ∧
  setdefault self [something] = (Raise AttributeError, self) ∧
  pop self [] = (Raise AttributeError, self) ∧
  popitem self [] = (Raise AttributeError, self).
Proof. by repeat split. Qed.

(** C7, at the failing input: the item assignment [db[key] = value] passes
    two arguments to [__setitem__], which declares one; the call raises
    [TypeError], not the [AttributeError] of an unsupported operation. The
    store is unchanged. *)
Theorem setitem_assignment_raises_TypeError (self : screedDB) (key value : pyval) :
  assign_item self key value = (Raise TypeError, self) ∧
  assign_item self key value ≠ (Raise AttributeError, self).
Proof. by split. Qed.

(** ** The store builder *)

Lemma io_bind_ok {A B} (m : io A) (k : A → io B) (fs fs' : filesystem) (a : A) :
  m fs = (Ok a, fs') → io_bind m k fs = k a fs'.
Proof. unfold io_bind. by intros ->. Qed.

Lemma foldr_max_seqZ (n : nat) (a : Z) :
  (0 ≤ a)%Z → foldr Z.max a (seqZ 1 (Z.of_nat n)) = Z.max a (Z.of_nat n).
Proof.
  revert a. induction n as [|n IH]; intros a Ha.
  { rewrite seqZ_nil by lia. cbn [foldr]. lia. }
  rewrite seqZ_S, foldr_app. cbn [foldr]. rewrite IH; lia.
Qed.

Lemma next_rowid_contiguous {A} (rs : list (Z * A)) :
  rs.*1 = seqZ 1 (Z.of_nat (length rs)) →
  next_rowid rs = (1 + Z.of_nat (length rs))%Z.
Proof. unfold next_rowid. intros ->. rewrite foldr_max_seqZ; lia. Qed.

Lemma max_rowid_contiguous {A} (rs : list (Z * A)) :
  rs.*1 = seqZ 1 (Z.of_nat (length rs)) → rs ≠ [] →
  max_rowid rs = Some (Z.of_nat (length rs)).
Proof.
  intros Hk Hne. destruct rs as [|r rs]; [done|].
  unfold max_rowid. rewrite Hk, foldr_max_seqZ by lia. f_equal; lia.
Qed.

Lemma contiguous_snoc {A} (rs : list (Z * A)) (a : A) :
  rs.*1 = seqZ 1 (Z.of_nat (length rs)) →
  (rs ++ [(next_rowid rs, a)]).*1 = seqZ 1 (Z.of_nat (length (rs ++ [(next_rowid rs, a)]))).
Proof.
  intros Hk. rewrite fmap_app, length_app, Nat.add_1_r, seqZ_S.
  rewrite (next_rowid_contiguous _ Hk). cbn. by rewrite Hk at 1.
Qed.

Lemma admin_rows_snoc (fields : list string) (f : string) :
  admin_rows fields ++ [(next_rowid (admin_rows fields), f)]
  = admin_rows (fields ++ [f]).
Proof.
  assert ((admin_rows fields).*1 = seqZ 1 (Z.of_nat (length (admin_rows fields)))) as Hk.
  { unfold admin_rows.
    rewrite fst_zip, length_zip_with_l_eq; rewrite ?length_seqZ, ?Nat2Z.id; done. }
  rewrite (next_rowid_contiguous _ Hk).
  unfold admin_rows at 3. rewrite length_app, Nat.add_1_r, seqZ_S.
  rewrite zip_with_app by (rewrite length_seqZ; lia).
  unfold admin_rows. rewrite length_zip_with_l_eq by (rewrite length_seqZ; lia).
  rewrite length_seqZ, Nat2Z.id. done.
Qed.

Lemma admin_rows_snd (fields : list string) : (admin_rows fields).*2 = fields.
Proof. unfold admin_rows. rewrite snd_zip; [done|]. rewrite length_seqZ. lia. Qed.

Lemma insert_admin_fold (p : string) (fields entered : list string)
    (db : database) (fs : filesystem) :
  admin db = Some (admin_rows entered) →
  io_fold (λ con attribute, execute_dml (insert_admin attribute) con)
    (Connection p db) fields fs
  = (Ok (Connection p (Database (Some (admin_rows (entered ++ fields)))
                         (dict_table db) (unique_index db))), fs).
Proof.
  revert entered db.
  induction fields as [|f fields IH]; intros entered [adm dt ui] [= ->].
  - cbn. by rewrite app_nil_r.
  - cbn [io_fold]. erewrite io_bind_ok; last first.
    { unfold execute_dml, io_bind, io_lift, insert_admin. by cbn. }
    cbn [con_path]. rewrite IH with (entered := entered ++ [f]).
    + by rewrite <- app_assoc.
    + cbn. by rewrite admin_rows_snoc.
Qed.

Lemma execute_ddl_ok (stmt : database → result database) (p : string)
    (db db' : database) (fs : filesystem) :
  stmt db = Ok db' →
  execute_ddl stmt (Connection p db) fs
  = (Ok (Connection p db'), <[p := DbFile db']> fs).
Proof.
  intros Hs. unfold execute_ddl, io_bind, con_commit, io_lift, io_ret. cbn.
  rewrite Hs. cbn. by rewrite insert_insert_eq.
Qed.

Lemma insert_records_fold (p : string) (fields : list string)
    (records : list dict) (db : database) (fs : filesystem) :
  io_fold (λ con record,
      let* data := io_lift (record_tuple record fields) in
      execute_dml (insert_row fields data) con) (Connection p db) records fs
  = (match insert_all fields records db with
     | Ok db' => Ok (Connection p db')
     | Raise e => Raise e
     | Hang => Hang
     end, fs).
Proof.
  revert db. induction records as [|record records IH]; intros db; [done|].
  cbn [io_fold insert_all]. unfold io_bind at 1 2. unfold io_lift at 1.
  destruct (record_tuple record fields) as [data|e|]; [|done..].
  unfold execute_dml, io_bind, io_lift. cbn.
  destruct (insert_row fields data db) as [db'|e|]; [|done..].
  cbn. apply IH.
Qed.

(** What [create_db] returns and leaves on the filesystem, for a schema the
    engine accepts. *)
Lemma create_db_eq (filepath : string) (fields : list string) (it : trace)
    (fs : filesystem) :
  valid_schema fields →
  create_db filepath fields it fs =
    match insert_all fields it.1 (schema_only fields) with
    | Ok db =>
        match it.2 with
        | Stopped => (Ok tt, <[normalize filepath := DbFile db]> fs)
        | Failed e => (Raise e, <[normalize filepath := DbFile (schema_only fields)]> fs)
        | Diverged => (Hang, <[normalize filepath := DbFile (schema_only fields)]> fs)
        end
    | Raise e => (Raise e, <[normalize filepath := DbFile (schema_only fields)]> fs)
    | Hang => (Hang, <[normalize filepath := DbFile (schema_only fields)]> fs)
    end.
Proof.
  intros [Hne Hnd]. unfold create_db. fold (normalize filepath).
  set (p := normalize filepath).
  assert (∀ (B : Type) (k : io B),
            io_bind (if bool_decide (is_Some (fs !! p))
                     then os_unlink p else io_ret tt) (λ _, k) fs
            = k (delete p fs)) as Hunlink.
  { intros B k. unfold io_bind. case_bool_decide as Hex; [done|].
    cbn. rewrite delete_id; [done|]. by apply eq_None_not_Some. }
  unfold io_bind at 1. cbn [os_path_exists]. unfold os_path_exists.
  rewrite Hunlink.
  erewrite io_bind_ok; last first.
  { unfold sqlite3_connect. by rewrite lookup_delete_eq. }
  rewrite insert_delete_eq.
  erewrite io_bind_ok; last by apply execute_ddl_ok.
  rewrite insert_insert_eq.
  erewrite io_bind_ok; last by apply (insert_admin_fold p fields []).
  cbn [app dict_table unique_index].
  erewrite io_bind_ok; last first.
  { apply execute_ddl_ok. unfold create_dict_table. cbn.
    by rewrite bool_decide_eq_true_2. }
  rewrite insert_insert_eq.
  destruct fields as [|f fields]; [done|].
  unfold io_bind at 1, io_lift at 1.
  erewrite io_bind_ok; last first.
  { apply execute_ddl_ok. unfold create_unique_index. cbn.
    by rewrite bool_decide_eq_true_2 by set_solver. }
  rewrite insert_insert_eq. cbn [admin dict_table].
  fold (schema_only (f :: fields)).
  unfold insert_records, io_bind at 1.
  unfold io_bind at 1. rewrite insert_records_fold.
  destruct (insert_all _ _ _) as [db|e|]; [|done..].
  destruct it as [records [|e|]]; cbn; [|done..].
  unfold con_commit. cbn. by rewrite insert_insert_eq.
Qed.

Lemma cell_columns (t t' : table) (col : string) (r : Z * list string) :
  columns t' = columns t → cell t' col r = cell t col r.
Proof. unfold cell. by intros ->. Qed.

(** One [INSERT] keeps the table in shape and appends the row. *)
Lemma insert_row_ok (fields data : list string) (q : string) (db db' : database)
    (t : table) :
  dict_table db = Some t → columns t = fields → unique_index db = Some q →
  table_ok q t →
  insert_row fields data db = Ok db' →
  ∃ t', dict_table db' = Some t' ∧ columns t' = fields ∧
        rows t' = rows t ++ [(next_rowid (rows t), data)] ∧
        table_ok q t' ∧ admin db' = admin db ∧ unique_index db' = Some q.
Proof.
  intros Ht Hc Hq [Hk Hw Hu]. unfold insert_row. rewrite Ht, Hq.
  case_bool_decide as Hshape; [|done]. destruct Hshape as [_ Hlen].
  case_bool_decide as Hdup; [done|]. intros [= <-].
  eexists. split; [done|]. cbn [columns rows admin unique_index].
  repeat split; try done; cbn [rows columns].
  - by apply contiguous_snoc.
  - rewrite Forall_app. split; [done|]. constructor; [|done]. cbn. by rewrite Hc.
  - rewrite fmap_app. cbn [fmap list_fmap].
    rewrite (list_fmap_ext _ (cell t q) (rows t)) by (intros; by apply cell_columns).
    rewrite (cell_columns t) by done.
    apply NoDup_app. split; [done|]. split; [|apply NoDup_singleton].
    intros x Hx Hx'. apply list_elem_of_singleton in Hx' as ->. done.
Qed.

Lemma insert_all_ok (fields : list string) (q : string) (records : list dict)
    (db db' : database) (t : table) :
  dict_table db = Some t → columns t = fields → unique_index db = Some q →
  table_ok q t →
  insert_all fields records db = Ok db' →
  ∃ t', dict_table db' = Some t' ∧ columns t' = fields ∧
        length (rows t') = length (rows t) + length records ∧
        table_ok q t' ∧ admin db' = admin db.
Proof.
  revert db t. induction records as [|record records IH]; intros db t Ht Hc Hq Hok.
  - intros [= <-]. exists t. by rewrite Nat.add_0_r.
  - cbn [insert_all]. destruct (record_tuple record fields) as [data|e|]; [|done..].
    cbn [res_bind].
    destruct (insert_row fields data db) as [db1|e|] eqn:Hins; [|done..].
    cbn [res_bind]. intros Hall.
    destruct (insert_row_ok _ _ _ _ _ _ Ht Hc Hq Hok Hins)
      as (t1 & Ht1 & Hc1 & Hr1 & Hok1 & Hadm1 & Hq1).
    destruct (IH _ _ Ht1 Hc1 Hq1 Hok1 Hall) as (t' & Ht' & Hc' & Hlen & Hok' & Hadm').
    exists t'. split_and!; [done|done| |done|congruence].
    rewrite Hlen, Hr1, length_app. cbn. lia.
Qed.

(** A finished build opens as a well-formed store with one row per record
    that the iterator yielded; its [__len__] is that number, except that it
    is [None] when there was no record. *)
Lemma build_then_open (filepath : string) (fields : list string)
    (records : list dict) (fs fs' : filesystem) :
  valid_schema fields →
  create_db filepath fields (records, Stopped) fs = (Ok tt, fs') →
  ∃ self, __init__ filepath fs' = (Ok self, fs') ∧ store_ok self ∧
          _fieldTuple self = fields ∧
          length (rows (the_table self)) = length records ∧
          __len__ self = match records with
                         | [] => None
                         | _ => Some (Z.of_nat (length records))
                         end.
Proof.
  intros Hv. rewrite (create_db_eq _ _ _ _ Hv). cbn [fst snd].
  destruct (insert_all fields records (schema_only fields)) as [db| |] eqn:Hall;
    [|done..].
  intros [= <-]. destruct Hv as [Hne Hnd].
  destruct fields as [|q fields]; [done|].
  destruct (insert_all_ok (q :: fields) q records (schema_only (q :: fields)) db
              (Table (q :: fields) [])) as (t & Ht & Hc & Hlen & Hok & Hadm);
    [done|done|done|by split; [| |constructor]|done|].
  cbn in Hlen, Hadm.
  unfold __init__, io_bind, getScreedDB. rewrite lookup_insert_eq.
  rewrite Hadm, Ht, admin_rows_snd. cbn [head].
  rewrite bool_decide_eq_true_2 by done.
  eexists. split; [done|]. unfold the_table, __len__. cbn.
  destruct Hok as [Hk Hw Hu].
  repeat split; try done.
  - exists t. by repeat split.
  - destruct records as [|r records].
    + by destruct (rows t).
    + rewrite <- Hlen. apply max_rowid_contiguous; [done|].
      by destruct (rows t).
Qed.

Lemma insert_all_returns (fields : list string) (records : list dict) (db : database) :
  insert_all fields records db ≠ Hang.
Proof.
  revert db. induction records as [|record records IH]; intros db; [done|].
  cbn [insert_all].
  assert (record_tuple record fields ≠ Hang) as Ht.
  { clear. induction fields as [|f fields IHf]; [done|]. cbn.
    destruct (record !! f); [|done].
    by destruct (record_tuple record fields). }
  destruct (record_tuple record fields) as [data|e|]; [|done..]. cbn [res_bind].
  assert (insert_row fields data db ≠ Hang) as Hi.
  { unfold insert_row. by repeat case_match. }
  destruct (insert_row fields data db) as [db1|e|]; [|done..]. apply IH.
Qed.

(** C1, as amended: when the record iterator raises, [create_db] raises
    too (the iterator's exception, or that of an insert before it); the
    target path then holds a new store file with the schema and no record,
    whatever was at that path before the build. *)
Theorem failed_build_leaves_schema_only (filepath : string) (fields : list string)
    (records : list dict) (e : exn) (fs : filesystem) :
  valid_schema fields →
  ∃ e', create_db filepath fields (records, Failed e) fs
        = (Raise e', <[normalize filepath := DbFile (schema_only fields)]> fs).
Proof.
  intros Hv. rewrite (create_db_eq _ _ _ _ Hv). cbn [fst snd].
  pose proof (insert_all_returns fields records (schema_only fields)).
  destruct (insert_all fields records (schema_only fields)); [by eexists..|done].
Qed.

(** ** Lookups in an opened store *)

Lemma filter_none {A} (P : A → Prop) `{!∀ x, Decision (P x)} (l : list A) :
  (∀ x, x ∈ l → ¬P x) → filter P l = [].
Proof.
  induction l as [|x l IH]; intros Hl; [done|].
  rewrite filter_cons, decide_False by (apply Hl; left).
  apply IH. intros y Hy. apply Hl. by right.
Qed.

Lemma filter_unique {A B} `{EqDecision B} (f : A → B) (rs : list A) (r : A) :
  NoDup (f <$> rs) → r ∈ rs → filter (λ x, f x = f r) rs = [r].
Proof.
  induction rs as [|x rs IH]; intros Hnd Hin; [by apply elem_of_nil in Hin|].
  rewrite fmap_cons, NoDup_cons in Hnd. destruct Hnd as [Hx Hnd].
  rewrite filter_cons. apply elem_of_cons in Hin as [->|Hin].
  - rewrite decide_True by done. f_equal. apply filter_none.
    intros y Hy Heq. apply Hx. rewrite <- Heq. by apply list_elem_of_fmap_2.
  - rewrite decide_False; [by apply IH|].
    intros Heq. apply Hx. rewrite Heq. by apply list_elem_of_fmap_2.
Qed.

Lemma select_where_key (t : table) (j : Z) :
  select_where t _PRIMARY_KEY (VInt j) = filter (λ r, r.1 = j) (rows t).
Proof.
  unfold select_where, matches. apply list_filter_iff. intros r.
  rewrite bool_decide_eq_true_2 by done. rewrite bool_decide_eq_true.
  split; [by intros [= ->]|by intros ->].
Qed.

Lemma select_where_text (t : table) (q s : string) :
  q ≠ _PRIMARY_KEY →
  select_where t q (VStr s) = filter (λ r, cell t q r = Some s) (rows t).
Proof.
  intros Hq. unfold select_where, matches. apply list_filter_iff. intros r.
  rewrite bool_decide_eq_false_2 by done. by rewrite bool_decide_eq_true.
Qed.

Lemma buildRecord_row (fieldTuple : list string) (t : table) (key : pyval)
    (queryBy : string) (r : Z * list string) :
  select_where t queryBy key = [r] →
  _buildRecord fieldTuple t key queryBy = Ok (row_record fieldTuple r).
Proof. unfold _buildRecord. by intros ->. Qed.

Section OpenStore.
Variable self : screedDB.
Variable t : table.
Hypothesis Hdb : _db self = Some t.
Hypothesis Hcols : columns t = _fieldTuple self.
Hypothesis Hok : table_ok (_queryBy self) t.
Hypothesis Hq : head (_fieldTuple self) = Some (_queryBy self).
Hypothesis Hnd : NoDup (_PRIMARY_KEY :: _fieldTuple self).

Lemma queryBy_not_key : _queryBy self ≠ _PRIMARY_KEY.
Proof using Hdb Hcols Hok Hq Hnd.
  destruct (proj1 (NoDup_cons _ _) Hnd) as [Hpk _].
  intros Heq. apply Hpk. rewrite <- Heq. by apply head_Some_elem_of.
Qed.


Lemma rows_key_NoDup : NoDup (rows t).*1.
Proof using Hdb Hcols Hok Hq Hnd. rewrite (ok_keys _ _ Hok). apply NoDup_seqZ. Qed.


(** The lookup key of a row finds the row. *)
Lemma get_row (r : Z * list string) (key : pyval) :
  r ∈ rows t → cell t (_queryBy self) r = Some (str key) →
  __getitem__ self key = Ok (row_record (_fieldTuple self) r).
Proof using Hdb Hcols Hok Hq Hnd.
  intros Hr Hc. unfold __getitem__, cursor. rewrite Hdb. cbn [res_bind].
  rewrite select_where_text by apply queryBy_not_key.
  rewrite <- Hc.
  rewrite (filter_unique (cell t (_queryBy self)) _ r (ok_unique _ _ Hok) Hr).
  apply buildRecord_row. rewrite select_where_text by apply queryBy_not_key.
  rewrite <- Hc.
  apply (filter_unique (cell t (_queryBy self)) _ r (ok_unique _ _ Hok) Hr).
Qed.


Lemma cell_queryBy (r : Z * list string) :
  cell t (_queryBy self) r = head r.2.
Proof using Hdb Hcols Hok Hq Hnd.
  unfold cell. rewrite Hcols.
  destruct (_fieldTuple self) as [|q ft]; [done|].
  injection Hq as <-. cbn. rewrite decide_True by done. cbn.
  by destruct r.2.
Qed.

Lemma row_has_key (r : Z * list string) :
  r ∈ rows t → ∃ k, head r.2 = Some k.
Proof using Hdb Hcols Hok Hq Hnd.
  intros Hr. pose proof (ok_width _ _ Hok) as Hw.
  rewrite Forall_forall in Hw. specialize (Hw r Hr).
  rewrite Hcols in Hw. destruct (_fieldTuple self) as [|q ft]; [done|].
  destruct r.2 as [|k ?]; [done|]. by exists k.
Qed.

(** The lookup keys, row by row. *)
Lemma keys_rows :
  omap (cell t (_queryBy self)) (rows t)
  = (λ r, default "" (head r.2)) <$> rows t.
Proof using Hdb Hcols Hok Hq Hnd.
  pose proof row_has_key as Hk.
  induction (rows t) as [|r rs IH]; [done|].
  cbn. rewrite cell_queryBy.
  destruct (Hk r) as [k ->]; [by left|]. cbn. f_equal.
  apply IH. intros r' Hr'. apply Hk. by right.
Qed.


Lemma build_row (r : Z * list string) :
  r ∈ rows t →
  _buildRecord (_fieldTuple self) t (VInt r.1) _PRIMARY_KEY
  = Ok (row_record (_fieldTuple self) r).
Proof using Hdb Hcols Hok Hq Hnd.
  intros Hr. apply buildRecord_row. rewrite select_where_key.
  apply (filter_unique fst _ r rows_key_NoDup Hr).
Qed.

Lemma build_records_rows (rs : list (Z * list string)) :
  (∀ r, r ∈ rs → r ∈ rows t) →
  build_records self t (rs.*1) = (row_record (_fieldTuple self) <$> rs, Stopped).
Proof using Hdb Hcols Hok Hq Hnd.
  induction rs as [|r rs IH]; intros Hrs; [done|].
  cbn [fmap list_fmap build_records]. rewrite build_row by (apply Hrs; left).
  rewrite IH; [done|]. intros r' Hr'. apply Hrs. by right.
Qed.

(** The value iterator of a store with records: the records of the rows,
    in row order. *)
Lemma itervalues_rows :
  rows t ≠ [] → _len self = max_rowid (rows t) →
  itervalues self = (row_record (_fieldTuple self) <$> rows t, Stopped).
Proof using Hdb Hcols Hok Hq Hnd.
  intros Hne Hlen. unfold itervalues, cursor, __len__. rewrite Hdb, Hlen.
  rewrite (max_rowid_contiguous _ (ok_keys _ _ Hok) Hne).
  rewrite <- (ok_keys _ _ Hok). by apply build_records_rows.
Qed.



Lemma row_record_queryBy (r : Z * list string) (k : string) :
  head r.2 = Some k →
  row_record (_fieldTuple self) r !! _queryBy self = Some (VStr k).
Proof using Hdb Hcols Hok Hq Hnd.
  intros Hk. unfold row_record. rewrite lookup_insert_ne by (symmetry; apply queryBy_not_key).
  destruct (_fieldTuple self) as [|q ft]; [done|]. injection Hq as <-.
  destruct r.2 as [|k' xs]; [done|]. injection Hk as ->.
  cbn. by rewrite lookup_insert_eq.
Qed.

End OpenStore.



(** ** The serializer *)

Lemma str_app_cons (c : ascii) (s1 s2 : string) :
  String c s1 +:+ s2 = String c (s1 +:+ s2).
Proof. reflexivity. Qed.

Lemma str_app_nil_l (s : string) : "" +:+ s = s.
Proof. reflexivity. Qed.

Lemma str_app_nil_r (s : string) : s +:+ "" = s.
Proof. induction s as [|c s IH]; [done|]. by rewrite str_app_cons, IH. Qed.

Lemma str_app_assoc (s1 s2 s3 : string) : (s1 +:+ s2) +:+ s3 = s1 +:+ (s2 +:+ s3).
Proof. induction s1 as [|c s1 IH]; [done|]. by rewrite !str_app_cons, IH. Qed.

Lemma len_app (s1 s2 : string) : Py.len (s1 +:+ s2) = Py.len s1 + Py.len s2.
Proof. induction s1 as [|c s1 IH]; [done|]. rewrite str_app_cons. cbn. by rewrite IH. Qed.

Lemma join_cons (x : string) (l : list string) : Py.join (x :: l) = x +:+ Py.join l.
Proof. unfold Py.join. destruct l; cbn; [by rewrite str_app_nil_r|done]. Qed.

Lemma join_app (l1 l2 : list string) : Py.join (l1 ++ l2) = Py.join l1 +:+ Py.join l2.
Proof.
  induction l1 as [|x l1 IH]; [done|].
  by rewrite <- app_comm_cons, !join_cons, IH, str_app_assoc.
Qed.

Lemma substring_empty (b n : nat) : String.substring b n "" = "".
Proof. by destruct b, n. Qed.

Lemma substring_len (b n : nat) (s : string) :
  Py.len (String.substring b n s) = n `min` (Py.len s - b).
Proof.
  revert b n. induction s as [|c s IH]; intros b n.
  - rewrite substring_empty. cbn. lia.
  - destruct b as [|b]; [destruct n as [|n]|]; cbn; [done| |by rewrite IH].
    rewrite IH. lia.
Qed.

Lemma substring_app (b n m : nat) (s : string) :
  String.substring b n s +:+ String.substring (b + n) m s
  = String.substring b (n + m) s.
Proof.
  revert b n m. induction s as [|c s IH]; intros b n m.
  - by rewrite !substring_empty.
  - destruct b as [|b]; [destruct n as [|n]|]; cbn [String.substring Nat.add].
    + done.
    + rewrite str_app_cons. f_equal. apply (IH 0).
    + apply IH.
Qed.

Lemma substring_0 (b : nat) (s : string) : String.substring b 0 s = "".
Proof. revert b. induction s as [|c s IH]; intros [|b]; cbn; auto. Qed.

Lemma substring_beyond (b n : nat) (s : string) :
  Py.len s - b ≤ n → String.substring b n s = String.substring b (Py.len s - b) s.
Proof.
  revert b n. induction s as [|c s IH]; intros b n Hn.
  - by rewrite !substring_empty.
  - destruct b as [|b]; cbn [String.substring Py.len Nat.sub].
    + destruct n as [|n]; [cbn in Hn; lia|]. f_equal.
      rewrite (IH 0 n) by (cbn in Hn; lia). by rewrite Nat.sub_0_r.
    + apply IH. cbn in Hn. lia.
Qed.

Lemma substring_all (s : string) : String.substring 0 (Py.len s) s = s.
Proof. induction s as [|c s IH]; [done|]. cbn. by rewrite IH. Qed.


Lemma linewrap_loop_step (s : string) (b : nat) (res : list string) :
  b < Py.len s →
  linewrap_loop s b res
  = linewrap_loop s (b + _MAXLINELEN) (res ++ [Py.slice b _MAXLINELEN s]).
Proof.
  intros Hb. rewrite linewrap_loop_equation_1 at 1.
  destruct (decide (b < Py.len s)); [|done].
  by rewrite linewrap_loop_clause_1_equation_1.
Qed.

Lemma linewrap_loop_end (s : string) (b : nat) (res : list string) :
  ¬ b < Py.len s → linewrap_loop s b res = res.
Proof.
  intros Hb. rewrite linewrap_loop_equation_1.
  by destruct (decide (b < Py.len s)).
Qed.

Lemma linewrap_loop_acc (s : string) (b : nat) (res : list string) :
  linewrap_loop s b res = res ++ linewrap_loop s b [].
Proof.
  remember (Py.len s - b) as n eqn:Hn. revert b res Hn.
  induction (lt_wf n) as [n _ IH]; intros b res ->.
  destruct (decide (b < Py.len s)) as [Hb|Hb].
  - rewrite !(linewrap_loop_step _ _ _ Hb).
    rewrite (IH (Py.len s - (b + _MAXLINELEN))) by (unfold _MAXLINELEN; lia || done).
    rewrite (IH (Py.len s - (b + _MAXLINELEN)) ltac:(unfold _MAXLINELEN; lia)
               _ ([] ++ _)) by done.
    by rewrite <- app_assoc.
  - rewrite !linewrap_loop_end by done. by rewrite app_nil_r.
Qed.

(** The lines that [linewrap] joins: their concatenation is the text from
    [begin] on, and they are full lines with at most the last one shorter. *)
Lemma linewrap_loop_lines (s : string) (b : nat) :
  Py.join (linewrap_loop s b []) = String.substring b (Py.len s - b) s ∧
  wrapped _MAXLINELEN (linewrap_loop s b []).
Proof.
  remember (Py.len s - b) as n eqn:Hn. revert b Hn.
  induction (lt_wf n) as [n _ IH]; intros b ->.
  destruct (decide (b < Py.len s)) as [Hb|Hb].
  - rewrite (linewrap_loop_step _ _ _ Hb), linewrap_loop_acc. cbn [app].
    destruct (IH (Py.len s - (b + _MAXLINELEN)) ltac:(unfold _MAXLINELEN; lia)
                 (b + _MAXLINELEN) eq_refl) as [Hjoin Hwrap].
    split.
    + rewrite join_cons, Hjoin. unfold Py.slice. rewrite substring_app.
      apply substring_beyond. lia.
    + cbn [wrapped]. split; [|done].
      unfold Py.slice. rewrite substring_len.
      destruct (decide (b + _MAXLINELEN < Py.len s)) as [Hb'|Hb'].
      * destruct (linewrap_loop _ _ _); unfold _MAXLINELEN in *; lia.
      * rewrite linewrap_loop_end by done. unfold _MAXLINELEN in *. lia.
  - rewrite linewrap_loop_end by done. split; [|done].
    replace (Py.len s - b) with 0 by lia. by rewrite substring_0.
Qed.


Lemma comment_of_getComments (value : record) :
  str (getComments value) = comment_of value.
Proof. unfold getComments, comment_of. by repeat case_match. Qed.

(** The text written for a record that has a name and a sequence. *)
Lemma fastq_text_entry (value : record) (name sequence : string) :
  value !! "name" = Some (VStr name) →
  value !! "sequence" = Some (VStr sequence) →
  (∀ a, value !! "accuracy" = Some a → ∃ q, a = VStr q) →
  fastq_text value = Ok (fastq_entry value name sequence).
Proof.
  intros Hn Hs Ha. unfold fastq_text, fastq_entry, getitem, generateAccuracy, quality_of.
  rewrite Hn, Hs. cbn [res_bind as_text str].
  rewrite comment_of_getComments.
  destruct (value !! "accuracy") as [a|] eqn:Hacc; [|done].
  by destruct (Ha a eq_refl) as [q ->].
Qed.



Lemma write_fold_ok (text : record → result string) (outputFile : string)
    (vs : list record) (ts : list string) (written : string) (fs : filesystem) :
  Forall2 (λ v t, text v = Ok t) vs ts →
  fs !! outputFile = Some (TextFile written) →
  io_fold (λ _ value, let* t := io_lift (text value) in write outputFile t) tt vs fs
  = (Ok tt, <[outputFile := TextFile (written +:+ Py.join ts)]> fs).
Proof.
  intros Hts. revert written fs.
  induction Hts as [|v t vs ts Ht Hts IH]; intros written fs Hfs.
  - cbn. by rewrite str_app_nil_r, insert_id.
  - cbn [io_fold]. erewrite io_bind_ok; last first.
    { unfold io_bind, io_lift, write. by rewrite Ht, Hfs. }
    rewrite (IH (written +:+ t)) by apply lookup_insert_eq.
    by rewrite insert_insert_eq, join_cons, str_app_assoc.
Qed.

Lemma write_all_ok (text : record → result string) (outputFile : string)
    (vs : list record) (ts : list string) (written : string) (fs : filesystem) :
  Forall2 (λ v t, text v = Ok t) vs ts →
  fs !! outputFile = Some (TextFile written) →
  write_all text outputFile (vs, Stopped) fs
  = (Ok tt, <[outputFile := TextFile (written +:+ Py.join ts)]> fs).
Proof.
  intros Hts Hfs. unfold write_all. cbn [fst snd].
  by erewrite io_bind_ok; [|by apply write_fold_ok].
Qed.



(** ** The parsers on streams of record blocks *)

Lemma split_space1_cases (s : string) :
  Py.split_space1 s = [before_space s; after_space s] ∨
  (Py.split_space1 s = [s] ∧ before_space s = s ∧ after_space s = "").
Proof.
  induction s as [|c s IH]; [by right|]. cbn.
  destruct (Ascii.eqb c " "); [by left|].
  destruct IH as [->|(-> & -> & ->)]; [by left|by right].
Qed.

(** The header remainder splits at its first space into the name and the
    annotations, which are empty when there is no space. *)
Lemma fastq_set_header (line : string) (data : dict) :
  Fastq.set_header line data
  = <["annotations" := after_space (Py.from1 line)]>
      (<["name" := before_space (Py.from1 line)]> data).
Proof.
  unfold Fastq.set_header.
  by destruct (split_space1_cases (Py.from1 line)) as [->|(-> & -> & ->)].
Qed.

Lemma fasta_set_header (line : string) (data : dict) :
  Fasta.set_header line data
  = <["description" := Py.strip (after_space (Py.from1 line))]>
      (<["name" := Py.strip (before_space (Py.from1 line))]>
         (<["description" := after_space (Py.from1 line)]>
            (<["name" := before_space (Py.from1 line)]> data))).
Proof.
  unfold Fasta.set_header.
  destruct (split_space1_cases (Py.from1 line)) as [->|(-> & -> & ->)].
  all: cbn zeta.
  all: rewrite lookup_total_insert_ne, lookup_total_insert_eq by done.
  all: rewrite lookup_total_insert_ne, lookup_total_insert_eq by done.
  all: done.
Qed.

Lemma fq_overwrite (data : dict) (n a s q : string) :
  dom data ⊆ fq_keys →
  <["accuracy" := q]> (<["sequence" := s]> (<["annotations" := a]> (<["name" := n]> data)))
  = fq_fields n a s q.
Proof.
  intros Hdom. apply map_eq. intros i. unfold fq_fields.
  rewrite !lookup_insert. repeat destruct (decide _); try done.
  rewrite lookup_empty. apply not_elem_of_dom. intros Hi%Hdom.
  unfold fq_keys in Hi. rewrite !elem_of_union, !elem_of_singleton in Hi.
  intuition congruence.
Qed.

Lemma fa_overwrite (data : dict) (n0 d0 n d s : string) :
  dom data ⊆ fa_keys →
  <["sequence" := s]> (<["description" := d]> (<["name" := n]>
     (<["description" := d0]> (<["name" := n0]> data))))
  = fa_fields n d s.
Proof.
  intros Hdom. apply map_eq. intros i. unfold fa_fields.
  rewrite !lookup_insert. repeat destruct (decide _); try done.
  rewrite lookup_empty. apply not_elem_of_dom. intros Hi%Hdom.
  unfold fa_keys in Hi. rewrite !elem_of_union, !elem_of_singleton in Hi.
  intuition congruence.
Qed.

Lemma fq_fields_dom (n a s q : string) : dom (fq_fields n a s q) ⊆ fq_keys.
Proof. unfold fq_fields, fq_keys. rewrite !dom_insert_L. set_solver. Qed.

Lemma fa_fields_dom (n d s : string) : dom (fa_fields n d s) ⊆ fa_keys.
Proof. unfold fa_fields, fa_keys. rewrite !dom_insert_L. set_solver. Qed.

Lemma next_line_cons (l : string) (h : handle) : next_line (l :: h) = Py.strip l.
Proof. done. Qed.

(** The sequence loop reads up to the line that begins with [+]. *)
Lemma fastq_sequence_loop_block (fuel : nat) (got sequence : list string)
    (plus : string) (after : handle) :
  length sequence < fuel →
  Forall (λ l, Py.startswith "+" (Py.strip l) = false) sequence →
  Py.startswith "+" (Py.strip plus) = true →
  Fastq.sequence_loop fuel got (next_line (sequence ++ plus :: after))
    (readline_strip (sequence ++ plus :: after)).2
  = Some (got ++ (Py.strip <$> sequence), Py.strip plus, after).
Proof.
  revert fuel got.
  induction sequence as [|l sequence IH]; intros fuel got Hfuel Hseq Hplus.
  - destruct fuel as [|fuel]; [cbn in Hfuel; lia|]. cbn.
    unfold Py.startswith in Hplus. rewrite Hplus. cbn. by rewrite app_nil_r.
  - destruct fuel as [|fuel]; [cbn in Hfuel; lia|].
    inversion_clear Hseq as [|?? Hl Hseq'].
    cbn [app]. rewrite next_line_cons. cbn [readline_strip readline snd].
    cbn [Fastq.sequence_loop]. rewrite Hl. cbn [negb].
    specialize (IH fuel (got ++ [Py.strip l]) ltac:(cbn in Hfuel; lia) Hseq' Hplus).
    unfold next_line in IH.
    destruct (readline_strip (sequence ++ plus :: after)) as [line h'].
    cbn [fst snd] in IH. rewrite IH. by rewrite <- app_assoc.
Qed.

(** The accuracy loop reads up to a line that begins with [@], a blank line
    or the end of the stream. *)
Lemma fastq_accuracy_loop_block (fuel : nat) (got accuracy : list string)
    (after : handle) :
  length accuracy < fuel →
  Forall (λ l, Py.startswith "@" (Py.strip l) = false ∧ Py.strip l ≠ "") accuracy →
  fq_stop after →
  Fastq.accuracy_loop fuel got (next_line (accuracy ++ after))
    (readline_strip (accuracy ++ after)).2
  = Some (got ++ (Py.strip <$> accuracy), next_line after, (readline_strip after).2).
Proof.
  revert fuel got.
  induction accuracy as [|l accuracy IH]; intros fuel got Hfuel Hacc Hstop.
  - destruct fuel as [|fuel]; [cbn in Hfuel; lia|]. cbn [app Fastq.accuracy_loop].
    rewrite app_nil_r.
    destruct Hstop as [Hstop|Hstop]; rewrite Hstop; [|done].
    by rewrite bool_decide_eq_true_2, andb_false_r.
  - destruct fuel as [|fuel]; [cbn in Hfuel; lia|].
    inversion_clear Hacc as [|?? [Hl Hne] Hacc'].
    cbn [app]. rewrite next_line_cons. cbn [readline_strip readline snd].
    cbn [Fastq.accuracy_loop]. rewrite Hl, bool_decide_eq_false_2 by done. cbn [negb andb].
    specialize (IH fuel (got ++ [Py.strip l]) ltac:(cbn in Hfuel; lia) Hacc' Hstop).
    unfold next_line in IH at 1.
    destruct (readline_strip (accuracy ++ after)) as [line h'].
    cbn [fst snd] in IH. rewrite IH. by rewrite <- app_assoc.
Qed.

(** One round of [fqiter] on a record block. *)
Lemma fastq_body_block (fuel : nat) (data : dict) (b : fq_block) (after : handle) :
  fq_block_ok b → fq_stop after → length (fq_lines b) < fuel →
  dom data ⊆ fq_keys →
  Fastq.body fuel data (Py.strip (fq_header b))
    (fq_sequence b ++ fq_plus b :: fq_accuracy b ++ after)
  = if decide (fq_balanced b)
    then BYield (fq_record b) (next_line after) (readline_strip after).2
    else BRaise IOError (fq_record b).
Proof.
  intros [Hh Hs Hp Ha] Hstop Hfuel Hdom. unfold Fastq.body.
  unfold fq_lines in Hfuel. cbn [length] in Hfuel. rewrite length_app in Hfuel.
  cbn [length] in Hfuel.
  rewrite Hh. cbn [negb]. rewrite fastq_set_header.
  pose proof (fastq_sequence_loop_block fuel [] (fq_sequence b) (fq_plus b)
                (fq_accuracy b ++ after) ltac:(lia) Hs Hp) as Hseq.
  unfold next_line in Hseq.
  destruct (readline_strip (fq_sequence b ++ _)) as [line h1].
  cbn [fst snd] in Hseq. rewrite Hseq. cbn [app].
  pose proof (fastq_accuracy_loop_block fuel [] (fq_accuracy b) after
                ltac:(lia) Ha Hstop) as Hacc.
  unfold next_line in Hacc at 1.
  destruct (readline_strip (fq_accuracy b ++ after)) as [line2 h2].
  cbn [fst snd] in Hacc. rewrite Hacc. cbn [app].
  rewrite lookup_total_insert_eq, lookup_total_insert_ne by done.
  rewrite lookup_total_insert_eq.
  rewrite (fq_overwrite _ _ _ _ _ Hdom). fold (fq_record b).
  unfold fq_balanced. case_decide as Hbal.
  - by rewrite Hbal, Nat.eqb_refl.
  - by apply Nat.eqb_neq in Hbal as ->.
Qed.

Section Driving.
Variable p : parser.
Variable fuel : nat.

Lemma drive_created (k : nat) (h : handle) :
  drive p fuel (S k) (GCreated h) ∅
  = drive p fuel (S k)
      (GParked (fresh (dom (∅ : heap))) (next_line h) (readline_strip h).2)
      (<[fresh (dom (∅ : heap)) := ∅]> ∅).
Proof.
  cbn [drive gen_next]. unfold next_line. by destruct (readline_strip h).
Qed.

Lemma drive_stop (k : nat) (data : loc) (h : handle) (σ : heap) :
  drive p fuel (S k) (GParked data "" h) σ = ([], Stopped, σ).
Proof. done. Qed.

Lemma drive_yield (k : nat) (data : loc) (line line' : string) (h h' : handle)
    (σ : heap) (d : dict) :
  line ≠ "" →
  parser_body p fuel (σ !!! data) line h = BYield d line' h' →
  drive p fuel (S k) (GParked data line h) σ
  = let '(ys, e, σ') := drive p fuel k (GParked data line' h') (<[data := d]> σ) in
    ((data, d) :: ys, e, σ').
Proof.
  intros Hline Hbody. cbn [drive gen_next]. unfold gen_loop.
  rewrite bool_decide_eq_false_2 by done. rewrite Hbody.
  by rewrite lookup_total_insert_eq.
Qed.

Lemma drive_raise (k : nat) (data : loc) (line : string) (h : handle)
    (σ : heap) (d : dict) (e : exn) :
  line ≠ "" →
  parser_body p fuel (σ !!! data) line h = BRaise e d →
  drive p fuel (S k) (GParked data line h) σ = ([], Failed e, <[data := d]> σ).
Proof.
  intros Hline Hbody. cbn [drive gen_next]. unfold gen_loop.
  rewrite bool_decide_eq_false_2 by done. by rewrite Hbody.
Qed.

End Driving.

Lemma fq_lines_cons (b : fq_block) (after : handle) :
  fq_lines b ++ after
  = fq_header b :: fq_sequence b ++ fq_plus b :: fq_accuracy b ++ after.
Proof. unfold fq_lines. by rewrite <- app_comm_cons, <- app_assoc. Qed.

Lemma fq_stop_block (b : fq_block) (after : handle) :
  fq_block_ok b → fq_stop (fq_lines b ++ after).
Proof. intros [Hh _ _ _]. right. by rewrite fq_lines_cons, next_line_cons. Qed.

Lemma fq_stop_blocks (bs : list fq_block) (rest : handle) :
  Forall fq_block_ok bs → fq_stop rest →
  fq_stop (concat (fq_lines <$> bs) ++ rest).
Proof.
  intros Hbs Hrest. destruct Hbs as [|b bs Hb Hbs]; [done|].
  cbn. rewrite <- app_assoc. by apply fq_stop_block.
Qed.

(** Driving [fqiter] through balanced record blocks: one record per block,
    then whatever the rest of the stream gives. *)
Lemma fastq_drive_blocks (fuel k : nat) (data : loc) (bs : list fq_block)
    (rest : handle) (σ : heap) :
  Forall fq_block_ok bs → Forall fq_balanced bs →
  Forall (λ b, length (fq_lines b) < fuel) bs →
  fq_stop rest →
  dom (σ !!! data) ⊆ fq_keys →
  ∃ σ', dom (σ' !!! data) ⊆ fq_keys ∧
    drive fqiter fuel (length bs + k)
      (GParked data (next_line (concat (fq_lines <$> bs) ++ rest))
         (readline_strip (concat (fq_lines <$> bs) ++ rest)).2) σ
    = let '(ys, e, σ'') :=
        drive fqiter fuel k
          (GParked data (next_line rest) (readline_strip rest).2) σ' in
      (((λ b, (data, fq_record b)) <$> bs) ++ ys, e, σ'').
Proof.
  intros Hok Hbal Hfuel Hstop. revert σ.
  induction Hok as [|b bs Hb Hbs IH]; intros σ Hdom.
  - exists σ. split; [done|]. cbn. by destruct (drive _ _ _ _ _) as [[??]?].
  - inversion_clear Hbal as [|?? Hbal1 Hbal']. inversion_clear Hfuel as [|?? Hf1 Hf'].
    destruct (IH Hbal' Hf' (<[data := fq_record b]> σ)) as (σ' & Hdom' & Hdrive).
    { rewrite lookup_total_insert_eq. unfold fq_record. apply fq_fields_dom. }
    exists σ'. split; [done|].
    cbn [fmap list_fmap concat length Nat.add]. rewrite <- app_assoc.
    rewrite fq_lines_cons. rewrite next_line_cons. cbn [readline_strip readline snd].
    erewrite drive_yield; last first.
    { cbn [parser_body fqiter].
      rewrite (fastq_body_block fuel _ b (concat (fq_lines <$> bs) ++ rest) Hb
                 (fq_stop_blocks _ _ Hbs Hstop) Hf1 Hdom).
      by rewrite decide_True. }
    { eapply startswith_nonempty; [|apply (fq_header_ok _ Hb)]. done. }
    rewrite Hdrive. by destruct (drive fqiter fuel k _ _) as [[??]?].
Qed.

Lemma length_concat_blocks {A} (f : A → list string) (bs : list A) :
  (∀ b, 1 ≤ length (f b)) →
  length bs ≤ length (concat (f <$> bs)) ∧
  Forall (λ b, length (f b) ≤ length (concat (f <$> bs))) bs.
Proof.
  intros Hf. induction bs as [|b bs [IH1 IH2]]; [by split|].
  cbn. rewrite length_app. specialize (Hf b). split; [lia|].
  constructor; [lia|]. eapply Forall_impl; [done|]. cbn. lia.
Qed.

Lemma run_parked (p : parser) (k : nat) (h : handle) :
  run p (S k) h
  = let '(ys, e, _) :=
      drive p (S k) (S k)
        (GParked (fresh (dom (∅ : heap))) (next_line h) (readline_strip h).2)
        (<[fresh (dom (∅ : heap)) := ∅]> ∅) in
    (ys.*2, e).
Proof. unfold run. by rewrite drive_created. Qed.

Lemma fmap_snd_pairs {A} (data : loc) (f : A → dict) (bs : list A) :
  ((λ b, (data, f b)) <$> bs).*2 = f <$> bs.
Proof. rewrite <- list_fmap_compose. by apply list_fmap_ext. Qed.

(** C2, as amended: on a stream of FASTQ record blocks (a line that,
    stripped, begins with [@]; lines not beginning with [+]; a line beginning
    with [+]; non-blank lines not beginning with [@]), with sequence and
    accuracy of equal length, [fqiter] yields one record per block: name and
    annotations are the header remainder before and after its first space,
    sequence and accuracy the concatenations of the stripped lines; it stops
    at a blank line or the end of the stream; it raises, after the records of
    the blocks before, at a block whose sequence and accuracy differ in
    length, and at a first line that does not begin with [@]. *)
Theorem fqiter_parses_blocks (fuel : nat) (bs : list fq_block) (rest : handle) :
  Forall fq_block_ok bs → Forall fq_balanced bs →
  length (concat (fq_lines <$> bs) ++ rest) < fuel →
  (next_line rest = "" →
   run fqiter fuel (concat (fq_lines <$> bs) ++ rest) = (fq_record <$> bs, Stopped)) ∧
  (∀ b after, rest = fq_lines b ++ after → fq_block_ok b → ¬ fq_balanced b →
     fq_stop after →
     run fqiter fuel (concat (fq_lines <$> bs) ++ rest)
     = (fq_record <$> bs, Failed IOError)) ∧
  (bs = [] → next_line rest ≠ "" → Py.startswith "@" (next_line rest) = false →
   run fqiter fuel rest = ([], Failed IOError)).
Proof.
  intros Hok Hbal Hfuel.
  rewrite length_app in Hfuel.
  destruct (length_concat_blocks fq_lines bs) as [Hk Hfuels].
  { intros b. unfold fq_lines. cbn. lia. }
  assert (Forall (λ b, length (fq_lines b) < fuel) bs) as Hfuels'.
  { eapply Forall_impl; [done|]. cbn. lia. }
  destruct fuel as [|k0]; [lia|].
  set (data := fresh (dom (∅ : heap))).
  assert (dom ((<[data := ∅]> (∅ : heap)) !!! data) ⊆ fq_keys) as Hdom0.
  { rewrite lookup_total_insert_eq. set_solver. }
  assert (∃ k, S k0 = length bs + S k) as [k Hkeq] by (exists (k0 - length bs); lia).
  split_and!.
  - intros Hrest. rewrite run_parked. fold data. rewrite Hkeq at 2.
    destruct (fastq_drive_blocks (S k0) (S k) data bs rest _ Hok Hbal Hfuels'
                (or_introl Hrest) Hdom0) as (σ' & _ & ->).
    rewrite Hrest, drive_stop. by rewrite app_nil_r, fmap_snd_pairs.
  - intros b after -> Hb Hunbal Hafter. rewrite run_parked. fold data.
    rewrite Hkeq at 2.
    destruct (fastq_drive_blocks (S k0) (S k) data bs (fq_lines b ++ after) _
                Hok Hbal Hfuels' (fq_stop_block _ _ Hb) Hdom0) as (σ' & Hdom' & ->).
    rewrite fq_lines_cons, next_line_cons. cbn [readline_strip readline snd].
    erewrite drive_raise; last first.
    { cbn [parser_body fqiter]. rewrite fastq_body_block; [|done..| |done].
      - by rewrite decide_False.
      - rewrite length_app in Hfuel. lia. }
    { eapply startswith_nonempty; [|apply (fq_header_ok _ Hb)]. done. }
    by rewrite app_nil_r, fmap_snd_pairs.
  - intros -> Hne Hmark. rewrite run_parked. fold data.
    erewrite drive_raise; [done|done|].
    cbn [parser_body fqiter]. unfold Fastq.body. by rewrite Hmark.
Qed.

(** The sequence loop of [faiter] reads up to a line that begins with [>],
    a blank line or the end of the stream. *)
Lemma fasta_sequence_loop_block (fuel : nat) (got sequence : list string)
    (after : handle) :
  length sequence < fuel →
  Forall (λ l, Py.startswith ">" (Py.strip l) = false ∧ Py.strip l ≠ "") sequence →
  fa_stop after →
  Fasta.sequence_loop fuel got (next_line (sequence ++ after))
    (readline_strip (sequence ++ after)).2
  = Some (got ++ (Py.strip <$> sequence), next_line after, (readline_strip after).2).
Proof.
  revert fuel got.
  induction sequence as [|l sequence IH]; intros fuel got Hfuel Hseq Hstop.
  - destruct fuel as [|fuel]; [cbn in Hfuel; lia|]. cbn [app Fasta.sequence_loop].
    rewrite app_nil_r.
    destruct Hstop as [Hstop|Hstop]; rewrite Hstop; [done|].
    by rewrite andb_false_r.
  - destruct fuel as [|fuel]; [cbn in Hfuel; lia|].
    inversion_clear Hseq as [|?? [Hl Hne] Hseq'].
    cbn [app]. rewrite next_line_cons. cbn [readline_strip readline snd].
    cbn [Fasta.sequence_loop]. rewrite Hl, bool_decide_eq_false_2 by done. cbn [negb andb].
    specialize (IH fuel (got ++ [Py.strip l]) ltac:(cbn in Hfuel; lia) Hseq' Hstop).
    unfold next_line in IH at 1.
    destruct (readline_strip (sequence ++ after)) as [line h'].
    cbn [fst snd] in IH. rewrite IH. by rewrite <- app_assoc.
Qed.

(** One round of [faiter] on a record block. *)
Lemma fasta_body_block (fuel : nat) (data : dict) (b : fa_block) (after : handle) :
  fa_block_ok b → fa_stop after → length (fa_lines b) < fuel →
  dom data ⊆ fa_keys →
  Fasta.body fuel data (Py.strip (fa_header b)) (fa_sequence b ++ after)
  = BYield (fa_record b) (next_line after) (readline_strip after).2.
Proof.
  intros [Hh Hs] Hstop Hfuel Hdom. unfold Fasta.body.
  unfold fa_lines in Hfuel. cbn [length] in Hfuel.
  rewrite Hh. cbn [negb]. rewrite fasta_set_header.
  pose proof (fasta_sequence_loop_block fuel [] (fa_sequence b) after
                ltac:(lia) Hs Hstop) as Hseq.
  unfold next_line in Hseq at 1.
  destruct (readline_strip (fa_sequence b ++ after)) as [line h1].
  cbn [fst snd] in Hseq. rewrite Hseq. cbn [app].
  by rewrite (fa_overwrite _ _ _ _ _ _ Hdom).
Qed.

Lemma fa_stop_blocks (bs : list fa_block) (rest : handle) :
  Forall fa_block_ok bs → fa_stop rest →
  fa_stop (concat (fa_lines <$> bs) ++ rest).
Proof.
  intros Hbs Hrest. destruct Hbs as [|b bs [Hh _] Hbs]; [done|].
  right. by cbn.
Qed.

Lemma fasta_drive_blocks (fuel k : nat) (data : loc) (bs : list fa_block)
    (rest : handle) (σ : heap) :
  Forall fa_block_ok bs →
  Forall (λ b, length (fa_lines b) < fuel) bs →
  fa_stop rest →
  dom (σ !!! data) ⊆ fa_keys →
  ∃ σ', dom (σ' !!! data) ⊆ fa_keys ∧
    drive faiter fuel (length bs + k)
      (GParked data (next_line (concat (fa_lines <$> bs) ++ rest))
         (readline_strip (concat (fa_lines <$> bs) ++ rest)).2) σ
    = let '(ys, e, σ'') :=
        drive faiter fuel k
          (GParked data (next_line rest) (readline_strip rest).2) σ' in
      (((λ b, (data, fa_record b)) <$> bs) ++ ys, e, σ'').
Proof.
  intros Hok Hfuel Hstop. revert σ.
  induction Hok as [|b bs Hb Hbs IH]; intros σ Hdom.
  - exists σ. split; [done|]. cbn. by destruct (drive _ _ _ _ _) as [[??]?].
  - inversion_clear Hfuel as [|?? Hf1 Hf'].
    destruct (IH Hf' (<[data := fa_record b]> σ)) as (σ' & Hdom' & Hdrive).
    { rewrite lookup_total_insert_eq. unfold fa_record. apply fa_fields_dom. }
    exists σ'. split; [done|].
    cbn [fmap list_fmap concat length Nat.add]. rewrite <- app_assoc.
    unfold fa_lines at 1 3. rewrite <- !app_comm_cons.
    rewrite next_line_cons. cbn [readline_strip readline snd].
    erewrite drive_yield; last first.
    { cbn [parser_body faiter].
      by rewrite (fasta_body_block fuel _ b (concat (fa_lines <$> bs) ++ rest) Hb
                    (fa_stop_blocks _ _ Hbs Hstop) Hf1 Hdom). }
    { eapply startswith_nonempty; [|apply (fa_header_ok _ Hb)]. done. }
    rewrite Hdrive. by destruct (drive faiter fuel k _ _) as [[??]?].
Qed.

(** C3, as amended: on a stream of FASTA record blocks (a line that,
    stripped, begins with [>]; then non-blank lines not beginning with [>])
    followed by a blank line or the end of the stream, [faiter] yields one
    record per block: name and description are the stripped parts of the
    header remainder before and after its first space (the description is
    empty without a space), the sequence is the concatenation of the stripped
    lines; what follows a blank line is not read; a first line that, stripped,
    is not empty and does not begin with [>] is a format error. *)
Theorem faiter_parses_blocks (fuel : nat) (bs : list fa_block) (rest : handle) :
  Forall fa_block_ok bs →
  length (concat (fa_lines <$> bs) ++ rest) < fuel →
  (next_line rest = "" →
   run faiter fuel (concat (fa_lines <$> bs) ++ rest) = (fa_record <$> bs, Stopped)) ∧
  (bs = [] → next_line rest ≠ "" → Py.startswith ">" (next_line rest) = false →
   run faiter fuel rest = ([], Failed IOError)).
Proof.
  intros Hok Hfuel. rewrite length_app in Hfuel.
  destruct (length_concat_blocks fa_lines bs) as [Hk Hfuels].
  { intros b. unfold fa_lines. cbn. lia. }
  assert (Forall (λ b, length (fa_lines b) < fuel) bs) as Hfuels'.
  { eapply Forall_impl; [done|]. cbn. lia. }
  destruct fuel as [|k0]; [lia|].
  set (data := fresh (dom (∅ : heap))).
  assert (dom ((<[data := ∅]> (∅ : heap)) !!! data) ⊆ fa_keys) as Hdom0.
  { rewrite lookup_total_insert_eq. set_solver. }
  assert (∃ k, S k0 = length bs + S k) as [k Hkeq] by (exists (k0 - length bs); lia).
  split.
  - intros Hrest. rewrite run_parked. fold data. rewrite Hkeq at 2.
    destruct (fasta_drive_blocks (S k0) (S k) data bs rest _ Hok Hfuels'
                (or_introl Hrest) Hdom0) as (σ' & _ & ->).
    rewrite Hrest, drive_stop. by rewrite app_nil_r, fmap_snd_pairs.
  - intros -> Hne Hmark. rewrite run_parked. fold data.
    erewrite drive_raise; [done|done|].
    cbn [parser_body faiter]. unfold Fasta.body. by rewrite Hmark.
Qed.

(** * Further properties *)

(** ** What every record of a parser satisfies *)

Lemma drive_snapshots (p : parser) (fuel : nat) (P : dict → Prop) :
  (∀ d line h d' line' h',
     parser_body p fuel d line h = BYield d' line' h' → P d') →
  ∀ k g σ, Forall P (drive p fuel k g σ).1.1.*2.
Proof.
  intros Hbody. induction k as [|k IH]; intros g σ; [by constructor|].
  cbn [drive].
  assert (∀ data line h σ0,
            Forall P (let '(r, g', σ') := gen_loop p fuel data line h σ0 in
                      match r with
                      | Yielded l =>
                          let '(ys, e, σ'') := drive p fuel k g' σ' in
                          ((l, σ' !!! l) :: ys, e, σ'')
                      | StopIteration => ([], Stopped, σ')
                      | Raised e => ([], Failed e, σ')
                      | OutOfFuel => ([], Diverged, σ')
                      end).1.1.*2) as Hloop.
  { intros data line h σ0. unfold gen_loop.
    case_bool_decide; [by constructor|].
    destruct (parser_body p fuel (σ0 !!! data) line h) as [d line' h'| |] eqn:Hb;
      [|by constructor..].
    specialize (IH (GParked data line' h') (<[data := d]> σ0)).
    destruct (drive p fuel k _ _) as [[ys e] σ'']. cbn in *.
    constructor; [|done]. rewrite lookup_total_insert_eq. by eapply Hbody. }
  destruct g as [h|data line h|]; cbn [gen_next].
  - destruct (readline_strip h) as [line h'].
    specialize (Hloop (fresh (dom σ)) line h' (<[fresh (dom σ) := ∅]> σ)).
    by destruct (gen_loop _ _ _ _ _ _) as [[[] ?] ?].
  - specialize (Hloop data line h σ).
    by destruct (gen_loop _ _ _ _ _ _) as [[[] ?] ?].
  - by constructor.
Qed.

Lemma run_records (p : parser) (fuel : nat) (P : dict → Prop) (h : handle) :
  (∀ d line h d' line' h',
     parser_body p fuel d line h = BYield d' line' h' → P d') →
  Forall P (run p fuel h).1.
Proof.
  intros Hbody. unfold run.
  pose proof (drive_snapshots p fuel P Hbody fuel (GCreated h) ∅) as Hd.
  by destruct (drive p fuel fuel (GCreated h) ∅) as [[ys e] σ].
Qed.

(** Whatever the stream, a record that [fqiter] yields has the four FASTQ
    fields, and its sequence and accuracy have the same length. *)
Theorem fqiter_records_are_balanced (fuel : nat) (h : handle) :
  Forall (λ r : dict,
    ∃ n a s q, r !! "name" = Some n ∧ r !! "annotations" = Some a ∧
               r !! "sequence" = Some s ∧ r !! "accuracy" = Some q ∧
               Py.len s = Py.len q)
    (run fqiter fuel h).1.
Proof.
  apply run_records. intros d line h0 d' line' h'. cbn [parser_body fqiter].
  unfold Fastq.body. case_match; [done|]. rewrite fastq_set_header.
  destruct (readline_strip h0) as [l1 h1].
  destruct (Fastq.sequence_loop fuel [] l1 h1) as [[[sequence l2] h2]|]; [|done].
  destruct (readline_strip h2) as [l3 h3].
  destruct (Fastq.accuracy_loop fuel [] l3 h3) as [[[accuracy l4] h4]|]; [|done].
  rewrite lookup_total_insert_eq, lookup_total_insert_ne by done.
  rewrite lookup_total_insert_eq.
  destruct (Py.len (Py.join sequence) =? Py.len (Py.join accuracy))%nat eqn:Hlen;
    [|done].
  apply Nat.eqb_eq in Hlen. intros [= <- _ _].
  exists (before_space (Py.from1 line)), (after_space (Py.from1 line)),
         (Py.join sequence), (Py.join accuracy).
  by rewrite !lookup_insert.
Qed.

(** ** Termination of [faiter] and [havaiter] *)

Lemma pending_empty (h : handle) : pending "" h = length h.
Proof. unfold pending. rewrite bool_decide_eq_true_2 by done. lia. Qed.

Lemma pending_nonempty (line : string) (h : handle) :
  line ≠ "" → pending line h = S (length h).
Proof. intros Hl. unfold pending. rewrite bool_decide_eq_false_2 by done. lia. Qed.

Lemma pending_le (line : string) (h : handle) : pending line h ≤ S (length h).
Proof. unfold pending. case_bool_decide; lia. Qed.

Lemma pending_readline (h : handle) :
  pending (next_line h) (readline_strip h).2 ≤ length h.
Proof.
  destruct h as [|l h]; [done|]. rewrite next_line_cons. cbn [readline_strip readline snd].
  cbn [length]. apply pending_le.
Qed.

(** With fuel beyond the lines left, the sequence loop of [faiter] ends, at
    a blank line, at the end of the stream or at a line beginning with [>]. *)
Lemma fasta_sequence_loop_ends (fuel : nat) (got : list string) (line : string)
    (h : handle) :
  pending line h < fuel →
  ∃ got' line' h',
    Fasta.sequence_loop fuel got line h = Some (got', line', h') ∧
    pending line' h' ≤ pending line h ∧
    (line' = "" ∨ Py.startswith ">" line' = true).
Proof.
  revert got line h. induction fuel as [|fuel IH]; intros got line h Hfuel; [lia|].
  cbn [Fasta.sequence_loop].
  destruct (decide (line = "")) as [->|Hne].
  { exists got, "", h. cbn. auto. }
  rewrite bool_decide_eq_false_2 by done. cbn [negb andb].
  destruct (Py.startswith ">" line) eqn:Hs.
  { exists got, line, h. cbn. auto. }
  cbn [negb]. rewrite pending_nonempty in Hfuel by done.
  pose proof (pending_readline h) as Hnext. unfold next_line in Hnext.
  destruct (readline_strip h) as [l2 h2]. cbn [fst snd] in Hnext.
  destruct (IH (got ++ [line]) l2 h2 ltac:(lia)) as (got' & line' & h' & Heq & Hp & Hstop).
  exists got', line', h'. split; [done|]. split; [|done].
  rewrite (pending_nonempty line h) by done. lia.
Qed.

Lemma fasta_body_ends (fuel : nat) (data : dict) (line : string) (h : handle) :
  Py.startswith ">" line = true → length h < fuel →
  ∃ d' line' h',
    Fasta.body fuel data line h = BYield d' line' h' ∧
    pending line' h' ≤ length h ∧
    (line' = "" ∨ Py.startswith ">" line' = true).
Proof.
  intros Hs Hfuel. unfold Fasta.body. rewrite Hs. cbn [negb].
  pose proof (pending_readline h) as Hnext. unfold next_line in Hnext.
  destruct (readline_strip h) as [l1 h1]. cbn [fst snd] in Hnext.
  destruct (fasta_sequence_loop_ends fuel [] l1 h1 ltac:(lia))
    as (got' & line' & h' & Heq & Hp & Hstop).
  rewrite Heq. eexists _, line', h'. split; [done|]. split; [lia|done].
Qed.

Lemma fasta_drive_ends (fuel k : nat) (data : loc) (line : string) (h : handle)
    (σ : heap) :
  pending line h < k → pending line h ≤ fuel →
  line = "" ∨ Py.startswith ">" line = true →
  ∃ ys σ', drive faiter fuel k (GParked data line h) σ = (ys, Stopped, σ').
Proof.
  revert line h σ. induction k as [|k IH]; intros line h σ Hk Hfuel Hline; [lia|].
  destruct (decide (line = "")) as [->|Hne].
  { rewrite drive_stop. eauto. }
  destruct Hline as [?|Hs]; [done|].
  rewrite pending_nonempty in Hk, Hfuel by done.
  destruct (fasta_body_ends fuel (σ !!! data) line h Hs ltac:(lia))
    as (d' & line' & h' & Hbody & Hp & Hstop).
  erewrite drive_yield; [|done|exact Hbody].
  destruct (IH line' h' (<[data := d']> σ) ltac:(lia) ltac:(lia) Hstop)
    as (ys & σ' & ->).
  eauto.
Qed.

(** [faiter] comes to an end on every finite stream: it stops after its
    records, or it raises [IOError] before the first record, which it does
    exactly when the first line, stripped, is not empty and does not begin
    with [>]. *)
Theorem faiter_terminates (fuel : nat) (h : handle) :
  length h < fuel →
  ((next_line h = "" ∨ Py.startswith ">" (next_line h) = true) ∧
   ∃ rs, run faiter fuel h = (rs, Stopped)) ∨
  (next_line h ≠ "" ∧ Py.startswith ">" (next_line h) = false ∧
   run faiter fuel h = ([], Failed IOError)).
Proof.
  intros Hfuel. destruct fuel as [|k]; [lia|]. rewrite run_parked.
  pose proof (pending_readline h) as Hp.
  destruct (decide (next_line h = "")) as [Hl|Hl].
  - left. split; [by left|].
    destruct (fasta_drive_ends (S k) (S k) (fresh (dom (∅ : heap))) (next_line h)
                (readline_strip h).2 (<[fresh (dom (∅ : heap)) := ∅]> ∅))
      as (ys & σ' & ->); [lia|lia|by left|]. eauto.
  - destruct (Py.startswith ">" (next_line h)) eqn:Hs.
    + left. split; [by right|].
      destruct (fasta_drive_ends (S k) (S k) (fresh (dom (∅ : heap))) (next_line h)
                  (readline_strip h).2 (<[fresh (dom (∅ : heap)) := ∅]> ∅))
        as (ys & σ' & ->); [lia|lia|by right|]. eauto.
    + right. split_and!; [done..|].
      erewrite drive_raise; [done|done|].
      cbn [parser_body faiter]. unfold Fasta.body. by rewrite Hs.
Qed.

Lemma hava_body_ends (fuel : nat) (data : dict) (line : string) (h : handle) :
  ∃ d' line' h',
    Hava.body fuel data line h = BYield d' line' h' ∧
    pending line' h' ≤ length h.
Proof.
  unfold Hava.body.
  assert (∀ h0 : handle, length (readline_strip h0).2 ≤ length h0) as Hlen.
  { intros [|l h0]; cbn; lia. }
  pose proof (Hlen h) as H1. destruct (readline_strip h) as [l1 h1].
  pose proof (Hlen h1) as H2. destruct (readline_strip h1) as [l2 h2].
  pose proof (Hlen h2) as H3. destruct (readline_strip h2) as [l3 h3].
  pose proof (Hlen h3) as H4. destruct (readline_strip h3) as [l4 h4].
  pose proof (Hlen h4) as H5. destruct (readline_strip h4) as [l5 h5].
  pose proof (pending_readline h5) as H6. unfold next_line in H6.
  destruct (readline_strip h5) as [l6 h6]. cbn [fst snd] in *.
  eexists _, l6, h6. split; [done|]. lia.
Qed.

Lemma hava_drive_ends (fuel k : nat) (data : loc) (line : string) (h : handle)
    (σ : heap) :
  pending line h < k →
  ∃ ys σ', drive havaiter fuel k (GParked data line h) σ = (ys, Stopped, σ').
Proof.
  revert line h σ. induction k as [|k IH]; intros line h σ Hk; [lia|].
  destruct (decide (line = "")) as [->|Hne].
  { rewrite drive_stop. eauto. }
  rewrite pending_nonempty in Hk by done.
  destruct (hava_body_ends fuel (σ !!! data) line h)
    as (d' & line' & h' & Hbody & Hp).
  erewrite drive_yield; [|done|exact Hbody].
  destruct (IH line' h' (<[data := d']> σ) ltac:(lia)) as (ys & σ' & ->).
  eauto.
Qed.

(** [havaiter] comes to an end on every finite stream and never raises: a
    stream cut inside a record gives empty fields, not an error. *)
Theorem havaiter_terminates (fuel : nat) (h : handle) :
  length h < fuel → ∃ rs, run havaiter fuel h = (rs, Stopped).
Proof.
  intros Hfuel. destruct fuel as [|k]; [lia|]. rewrite run_parked.
  pose proof (pending_readline h) as Hp.
  destruct (hava_drive_ends (S k) (S k) (fresh (dom (∅ : heap))) (next_line h)
              (readline_strip h).2 (<[fresh (dom (∅ : heap)) := ∅]> ∅))
    as (ys & σ' & ->); [lia|]. eauto.
Qed.

(** ** [havaiter] on groups of six lines *)

Lemma hava_overwrite (data : dict) (a b c d e f : string) :
  dom data ⊆ hava_keys →
  <["marshoon" := f]> (<["selimizicka" := e]> (<["fakours" := d]>
    (<["muchalo" := c]> (<["quarzk" := b]> (<["hava" := a]> data)))))
  = hava_fields a b c d e f.
Proof.
  intros Hdom. apply map_eq. intros i. unfold hava_fields.
  rewrite !lookup_insert. repeat destruct (decide _); try done.
  rewrite lookup_empty. apply not_elem_of_dom. intros Hi%Hdom.
  unfold hava_keys in Hi. rewrite !elem_of_union, !elem_of_singleton in Hi.
  intuition congruence.
Qed.

Lemma hava_fields_dom (a b c d e f : string) :
  dom (hava_fields a b c d e f) ⊆ hava_keys.
Proof. unfold hava_fields, hava_keys. rewrite !dom_insert_L. set_solver. Qed.

(** One round of [havaiter] on a complete group. *)
Lemma hava_body_block (fuel : nat) (data : dict) (b : hava_block) (after : handle) :
  dom data ⊆ hava_keys →
  Hava.body fuel data (Py.strip (hava_line b))
    (quarzk_line b :: muchalo_line b :: fakours_line b :: selimizicka_line b ::
     marshoon_line b :: after)
  = BYield (hava_record b) (next_line after) (readline_strip after).2.
Proof.
  intros Hdom. unfold Hava.body. cbn [readline_strip readline].
  unfold next_line. destruct (readline_strip after) as [line h'].
  by rewrite (hava_overwrite _ _ _ _ _ _ _ Hdom).
Qed.

(** One round of [havaiter] on a group that the end of the stream cuts
    short: the lines that are missing read as empty. *)
Lemma hava_body_cut (fuel : nat) (data : dict) (b : hava_block) (l : string)
    (ls : list string) :
  dom data ⊆ hava_keys →
  hava_lines b = l :: ls ++ replicate (5 - length ls) "" →
  Hava.body fuel data (Py.strip l) ls = BYield (hava_record b) "" [].
Proof.
  intros Hdom Hb. destruct b as [l1 l2 l3 l4 l5 l6]. unfold hava_lines in Hb.
  cbn [hava_line quarzk_line muchalo_line fakours_line selimizicka_line
       marshoon_line] in Hb.
  unfold hava_record. cbn [hava_line quarzk_line muchalo_line fakours_line
                           selimizicka_line marshoon_line].
  rewrite <- (hava_overwrite data) by done.
  destruct ls as [|x1 [|x2 [|x3 [|x4 [|x5 [|x6 ls]]]]]];
    cbn in Hb; simplify_eq; done.
Qed.

Lemma hava_drive_blocks (fuel k : nat) (data : loc) (bs : list hava_block)
    (rest : handle) (σ : heap) :
  Forall (λ b, Py.strip (hava_line b) ≠ "") bs →
  dom (σ !!! data) ⊆ hava_keys →
  ∃ σ', dom (σ' !!! data) ⊆ hava_keys ∧
    drive havaiter fuel (length bs + k)
      (GParked data (next_line (concat (hava_lines <$> bs) ++ rest))
         (readline_strip (concat (hava_lines <$> bs) ++ rest)).2) σ
    = let '(ys, e, σ'') :=
        drive havaiter fuel k
          (GParked data (next_line rest) (readline_strip rest).2) σ' in
      (((λ b, (data, hava_record b)) <$> bs) ++ ys, e, σ'').
Proof.
  intros Hok. revert σ.
  induction Hok as [|b bs Hb Hbs IH]; intros σ Hdom.
  - exists σ. split; [done|]. cbn. by destruct (drive _ _ _ _ _) as [[??]?].
  - destruct (IH (<[data := hava_record b]> σ)) as (σ' & Hdom' & Hdrive).
    { rewrite lookup_total_insert_eq. unfold hava_record. apply hava_fields_dom. }
    exists σ'. split; [done|].
    cbn [fmap list_fmap concat length Nat.add]. rewrite <- app_assoc.
    unfold hava_lines at 1 3. rewrite <- !app_comm_cons. cbn [app].
    rewrite next_line_cons. cbn [readline_strip readline snd].
    erewrite drive_yield; [|done|]; last first.
    { cbn [parser_body havaiter]. by apply hava_body_block. }
    rewrite Hdrive. by destruct (drive havaiter fuel k _ _) as [[??]?].
Qed.

(** On a stream of groups of six lines, each with a non-blank first line,
    [havaiter] yields one record per group, the six fields being the six
    stripped lines in order; it stops at a blank line or at the end of the
    stream; and when the stream ends inside a group, that group still gives
    a record, with empty text for the lines that are missing. *)
Theorem havaiter_parses_groups (fuel : nat) (bs : list hava_block) :
  Forall (λ b, Py.strip (hava_line b) ≠ "") bs →
  (∀ rest, length (concat (hava_lines <$> bs) ++ rest) < fuel →
     next_line rest = "" →
     run havaiter fuel (concat (hava_lines <$> bs) ++ rest)
     = (hava_record <$> bs, Stopped)) ∧
  (∀ b l ls, S (length (concat (hava_lines <$> bs) ++ l :: ls)) < fuel →
     Py.strip l ≠ "" →
     hava_lines b = l :: ls ++ replicate (5 - length ls) "" →
     run havaiter fuel (concat (hava_lines <$> bs) ++ l :: ls)
     = (hava_record <$> (bs ++ [b]), Stopped)).
Proof.
  intros Hok.
  destruct (length_concat_blocks hava_lines bs) as [Hk _].
  { intros b. unfold hava_lines. cbn. lia. }
  set (data := fresh (dom (∅ : heap))).
  assert (dom ((<[data := ∅]> (∅ : heap)) !!! data) ⊆ hava_keys) as Hdom0.
  { rewrite lookup_total_insert_eq. set_solver. }
  split.
  - intros rest Hfuel Hrest. rewrite length_app in Hfuel.
    destruct fuel as [|k0]; [lia|].
    assert (∃ k, S k0 = length bs + S k) as [k Hkeq] by (exists (k0 - length bs); lia).
    rewrite run_parked. fold data. rewrite Hkeq at 2.
    destruct (hava_drive_blocks (S k0) (S k) data bs rest _ Hok Hdom0)
      as (σ' & _ & ->).
    rewrite Hrest, drive_stop. by rewrite app_nil_r, fmap_snd_pairs.
  - intros b l ls Hfuel Hl Hb. rewrite length_app in Hfuel. cbn [length] in Hfuel.
    destruct fuel as [|k0]; [lia|].
    assert (∃ k, S k0 = length bs + S (S k)) as [k Hkeq]
      by (exists (k0 - length bs - 1); lia).
    rewrite run_parked. fold data. rewrite Hkeq at 2.
    destruct (hava_drive_blocks (S k0) (S (S k)) data bs (l :: ls) _ Hok Hdom0)
      as (σ' & Hdom' & ->).
    rewrite next_line_cons. cbn [readline_strip readline snd].
    erewrite drive_yield; [|done|]; last first.
    { cbn [parser_body havaiter]. by apply hava_body_cut. }
    rewrite drive_stop.
    change [(data, hava_record b)] with ((λ b0, (data, hava_record b0)) <$> [b]).
    by rewrite <- fmap_app, fmap_snd_pairs.
Qed.

(** ** Builds that succeed, and what the store then returns *)

Lemma record_tuple_ok (record : dict) (fields : list string) :
  (∀ f, f ∈ fields → is_Some (record !! f)) →
  record_tuple record fields = Ok ((λ f, record !!! f) <$> fields).
Proof.
  induction fields as [|f fields IH]; intros Hall; [done|].
  cbn [record_tuple fmap list_fmap].
  destruct (Hall f) as [v Hv]; [by left|].
  rewrite Hv, IH by (intros f' Hf'; apply Hall; by right).
  cbn [res_bind]. by rewrite (lookup_total_correct _ _ _ Hv).
Qed.


Lemma cell_head (t : table) (q : string) (r : Z * list string) :
  head (columns t) = Some q → cell t q r = head r.2.
Proof.
  unfold cell. destruct (columns t) as [|c cs]; [done|]. intros [= ->].
  cbn. rewrite decide_True by done. cbn. by destruct r.2.
Qed.


(** One [INSERT] of a complete record whose lookup key is new. *)
Lemma insert_row_new (fields : list string) (q : string) (record : dict)
    (db : database) (t : table) :
  dict_table db = Some t → columns t = fields → unique_index db = Some q →
  head fields = Some q →
  (∀ f, f ∈ fields → is_Some (record !! f)) →
  record !! q ∉ ((λ r, head r.2) <$> rows t) →
  insert_row fields ((λ f, record !!! f) <$> fields) db
  = Ok (Database (admin db)
          (Some (Table fields
                   (rows t ++ [(next_rowid (rows t), (λ f, record !!! f) <$> fields)])))
          (Some q)).
Proof.
  intros Ht Hc Hq Hh Hall Hnew. unfold insert_row. rewrite Ht, Hq, Hc.
  rewrite bool_decide_eq_true_2 by by rewrite length_fmap.
  rewrite bool_decide_eq_false_2; [done|].
  rewrite (list_fmap_ext (cell t q) (λ r, head r.2) (rows t))
    by (intros; apply cell_head; by rewrite Hc).
  rewrite cell_head by by rewrite Hc. cbn [snd].
  destruct fields as [|q' fields]; [done|]. injection Hh as ->.
  cbn [fmap list_fmap head]. destruct (Hall q) as [v Hv]; [by left|].
  rewrite (lookup_total_correct _ _ _ Hv). by rewrite <- Hv.
Qed.

(** One [INSERT] of a complete record whose lookup key is in the table. *)
Lemma insert_row_dup (fields : list string) (q : string) (record : dict)
    (db : database) (t : table) :
  dict_table db = Some t → columns t = fields → unique_index db = Some q →
  head fields = Some q →
  (∀ f, f ∈ fields → is_Some (record !! f)) →
  record !! q ∈ ((λ r, head r.2) <$> rows t) →
  insert_row fields ((λ f, record !!! f) <$> fields) db = Raise IntegrityError.
Proof.
  intros Ht Hc Hq Hh Hall Hdup. unfold insert_row. rewrite Ht, Hq, Hc.
  rewrite bool_decide_eq_true_2 by by rewrite length_fmap.
  rewrite bool_decide_eq_true_2; [done|].
  rewrite (list_fmap_ext (cell t q) (λ r, head r.2) (rows t))
    by (intros; apply cell_head; by rewrite Hc).
  rewrite cell_head by by rewrite Hc. cbn [snd].
  destruct fields as [|q' fields]; [done|]. injection Hh as ->.
  cbn [fmap list_fmap head]. destruct (Hall q) as [v Hv]; [by left|].
  rewrite (lookup_total_correct _ _ _ Hv). by rewrite <- Hv.
Qed.

(** The insert loop on complete records with pairwise distinct lookup keys,
    none of them in the table yet: every record becomes a row, in order. *)
Lemma insert_all_rows (fields : list string) (q : string) (records : list dict)
    (db : database) (t : table) :
  dict_table db = Some t → columns t = fields → unique_index db = Some q →
  head fields = Some q →
  Forall (λ r, ∀ f, f ∈ fields → is_Some (r !! f)) records →
  NoDup (((λ r, head r.2) <$> rows t) ++ ((λ r, r !! q) <$> records)) →
  ∃ t', insert_all fields records db
        = Ok (Database (admin db) (Some t') (Some q)) ∧
        columns t' = fields ∧
        (rows t').*2 = (rows t).*2 ++ ((λ r, (λ f, r !!! f) <$> fields) <$> records).
Proof.
  revert db t.
  induction records as [|record records IH]; intros db t Ht Hc Hq Hh Hall Hnd.
  - exists t. cbn [insert_all]. destruct db as [a d u]. cbn in *. subst.
    rewrite app_nil_r. by destruct t.
  - apply Forall_cons in Hall as [Hrec Hall].
    cbn [insert_all]. rewrite record_tuple_ok by done. cbn [res_bind].
    cbn [fmap list_fmap] in Hnd.
    rewrite insert_row_new with (q := q) (t := t); try done; last first.
    { apply NoDup_app in Hnd as (_ & Hnd & _). intros Hin.
      apply (Hnd _ Hin). left. }
    cbn [res_bind].
    edestruct (IH (Database (admin db)
                     (Some (Table fields
                        (rows t ++ [(next_rowid (rows t), (λ f, record !!! f) <$> fields)])))
                     (Some q))) as (t' & Hins & Hc' & Hsnd); [done..| |].
    { cbn [rows]. rewrite fmap_app, <- app_assoc. cbn [fmap list_fmap app snd].
      destruct (Hrec q) as [v Hv]; [by apply head_Some_elem_of|].
      destruct fields as [|q' fields]; [done|]. injection Hh as ->.
      cbn [fmap list_fmap head]. rewrite (lookup_total_correct _ _ _ Hv).
      by rewrite <- Hv. }
    exists t'. cbn [admin rows] in *. split_and!; [done|done|].
    rewrite Hsnd, fmap_app, <- app_assoc. done.
Qed.


(** The store that [screedDB(filepath)] opens on a file with both tables. *)
Lemma open_built (filepath : string) (fields : list string) (q : string)
    (db : database) (t : table) (fs : filesystem) :
  fs !! normalize filepath = Some (DbFile db) →
  admin db = Some (admin_rows fields) → dict_table db = Some t →
  columns t = fields → head fields = Some q →
  __init__ filepath fs = (Ok (ScreedDB (Some t) fields q (max_rowid (rows t))), fs).
Proof.
  intros Hfs Hadm Ht Hc Hh. unfold __init__, io_bind, getScreedDB.
  rewrite Hfs, Hadm, Ht, admin_rows_snd.
  destruct fields as [|q' fields]; [done|]. injection Hh as ->.
  by rewrite bool_decide_eq_true_2.
Qed.

Lemma empty_table_ok (fields : list string) (q : string) :
  table_ok q (Table fields []).
Proof. split; [done|done|constructor]. Qed.


(** ** Builds that an insert aborts *)

(** The insert loop on complete records, one of which repeats a lookup key
    (of an earlier record or of a row of the table). *)
Lemma insert_all_dup (fields : list string) (q : string) (records : list dict)
    (db : database) (t : table) :
  dict_table db = Some t → columns t = fields → unique_index db = Some q →
  head fields = Some q →
  Forall (λ r, ∀ f, f ∈ fields → is_Some (r !! f)) records →
  NoDup ((λ r, head r.2) <$> rows t) →
  ¬ NoDup (((λ r, head r.2) <$> rows t) ++ ((λ r, r !! q) <$> records)) →
  insert_all fields records db = Raise IntegrityError.
Proof.
  revert db t.
  induction records as [|record records IH]; intros db t Ht Hc Hq Hh Hall Hnd Hdup.
  { by rewrite app_nil_r in Hdup. }
  apply Forall_cons in Hall as [Hrec Hall].
  cbn [insert_all]. rewrite record_tuple_ok by done. cbn [res_bind].
  destruct (decide (record !! q ∈ (λ r, head r.2) <$> rows t)) as [Hin|Hnew].
  { by rewrite insert_row_dup with (q := q) (t := t). }
  rewrite insert_row_new with (q := q) (t := t) by done. cbn [res_bind].
  assert (((λ r : Z * list string, head r.2) <$>
            rows t ++ [(next_rowid (rows t), (λ f, record !!! f) <$> fields)])
          = ((λ r, head r.2) <$> rows t) ++ [record !! q]) as Hrows.
  { rewrite fmap_app. cbn [fmap list_fmap snd]. f_equal.
    destruct (Hrec q) as [v Hv]; [by apply head_Some_elem_of|].
    destruct fields as [|q' fields]; [done|]. injection Hh as ->.
    cbn [fmap list_fmap head]. rewrite (lookup_total_correct _ _ _ Hv).
    by rewrite <- Hv. }
  eapply IH; [done|done|done|done|done| |]; cbn [rows]; rewrite Hrows.
  - apply NoDup_app. split_and!; [done| |apply NoDup_singleton].
    intros x Hx ->%list_elem_of_singleton. done.
  - by rewrite <- app_assoc.
Qed.



(** ** What a build leaves alone *)

(** A build changes no path but its target, and what it returns and leaves
    at the target does not depend on what the filesystem held before. *)
Theorem create_db_touches_only_target (filepath : string) (fields : list string)
    (it : trace) (fs fs0 : filesystem) :
  valid_schema fields →
  (∀ p, p ≠ normalize filepath →
     (create_db filepath fields it fs).2 !! p = fs !! p) ∧
  (create_db filepath fields it fs).1 = (create_db filepath fields it fs0).1 ∧
  (create_db filepath fields it fs).2 !! normalize filepath
  = (create_db filepath fields it fs0).2 !! normalize filepath ∧
  ∃ db, (create_db filepath fields it fs).2 !! normalize filepath = Some (DbFile db).
Proof.
  intros Hv. rewrite !(create_db_eq _ _ _ _ Hv).
  destruct (insert_all _ _ _) as [db|e'|]; [destruct it.2 as [|e'|]|..]; cbn [fst snd];
    (split; [intros p Hp; by rewrite lookup_insert_ne|]);
    rewrite !lookup_insert_eq; eauto.
Qed.

(** ** The extension of a store path *)

Lemma rev_app_acc (s acc : string) :
  String.rev_app s acc = String.rev_app s "" +:+ acc.
Proof.
  revert acc. induction s as [|c s IH]; intros acc; [done|].
  cbn [String.rev_app]. rewrite (IH (String c acc)), (IH (String c "")).
  by rewrite str_app_assoc.
Qed.

Lemma rev_app_str (s1 s2 : string) :
  String.rev (s1 +:+ s2) = String.rev s2 +:+ String.rev s1.
Proof.
  unfold String.rev. generalize "" at 1 3.
  induction s1 as [|c s1 IH]; intros acc.
  - rewrite str_app_nil_l. apply rev_app_acc.
  - rewrite str_app_cons. cbn [String.rev_app]. apply IH.
Qed.

Lemma prefix_app (s1 s2 : string) : String.prefix s1 (s1 +:+ s2) = true.
Proof.
  induction s1 as [|c s1 IH]; [by destruct s2|].
  rewrite str_app_cons. cbn [String.prefix]. by destruct (ascii_dec c c).
Qed.

Lemma endswith_app (suffix s : string) : endswith suffix (s +:+ suffix) = true.
Proof. unfold endswith. rewrite rev_app_str. apply prefix_app. Qed.

Lemma normalize_ends (filepath : string) :
  endswith fileExtension (normalize filepath) = true.
Proof.
  unfold normalize. destruct (endswith fileExtension filepath) eqn:He; [done|].
  apply endswith_app.
Qed.

(** A store is built equally with or without the extension in its name:
    the path a build works on always ends with the extension, adding the
    extension twice is adding it once, and a build under the extended name
    is the build under the plain name. *)
Theorem store_path_extension_is_optional (filepath : string) (fields : list string)
    (it : trace) (fs : filesystem) :
  endswith fileExtension (normalize filepath) = true ∧
  normalize (normalize filepath) = normalize filepath ∧
  create_db (normalize filepath) fields it fs = create_db filepath fields it fs.
Proof.
  assert (normalize (normalize filepath) = normalize filepath) as Hidem.
  { unfold normalize at 1. by rewrite normalize_ends. }
  split_and!; [apply normalize_ends|done|].
  unfold create_db. fold (normalize (normalize filepath)) (normalize filepath).
  by rewrite Hidem.
Qed.

(** ** A closed store *)

(** After [close()] every lookup and every iteration raises
    [AttributeError] (there is no connection to take a cursor from), while
    [__len__] still answers what it answered before; closing twice is
    closing once. *)
Theorem closed_store_refuses_lookups (self : screedDB) (key : pyval) (index : Z) :
  __getitem__ (close self) key = Raise AttributeError ∧
  loadRecordByIndex (close self) index = Raise AttributeError ∧
  __contains__ (close self) key = Raise AttributeError ∧
  has_key (close self) key = Raise AttributeError ∧
  values (close self) = Raise AttributeError ∧
  keys (close self) = Raise AttributeError ∧
  items (close self) = Raise AttributeError ∧
  __len__ (close self) = __len__ self ∧
  close (close self) = close self.
Proof. by split_and!. Qed.

(** ** Membership and lookup *)




(** In an opened store [keys()] has no key twice, has one key per row, and
    every key it lists is the lookup-field value of the record found under
    it. *)
Theorem keys_are_distinct_and_found (self : screedDB) (ks : list string) :
  store_ok self →
  keys self = Ok ks →
  NoDup ks ∧ length ks = length (rows (the_table self)) ∧
  ∀ k, k ∈ ks →
    ∃ r, __getitem__ self (VStr k) = Ok r ∧ r !! _queryBy self = Some (VStr k).
Proof.
  intros [(t & Hdb & Hcols & Hok & Hlen) Hq Hnd].
  unfold keys, iterkeys, cursor, to_list, the_table. rewrite Hdb. cbn.
  intros [= <-]. split_and!.
  - pose proof (ok_unique _ _ Hok) as Hu. clear -Hu.
    induction (rows t) as [|r rs IH]; [constructor|].
    cbn in *. apply NoDup_cons in Hu as [Hr Hu].
    destruct (cell t (_queryBy self) r) as [k|] eqn:Hk; cbn; [|by apply IH].
    constructor; [|by apply IH].
    intros (r' & Hr' & Hk')%list_elem_of_omap. apply Hr.
    apply list_elem_of_fmap. exists r'. by rewrite Hk'.
  - by rewrite (keys_rows self t Hdb Hcols Hok Hq Hnd), length_fmap.
  - intros k (r & Hr & Hc)%list_elem_of_omap.
    exists (row_record (_fieldTuple self) r). split.
    + by apply (get_row self t Hdb Hcols Hok Hq Hnd r (VStr k)).
    + apply (row_record_queryBy self t Hdb Hcols Hok Hq Hnd).
      by rewrite <- (cell_queryBy self t Hdb Hcols Hok Hq Hnd).
Qed.

(** ** More of the serializer *)

Lemma join_with_cons (sep x : string) (l : list string) :
  l ≠ [] → Py.join_with sep (x :: l) = x +:+ sep +:+ Py.join_with sep l.
Proof. by destruct l. Qed.

Lemma linewrap_loop_len (s : string) (b : nat) :
  Py.len (Py.join_with newline (linewrap_loop s b []))
  = (Py.len s - b) + (Py.len s - b - 1) / _MAXLINELEN.
Proof.
  remember (Py.len s - b) as n eqn:Hn. revert b Hn.
  induction (lt_wf n) as [n _ IH]; intros b ->.
  destruct (decide (b < Py.len s)) as [Hb|Hb]; last first.
  { rewrite linewrap_loop_end by done.
    replace (Py.len s - b) with 0 by lia. done. }
  rewrite (linewrap_loop_step _ _ _ Hb), linewrap_loop_acc. cbn [app].
  destruct (decide (b + _MAXLINELEN < Py.len s)) as [Hb'|Hb'].
  - rewrite join_with_cons; last first.
    { rewrite (linewrap_loop_step _ _ _ Hb'), linewrap_loop_acc.
      by destruct (linewrap_loop _ _ _). }
    rewrite !len_app. unfold Py.slice at 1. rewrite substring_len.
    rewrite (IH (Py.len s - (b + _MAXLINELEN)) ltac:(unfold _MAXLINELEN; lia)
                (b + _MAXLINELEN) eq_refl).
    unfold _MAXLINELEN in *. cbn [Py.len newline].
    replace (Py.len s - b - 1) with ((Py.len s - (b + 80) - 1) + 1 * 80) by lia.
    rewrite Nat.div_add by lia. lia.
  - rewrite (linewrap_loop_end _ (b + _MAXLINELEN)) by done.
    cbn [Py.join_with String.concat]. unfold Py.slice. rewrite substring_len.
    unfold _MAXLINELEN in *. rewrite Nat.div_small by lia. lia.
Qed.

(** [linewrap] adds one newline after every full line that is followed by
    more text, and nothing else; a text of at most [_MAXLINELEN] characters
    is returned as it is. *)
Theorem linewrap_adds_newlines_between_lines (s : string) :
  Py.len (linewrap s) = Py.len s + (Py.len s - 1) / _MAXLINELEN ∧
  (Py.len s ≤ _MAXLINELEN → linewrap s = s).
Proof.
  split.
  - unfold linewrap. by rewrite linewrap_loop_len, Nat.sub_0_r.
  - intros Hlen. unfold linewrap.
    destruct (decide (0 < Py.len s)) as [Hpos|Hpos]; last first.
    { rewrite linewrap_loop_end by done. destruct s; [done|cbn in Hpos; lia]. }
    rewrite (linewrap_loop_step _ _ _ Hpos), linewrap_loop_end by (cbn; lia).
    cbn [app Py.join_with String.concat]. unfold Py.slice.
    rewrite substring_beyond by lia. by rewrite Nat.sub_0_r, substring_all.
Qed.

(** The text written for a record that has a name and a sequence. *)
Lemma fasta_text_entry (value : record) (name sequence : string) :
  value !! "name" = Some (VStr name) →
  value !! "sequence" = Some (VStr sequence) →
  fasta_text value
  = Ok (">" +:+ name +:+ " " +:+ comment_of value +:+ newline +:+
        linewrap sequence +:+ newline).
Proof.
  intros Hn Hs. unfold fasta_text, getitem.
  rewrite Hn, Hs. cbn [res_bind as_text str].
  by rewrite comment_of_getComments.
Qed.


(** A store built from no record cannot be written out: its [__len__] is
    [None], so both serializers raise [TypeError] when they start to
    iterate, after the output file has been created empty. *)
Theorem empty_store_cannot_be_serialized (dbFile outputFile : string)
    (fields : list string) (fs : filesystem) :
  valid_schema fields →
  outputFile ≠ normalize dbFile →
  ∃ fs', create_db dbFile fields ([], Stopped) fs = (Ok tt, fs') ∧
         toFastq dbFile outputFile fs'
         = (Raise TypeError, <[outputFile := TextFile ""]> fs') ∧
         toFasta dbFile outputFile fs'
         = (Raise TypeError, <[outputFile := TextFile ""]> fs').
Proof.
  intros Hv Hout. rewrite (create_db_eq _ _ _ _ Hv). cbn.
  eexists. split; [done|].
  destruct Hv as [Hne _]. destruct fields as [|q fields]; [done|].
  split; unfold toFastq, toFasta, io_bind at 1, open_wb.
  all: rewrite (open_built dbFile (q :: fields) q (schema_only (q :: fields))
                  (Table (q :: fields) []));
    [done|rewrite lookup_insert_ne by done; apply lookup_insert_eq|done..].
Qed.

Lemma init_keeps_files (dbFile : string) (fs : filesystem) :
  (__init__ dbFile fs).2 = fs.
Proof.
  unfold __init__, io_bind, getScreedDB, io_ret.
  destruct (fs !! normalize dbFile) as [[s|db]|]; [done| |done].
  destruct (admin db) as [adm|], (dict_table db) as [t|]; [|done..].
  destruct (adm.*2) as [|q ft]; [done|]. by case_bool_decide.
Qed.

Lemma write_all_frame (text : record → result string) (outputFile p : string)
    (it : list record * ending) (fs : filesystem) :
  p ≠ outputFile → (write_all text outputFile it fs).2 !! p = fs !! p.
Proof.
  intros Hp. unfold write_all.
  assert (∀ vs fs,
    (io_fold (λ _ value, let* t := io_lift (text value) in write outputFile t)
       tt vs fs).2 !! p = fs !! p) as Hfold.
  { clear fs. induction vs as [|v vs IH]; intros fs; [done|].
    cbn [io_fold]. unfold io_bind at 1 2, io_lift at 1.
    destruct (text v) as [tx|e|]; [|done..].
    unfold write at 1.
    destruct (fs !! outputFile) as [[s|db]|]; [|done..].
    rewrite IH. by rewrite lookup_insert_ne. }
  unfold io_bind. specialize (Hfold it.1 fs).
  destruct (io_fold _ _ _ _) as [[u|e|] fs']; [|done..].
  by destruct it.2.
Qed.

(** The serializers change no path but the output file, which afterwards
    holds a text, whatever the store path holds and however the call ends. *)
Theorem serializers_touch_only_output (dbFile outputFile : string)
    (fs : filesystem) :
  (∀ p, p ≠ outputFile →
     (toFastq dbFile outputFile fs).2 !! p = fs !! p ∧
     (toFasta dbFile outputFile fs).2 !! p = fs !! p) ∧
  (∃ s, (toFastq dbFile outputFile fs).2 !! outputFile = Some (TextFile s)) ∧
  (∃ s, (toFasta dbFile outputFile fs).2 !! outputFile = Some (TextFile s)).
Proof.
  assert (∀ text it fs0 s0, fs0 !! outputFile = Some (TextFile s0) →
    ∃ s, (write_all text outputFile it fs0).2 !! outputFile = Some (TextFile s)) as Hout.
  { intros text it fs0 s0 Hfs0. unfold write_all.
    assert (∀ vs fs s0, fs !! outputFile = Some (TextFile s0) → ∃ s,
      (io_fold (λ _ value, let* t := io_lift (text value) in write outputFile t)
         tt vs fs).2 !! outputFile = Some (TextFile s)) as Hfold.
    { clear. induction vs as [|v vs IH]; intros fs s0 Hfs; [by exists s0|].
      cbn [io_fold]. unfold io_bind at 1 2, io_lift at 1.
      destruct (text v) as [tx|e|]; [|by exists s0..].
      unfold write at 1. rewrite Hfs.
      eapply IH. apply lookup_insert_eq. }
    unfold io_bind. destruct (Hfold it.1 fs0 s0 Hfs0) as [s Hs].
    destruct (io_fold _ _ _ _) as [[u|e|] fs']; [|by exists s..].
    exists s. by destruct it.2. }
  assert (∀ text,
    (∀ p, p ≠ outputFile →
       ((let* _ := open_wb outputFile in
         let* db := __init__ dbFile in
         write_all text outputFile (itervalues db)) fs).2 !! p = fs !! p) ∧
    ∃ s, ((let* _ := open_wb outputFile in
           let* db := __init__ dbFile in
           write_all text outputFile (itervalues db)) fs).2 !! outputFile
         = Some (TextFile s)) as Hboth.
  { intros text. unfold io_bind at 1 3, open_wb.
    set (fs1 := <[outputFile := TextFile ""]> fs).
    unfold io_bind. pose proof (init_keeps_files dbFile fs1) as Hinit.
    destruct (__init__ dbFile fs1) as [[db|e|] fs2]; cbn in Hinit; subst fs2.
    - split.
      + intros p Hp. rewrite write_all_frame by done. by apply lookup_insert_ne.
      + apply (Hout _ _ _ ""). apply lookup_insert_eq.
    - split; [intros p Hp; by apply lookup_insert_ne|].
      exists "". apply lookup_insert_eq.
    - split; [intros p Hp; by apply lookup_insert_ne|].
      exists "". apply lookup_insert_eq. }
  split_and!.
  - intros p Hp. split; by apply Hboth.
  - apply (Hboth fastq_text).
  - apply (Hboth fasta_text).
Qed.

(** ** Parsers feeding the builder *)

Lemma drive_endings (p : parser) (fuel : nat) (E : exn → Prop) :
  (∀ d line h e d', parser_body p fuel d line h = BRaise e d' → E e) →
  ∀ k g σ e, (drive p fuel k g σ).1.2 = Failed e → E e.
Proof.
  intros Hbody. induction k as [|k IH]; intros g σ e; [done|].
  cbn [drive].
  assert (∀ data line h σ0,
            (let '(r, g', σ') := gen_loop p fuel data line h σ0 in
             match r with
             | Yielded l =>
                 let '(ys, e, σ'') := drive p fuel k g' σ' in
                 ((l, σ' !!! l) :: ys, e, σ'')
             | StopIteration => ([], Stopped, σ')
             | Raised e => ([], Failed e, σ')
             | OutOfFuel => ([], Diverged, σ')
             end).1.2 = Failed e → E e) as Hloop.
  { intros data line h σ0. unfold gen_loop.
    case_bool_decide; [done|].
    destruct (parser_body p fuel (σ0 !!! data) line h) as [d line' h'|e' d|] eqn:Hb;
      [| |done].
    - specialize (IH (GParked data line' h') (<[data := d]> σ0) e).
      by destruct (drive p fuel k _ _) as [[ys e0] σ''].
    - cbn. intros [= <-]. by eapply Hbody. }
  destruct g as [h|data line h|]; cbn [gen_next].
  - destruct (readline_strip h) as [line h']. apply Hloop.
  - apply Hloop.
  - done.
Qed.

Lemma run_endings (p : parser) (fuel : nat) (E : exn → Prop) (h : handle) (e : exn) :
  (∀ d line h e d', parser_body p fuel d line h = BRaise e d' → E e) →
  (run p fuel h).2 = Failed e → E e.
Proof.
  intros Hbody. unfold run.
  pose proof (drive_endings p fuel E Hbody fuel (GCreated h) ∅ e) as Hd.
  by destruct (drive p fuel fuel (GCreated h) ∅) as [[ys e0] σ].
Qed.

Lemma faiter_complete (fuel : nat) (h : handle) :
  Forall (λ r : dict, ∀ f, f ∈ FASTAFIELDTYPES → is_Some (r !! f))
    (run faiter fuel h).1.
Proof.
  apply run_records. intros d line h0 d' line' h'. cbn [parser_body faiter].
  unfold Fasta.body. case_match; [done|]. rewrite fasta_set_header.
  destruct (readline_strip h0) as [l1 h1].
  destruct (Fasta.sequence_loop fuel [] l1 h1) as [[[sequence l2] h2]|]; [|done].
  intros [= <- _ _] f Hf. unfold FASTAFIELDTYPES in Hf.
  rewrite !elem_of_cons, elem_of_nil in Hf.
  destruct Hf as [->|[->|[->|[]]]]; rewrite !lookup_insert; cbn; eauto.
Qed.

Lemma fqiter_complete (fuel : nat) (h : handle) :
  Forall (λ r : dict, ∀ f, f ∈ FASTQFIELDTYPES → is_Some (r !! f))
    (run fqiter fuel h).1.
Proof.
  apply run_records. intros d line h0 d' line' h'. cbn [parser_body fqiter].
  unfold Fastq.body. case_match; [done|]. rewrite fastq_set_header.
  destruct (readline_strip h0) as [l1 h1].
  destruct (Fastq.sequence_loop fuel [] l1 h1) as [[[sequence l2] h2]|]; [|done].
  destruct (readline_strip h2) as [l3 h3].
  destruct (Fastq.accuracy_loop fuel [] l3 h3) as [[[accuracy l4] h4]|]; [|done].
  case_match; [done|].
  intros [= <- _ _] f Hf. unfold FASTQFIELDTYPES in Hf.
  rewrite !elem_of_cons, elem_of_nil in Hf.
  destruct Hf as [->|[->|[->|[->|[]]]]]; rewrite !lookup_insert; cbn; eauto.
Qed.

Lemma havaiter_complete (fuel : nat) (h : handle) :
  Forall (λ r : dict, ∀ f, f ∈ HAVAFIELDS → is_Some (r !! f))
    (run havaiter fuel h).1.
Proof.
  apply run_records. intros d line h0 d' line' h'. cbn [parser_body havaiter].
  unfold Hava.body.
  destruct (readline_strip h0) as [l1 h1]. destruct (readline_strip h1) as [l2 h2].
  destruct (readline_strip h2) as [l3 h3]. destruct (readline_strip h3) as [l4 h4].
  destruct (readline_strip h4) as [l5 h5]. destruct (readline_strip h5) as [l6 h6].
  intros [= <- _ _] f Hf. unfold HAVAFIELDS in Hf.
  rewrite !elem_of_cons, elem_of_nil in Hf.
  destruct Hf as [->|[->|[->|[->|[->|[->|[]]]]]]]; rewrite !lookup_insert; cbn; eauto.
Qed.

Lemma fqiter_raises_IOError (fuel : nat) (h : handle) (e : exn) :
  (run fqiter fuel h).2 = Failed e → e = IOError.
Proof.
  apply (run_endings fqiter fuel (λ e, e = IOError)).
  intros d line h0 e0 d'. cbn [parser_body fqiter]. unfold Fastq.body.
  case_match; [by intros [= <- _]|].
  destruct (readline_strip h0) as [l1 h1].
  destruct (Fastq.sequence_loop fuel [] l1 h1) as [[[sequence l2] h2]|]; [|done].
  destruct (readline_strip h2) as [l3 h3].
  destruct (Fastq.accuracy_loop fuel [] l3 h3) as [[[accuracy l4] h4]|]; [|done].
  case_match; [by intros [= <- _]|done].
Qed.

Lemma faiter_ends (fuel : nat) (h : handle) :
  length h < fuel →
  (∃ rs, run faiter fuel h = (rs, Stopped)) ∨
  run faiter fuel h = ([], Failed IOError).
Proof.
  intros Hfuel. destruct fuel as [|k]; [lia|]. rewrite run_parked.
  pose proof (pending_readline h) as Hp.
  destruct (decide (next_line h = "")) as [Hl|Hl].
  - left.
    destruct (fasta_drive_ends (S k) (S k) (fresh (dom (∅ : heap))) (next_line h)
                (readline_strip h).2 (<[fresh (dom (∅ : heap)) := ∅]> ∅))
      as (ys & σ' & ->); [lia|lia|by left|]. eauto.
  - destruct (Py.startswith ">" (next_line h)) eqn:Hs.
    + left.
      destruct (fasta_drive_ends (S k) (S k) (fresh (dom (∅ : heap))) (next_line h)
                  (readline_strip h).2 (<[fresh (dom (∅ : heap)) := ∅]> ∅))
        as (ys & σ' & ->); [lia|lia|by right|]. eauto.
    + right. erewrite drive_raise; [done|done|].
      cbn [parser_body faiter]. unfold Fasta.body. by rewrite Hs.
Qed.

Lemma havaiter_ends (fuel : nat) (h : handle) :
  length h < fuel → ∃ rs, run havaiter fuel h = (rs, Stopped).
Proof.
  intros Hfuel. destruct fuel as [|k]; [lia|]. rewrite run_parked.
  pose proof (pending_readline h) as Hp.
  destruct (hava_drive_ends (S k) (S k) (fresh (dom (∅ : heap))) (next_line h)
              (readline_strip h).2 (<[fresh (dom (∅ : heap)) := ∅]> ∅))
    as (ys & σ' & ->); [lia|]. eauto.
Qed.

Lemma create_db_outcome (filepath : string) (fields : list string) (q : string)
    (records : list dict) (e : ending) (fs : filesystem) :
  valid_schema fields → head fields = Some q →
  Forall (λ r, ∀ f, f ∈ fields → is_Some (r !! f)) records →
  build_outcome filepath fields q records e fs
    (create_db filepath fields (records, e) fs).1
    (create_db filepath fields (records, e) fs).2.
Proof.
  intros Hv Hh Hall.
  destruct (decide (NoDup ((λ r, r !! q) <$> records))) as [Hnd|Hdup]; last first.
  { rewrite (create_db_eq _ _ _ _ Hv). cbn [fst snd].
    rewrite (insert_all_dup fields q records (schema_only fields) (Table fields []));
      try done; [by constructor|constructor]. }
  destruct e as [|x|].
  - destruct (insert_all_rows fields q records (schema_only fields) (Table fields []))
      as (t & Hins & _); [done..|].
    pose proof (create_db_eq filepath fields (records, Stopped) fs Hv) as Heq.
    cbn [fst snd] in Heq. rewrite Hins in Heq.
    destruct (build_then_open _ _ _ _ _ Hv Heq) as (self & Hinit & Hok & Hft & Hlen & _).
    rewrite Heq. by econstructor.
  - rewrite (create_db_eq _ _ _ _ Hv). cbn [fst snd].
    destruct (insert_all_rows fields q records (schema_only fields) (Table fields []))
      as (t & -> & _); [done..|]. by econstructor.
  - rewrite (create_db_eq _ _ _ _ Hv). cbn [fst snd].
    destruct (insert_all_rows fields q records (schema_only fields) (Table fields []))
      as (t & -> & _); [done..|]. by econstructor.
Qed.

Lemma fasta_schema_valid :
  _PRIMARY_KEY ∉ FASTAFIELDTYPES → valid_schema FASTAFIELDTYPES.
Proof.
  intros Hpk. split; [done|]. constructor; [done|].
  unfold FASTAFIELDTYPES. compute_done.
Qed.

Lemma fastq_schema_valid :
  _PRIMARY_KEY ∉ FASTQFIELDTYPES → valid_schema FASTQFIELDTYPES.
Proof.
  intros Hpk. split; [done|]. constructor; [done|].
  unfold FASTQFIELDTYPES. compute_done.
Qed.

Lemma hava_schema_valid :
  _PRIMARY_KEY ∉ HAVAFIELDS → valid_schema HAVAFIELDS.
Proof.
  intros Hpk. split; [done|]. constructor; [done|].
  unfold HAVAFIELDS. compute_done.
Qed.

(** [read_fasta_sequences] on a text file comes to an end, in one of three
    ways: the names that [faiter] yields are pairwise distinct, the call
    returns, and the store it leaves opens with one row per record; or a
    name comes twice and the call raises [IntegrityError]; or the first
    line is no header and the call raises [IOError]. It never raises
    [KeyError]. When it raises, the target holds a store without records. *)
Theorem read_fasta_sequences_outcome (fuel : nat) (filename s : string)
    (fs : filesystem) :
  _PRIMARY_KEY ∉ FASTAFIELDTYPES →
  fs !! filename = Some (TextFile s) →
  length (Py.readlines s) < fuel →
  ∃ rs e,
    run faiter fuel (Py.readlines s) = (rs, e) ∧
    (e = Stopped ∨ (e = Failed IOError ∧ rs = [])) ∧
    build_outcome filename FASTAFIELDTYPES "name" rs e fs
      (read_fasta_sequences fuel filename fs).1
      (read_fasta_sequences fuel filename fs).2.
Proof.
  intros Hpk Hfs Hfuel. unfold read_fasta_sequences.
  erewrite io_bind_ok; [|unfold open_rb; by rewrite Hfs].
  pose proof (faiter_complete fuel (Py.readlines s)) as Hall.
  destruct (run faiter fuel (Py.readlines s)) as [rs e] eqn:Hrun.
  exists rs, e. split; [done|]. split.
  - destruct (faiter_ends fuel _ Hfuel) as [[rs' Hr]|Hr];
      rewrite Hr in Hrun; injection Hrun as <- <-; auto.
  - apply create_db_outcome; [by apply fasta_schema_valid|done|done].
Qed.

(** [read_fastq_sequences] on a text file: the call returns when [fqiter]
    stops and the names it yielded are pairwise distinct, and the store it
    leaves then opens with one row per record; it raises [IntegrityError]
    when a name comes twice, [IOError] when [fqiter] raises, and does not
    return when [fqiter] does not. It never raises [KeyError]. *)
Theorem read_fastq_sequences_outcome (fuel : nat) (filename s : string)
    (fs : filesystem) :
  _PRIMARY_KEY ∉ FASTQFIELDTYPES →
  fs !! filename = Some (TextFile s) →
  ∃ rs e,
    run fqiter fuel (Py.readlines s) = (rs, e) ∧
    (e = Stopped ∨ e = Failed IOError ∨ e = Diverged) ∧
    build_outcome filename FASTQFIELDTYPES "name" rs e fs
      (read_fastq_sequences fuel filename fs).1
      (read_fastq_sequences fuel filename fs).2.
Proof.
  intros Hpk Hfs. unfold read_fastq_sequences.
  erewrite io_bind_ok; [|unfold open_rb; by rewrite Hfs].
  pose proof (fqiter_complete fuel (Py.readlines s)) as Hall.
  pose proof (fqiter_raises_IOError fuel (Py.readlines s)) as Hend.
  destruct (run fqiter fuel (Py.readlines s)) as [rs e] eqn:Hrun.
  exists rs, e. split; [done|]. split.
  - destruct e as [|x|]; auto. right. left. f_equal. by apply Hend.
  - apply create_db_outcome; [by apply fastq_schema_valid|done|done].
Qed.

(** [create_db] fed by [havaiter] over a finite stream always comes to an
    end: it returns, and the store opens with one row per group, or a first
    line comes twice and it raises [IntegrityError]. *)
Theorem hava_build_outcome (fuel : nat) (filepath : string) (h : handle)
    (fs : filesystem) :
  _PRIMARY_KEY ∉ HAVAFIELDS →
  length h < fuel →
  ∃ rs,
    run havaiter fuel h = (rs, Stopped) ∧
    build_outcome filepath HAVAFIELDS "hava" rs Stopped fs
      (create_db filepath HAVAFIELDS (run havaiter fuel h) fs).1
      (create_db filepath HAVAFIELDS (run havaiter fuel h) fs).2.
Proof.
  intros Hpk Hfuel.
  pose proof (havaiter_complete fuel h) as Hall.
  destruct (havaiter_ends fuel h Hfuel) as [rs Hrun]. rewrite Hrun in *.
  exists rs. split; [done|].
  apply create_db_outcome; [by apply hava_schema_valid|done|done].
Qed.

(** ** The quality text of a record *)



(** ** A schema the engine refuses *)


(** ** The listings of a built store *)


(** ** Names without a space *)

Lemma has_char_lstrip (c : ascii) (s : string) :
  has_char c s = false → has_char c (Py.lstrip s) = false.
Proof.
  induction s as [|a s IH]; [done|]. cbn [Py.lstrip].
  destruct (Ascii.is_space a); [|done].
  cbn [has_char]. intros [_ Hs]%orb_false_elim. by apply IH.
Qed.

Lemma has_char_rstrip (c : ascii) (s : string) :
  has_char c s = false → has_char c (Py.rstrip s) = false.
Proof.
  induction s as [|a s IH]; [done|]. cbn [Py.rstrip has_char].
  intros [Ha Hs]%orb_false_elim. specialize (IH Hs).
  destruct (Py.rstrip s) as [|b r].
  - destruct (Ascii.is_space a); [done|]. cbn. by rewrite Ha.
  - cbn [has_char] in *. by rewrite Ha, IH.
Qed.

Lemma has_char_before_space (s : string) :
  has_char " " (before_space s) = false.
Proof.
  induction s as [|a s IH]; [done|]. cbn [before_space].
  destruct (Ascii.eqb a " ") eqn:Ha; [done|]. cbn [has_char]. by rewrite Ha, IH.
Qed.

(** Whatever the stream, the name of a record that [fqiter] or [faiter]
    yields contains no space: it is the header up to its first space. *)
Theorem parsed_names_have_no_space (fuel : nat) (h : handle) :
  Forall (λ r : dict, ∃ n, r !! "name" = Some n ∧ has_char " " n = false)
    (run fqiter fuel h).1 ∧
  Forall (λ r : dict, ∃ n, r !! "name" = Some n ∧ has_char " " n = false)
    (run faiter fuel h).1.
Proof.
  split; apply run_records; intros d line h0 d' line' h'.
  - cbn [parser_body fqiter]. unfold Fastq.body. case_match; [done|].
    rewrite fastq_set_header.
    destruct (readline_strip h0) as [l1 h1].
    destruct (Fastq.sequence_loop fuel [] l1 h1) as [[[sequence l2] h2]|]; [|done].
    destruct (readline_strip h2) as [l3 h3].
    destruct (Fastq.accuracy_loop fuel [] l3 h3) as [[[accuracy l4] h4]|]; [|done].
    case_match; [done|]. intros [= <- _ _].
    exists (before_space (Py.from1 line)). rewrite !lookup_insert. cbn.
    split; [done|apply has_char_before_space].
  - cbn [parser_body faiter]. unfold Fasta.body. case_match; [done|].
    rewrite fasta_set_header.
    destruct (readline_strip h0) as [l1 h1].
    destruct (Fasta.sequence_loop fuel [] l1 h1) as [[[sequence l2] h2]|]; [|done].
    intros [= <- _ _].
    exists (Py.strip (before_space (Py.from1 line))). rewrite !lookup_insert. cbn.
    split; [done|]. unfold Py.strip.
    apply has_char_rstrip, has_char_lstrip, has_char_before_space.
Qed.

(** ** From the FASTA text back to the records *)

Lemma all_chars_app (p : ascii → bool) (s1 s2 : string) :
  all_chars p (s1 +:+ s2) = all_chars p s1 && all_chars p s2.
Proof.
  induction s1 as [|a s1 IH]; [done|].
  rewrite str_app_cons. cbn [all_chars]. by rewrite IH, andb_assoc.
Qed.

Lemma all_chars_impl (p q : ascii → bool) (s : string) :
  (∀ c, p c = true → q c = true) → all_chars p s = true → all_chars q s = true.
Proof.
  intros Hpq. induction s as [|a s IH]; [done|]. cbn [all_chars].
  intros [Ha Hs]%andb_prop. by rewrite (Hpq _ Ha), IH.
Qed.

Lemma all_chars_join (p : ascii → bool) (ls : list string) :
  all_chars p (Py.join ls) = true → Forall (λ l, all_chars p l = true) ls.
Proof.
  induction ls as [|l ls IH]; [constructor|].
  rewrite join_cons, all_chars_app. intros [Hl Hls]%andb_prop.
  constructor; [done|by apply IH].
Qed.

Lemma not_space_not_newline (c : ascii) : not_space c = true → not_newline c = true.
Proof.
  unfold not_space, not_newline. destruct (Ascii.eqb_spec c "010"); [by subst|done].
Qed.

Lemma is_base_not_space (c : ascii) : is_base c = true → not_space c = true.
Proof. unfold is_base, not_space. by intros [? _]%andb_prop. Qed.

Lemma not_space_eqb (c : ascii) : not_space c = true → Ascii.eqb c " " = false.
Proof. unfold not_space. destruct (Ascii.eqb_spec c " "); [by subst|done]. Qed.

Lemma str_app_nonempty (s1 s2 : string) : s2 ≠ "" → s1 +:+ s2 ≠ "".
Proof. intros Hne. destruct s1; [by rewrite str_app_nil_l|by rewrite str_app_cons]. Qed.

(** *** Stripping *)

Lemma rstrip_not_space (s : string) : all_chars not_space s = true → Py.rstrip s = s.
Proof.
  induction s as [|a s IH]; [done|]. cbn [all_chars Py.rstrip].
  intros [Ha Hs]%andb_prop. rewrite (IH Hs).
  destruct s; [|done]. unfold not_space in Ha. by destruct (Ascii.is_space a).
Qed.

Lemma lstrip_not_space (s : string) : all_chars not_space s = true → Py.lstrip s = s.
Proof.
  destruct s as [|a s]; [done|]. cbn [all_chars Py.lstrip].
  intros [Ha _]%andb_prop. unfold not_space in Ha. by destruct (Ascii.is_space a).
Qed.

Lemma strip_not_space (s : string) : all_chars not_space s = true → Py.strip s = s.
Proof.
  intros Hs. unfold Py.strip. by rewrite lstrip_not_space, rstrip_not_space.
Qed.

Lemma rstrip_spaces (w : string) : all_chars Ascii.is_space w = true → Py.rstrip w = "".
Proof.
  induction w as [|a w IH]; [done|]. cbn [all_chars Py.rstrip].
  intros [Ha Hw]%andb_prop. by rewrite (IH Hw), Ha.
Qed.

Lemma rstrip_app_spaces (s w : string) :
  all_chars Ascii.is_space w = true → Py.rstrip (s +:+ w) = Py.rstrip s.
Proof.
  intros Hw. induction s as [|a s IH].
  - rewrite str_app_nil_l. by apply rstrip_spaces.
  - rewrite str_app_cons. cbn [Py.rstrip]. by rewrite IH.
Qed.

Lemma rstrip_app_keep (s1 s2 : string) :
  Py.rstrip s2 = s2 → s2 ≠ "" → Py.rstrip (s1 +:+ s2) = s1 +:+ s2.
Proof.
  intros Hs2 Hne. induction s1 as [|a s1 IH].
  - by rewrite str_app_nil_l.
  - rewrite str_app_cons. cbn [Py.rstrip]. rewrite IH.
    pose proof (str_app_nonempty s1 s2 Hne). by destruct (s1 +:+ s2).
Qed.

Lemma rstrip_len (s : string) : Py.len (Py.rstrip s) ≤ Py.len s.
Proof.
  induction s as [|a s IH]; [done|]. cbn [Py.rstrip].
  destruct (Py.rstrip s); [destruct (Ascii.is_space a)|]; cbn in *; lia.
Qed.

Lemma lstrip_len (s : string) :
  Py.lstrip s = s ∨ Py.len (Py.lstrip s) < Py.len s.
Proof.
  induction s as [|a s IH]; [by left|]. cbn [Py.lstrip].
  destruct (Ascii.is_space a); [|by left].
  right. cbn. destruct IH as [->|IH]; lia.
Qed.

Lemma strip_fixed (s : string) : Py.strip s = s → Py.rstrip s = s.
Proof.
  unfold Py.strip. intros Hs.
  destruct (lstrip_len s) as [Hl|Hl]; [by rewrite Hl in Hs|].
  pose proof (rstrip_len (Py.lstrip s)) as Hr. rewrite Hs in Hr. lia.
Qed.

Lemma strip_line (l : string) :
  all_chars not_space l = true → Py.strip (l +:+ newline) = l.
Proof.
  intros Hl. unfold Py.strip. destruct l as [|a l]; [done|].
  rewrite str_app_cons. cbn [all_chars Py.lstrip] in *.
  apply andb_prop in Hl as [Ha Hl].
  assert (Ascii.is_space a = false) as ->
    by (unfold not_space in Ha; by destruct (Ascii.is_space a)).
  rewrite <- str_app_cons, rstrip_app_spaces by done.
  apply rstrip_not_space. cbn [all_chars]. by rewrite Ha, Hl.
Qed.

(** *** The header line *)

Lemma before_space_name (n d : string) :
  all_chars not_space n = true →
  before_space (n +:+ " " +:+ d) = n ∧ after_space (n +:+ " " +:+ d) = d ∧
  before_space n = n ∧ after_space n = "".
Proof.
  induction n as [|a n IH]; [done|]. cbn [all_chars].
  intros [Ha Hn]%andb_prop. destruct (IH Hn) as (H1 & H2 & H3 & H4).
  rewrite str_app_cons. cbn [before_space after_space].
  rewrite (not_space_eqb _ Ha). by rewrite H1, H2, H3, H4.
Qed.

Lemma strip_header (m n d : string) :
  all_chars not_space m = true → m ≠ "" →
  all_chars not_space n = true → Py.rstrip d = d →
  Py.strip (m +:+ n +:+ " " +:+ d +:+ newline)
  = m +:+ n +:+ (if decide (d = "") then "" else " " +:+ d).
Proof.
  intros Hm Hmne Hn Hd. unfold Py.strip.
  assert (Py.lstrip (m +:+ n +:+ " " +:+ d +:+ newline)
          = m +:+ n +:+ " " +:+ d +:+ newline) as ->.
  { destruct m as [|c m]; [done|]. rewrite str_app_cons. cbn [all_chars Py.lstrip] in *.
    apply andb_prop in Hm as [Hc _]. unfold not_space in Hc.
    by destruct (Ascii.is_space c). }
  destruct (decide (d = "")) as [->|Hne].
  - rewrite str_app_nil_l, str_app_nil_r.
    rewrite <- (str_app_assoc m n), rstrip_app_spaces by done.
    apply rstrip_not_space. rewrite all_chars_app. by rewrite Hm, Hn.
  - rewrite <- (str_app_assoc " " d), <- (str_app_assoc n), <- (str_app_assoc m).
    rewrite rstrip_app_spaces by done.
    rewrite <- (str_app_assoc n " " d), <- (str_app_assoc m).
    rewrite rstrip_app_keep; [done|done|done].
Qed.

(** *** Lines *)

Lemma rev_cons (c : ascii) (s : string) :
  String.rev (String c s) = String.rev s +:+ String c "".
Proof. unfold String.rev. cbn [String.rev_app]. apply rev_app_acc. Qed.

Lemma readlines_go_line (cur l rest : string) :
  all_chars not_newline l = true →
  Py.readlines_go cur (l +:+ newline +:+ rest)
  = (String.rev cur +:+ l +:+ newline) :: Py.readlines_go "" rest.
Proof.
  revert cur. induction l as [|a l IH]; intros cur Hl.
  - rewrite !str_app_nil_l. unfold newline at 1.
    rewrite str_app_cons, str_app_nil_l. cbn [Py.readlines_go].
    rewrite Ascii.eqb_refl. by rewrite rev_cons.
  - cbn [all_chars] in Hl. apply andb_prop in Hl as [Ha Hl].
    rewrite str_app_cons. cbn [Py.readlines_go].
    unfold not_newline in Ha. destruct (Ascii.eqb a "010"); [done|].
    rewrite (IH _ Hl), rev_cons. by rewrite str_app_assoc.
Qed.

Lemma readlines_lines (ls : list string) :
  Forall (λ l, all_chars not_newline l = true) ls →
  Py.readlines (Py.join ((λ l, l +:+ newline) <$> ls)) = (λ l, l +:+ newline) <$> ls.
Proof.
  unfold Py.readlines. induction 1 as [|l ls Hl Hls IH]; [done|].
  cbn [fmap list_fmap]. rewrite join_cons, str_app_assoc.
  rewrite readlines_go_line by done. f_equal. apply IH.
Qed.

Lemma join_join (ll : list (list string)) :
  Py.join (Py.join <$> ll) = Py.join (concat ll).
Proof.
  induction ll as [|l ll IH]; [done|].
  cbn [fmap list_fmap concat]. by rewrite join_cons, join_app, IH.
Qed.

Lemma join_with_newline (ls : list string) :
  ls ≠ [] →
  Py.join_with newline ls +:+ newline = Py.join ((λ l, l +:+ newline) <$> ls).
Proof.
  induction ls as [|l ls IH]; [done|]. intros _.
  destruct ls as [|l' ls].
  - done.
  - rewrite join_with_cons by done. cbn [fmap list_fmap]. rewrite join_cons.
    rewrite !str_app_assoc. do 2 f_equal. by apply IH.
Qed.

Lemma wrapped_nonempty (ls : list string) :
  wrapped _MAXLINELEN ls → Forall (λ l, l ≠ "") ls.
Proof.
  induction ls as [|l ls IH]; [constructor|]. cbn [wrapped].
  intros [Hl Hls]. constructor; [|by apply IH].
  intros ->. unfold _MAXLINELEN in Hl. destruct ls; cbn in Hl; lia.
Qed.

(** *** One entry *)

Lemma sequence_lines (p : ascii → bool) (s : string) :
  s ≠ "" → all_chars p s = true →
  linewrap_loop s 0 [] ≠ [] ∧
  Py.join (linewrap_loop s 0 []) = s ∧
  Forall (λ l, l ≠ "" ∧ all_chars p l = true) (linewrap_loop s 0 []).
Proof.
  intros Hne Hs. destruct (linewrap_loop_lines s 0) as [Hjoin Hwrap].
  rewrite Nat.sub_0_r, substring_all in Hjoin. split_and!; [|done|].
  - intros Hnil. rewrite Hnil in Hjoin. by cbn in Hjoin.
  - apply Forall_and. split; [by apply wrapped_nonempty|].
    apply all_chars_join. by rewrite Hjoin.
Qed.

Lemma entry_text (e : fa_entry) :
  entry_sequence e ≠ "" → all_chars is_base (entry_sequence e) = true →
  fasta_text (entry_value e) = Ok (Py.join (fa_lines (entry_block e))).
Proof.
  intros Hne Hs. destruct (sequence_lines _ _ Hne Hs) as (Hnil & _ & _).
  rewrite (fasta_text_entry _ (entry_name e) (entry_sequence e)) by done.
  f_equal. unfold fa_lines, entry_block. cbn [fa_header fa_sequence].
  rewrite join_cons, <- join_with_newline by done.
  assert (comment_of (entry_value e) = entry_description e) as -> by done.
  unfold linewrap. by rewrite !str_app_assoc.
Qed.

Lemma entry_block_raw (e : fa_entry) :
  fa_lines (entry_block e) = (λ l, l +:+ newline) <$> entry_raw e.
Proof.
  unfold fa_lines, entry_block, entry_raw. cbn [fa_header fa_sequence fmap list_fmap].
  by rewrite !str_app_assoc.
Qed.

Lemma entry_raw_lines (e : fa_entry) :
  entry_clean e → Forall (λ l, all_chars not_newline l = true) (entry_raw e).
Proof.
  intros [Hn Hd _ Hne Hs]. unfold entry_raw. constructor.
  - rewrite !all_chars_app, Hd.
    by rewrite (all_chars_impl _ _ _ not_space_not_newline Hn).
  - destruct (sequence_lines _ _ Hne Hs) as (_ & _ & Hls).
    eapply Forall_impl; [done|]. intros l [_ Hl]. cbn.
    eapply all_chars_impl; [|done].
    intros c Hc. by apply not_space_not_newline, is_base_not_space.
Qed.

Lemma entry_block_ok (e : fa_entry) :
  entry_clean e →
  fa_block_ok (entry_block e) ∧ fa_record (entry_block e) = entry_record e.
Proof.
  intros [Hn Hd Hst Hne Hs].
  destruct (sequence_lines _ _ Hne Hs) as (_ & Hjoin & Hls).
  destruct (before_space_name (entry_name e) (entry_description e) Hn)
    as (Hb1 & Ha1 & Hb2 & Ha2).
  assert (∀ l, all_chars is_base l = true → Py.strip (l +:+ newline) = l) as Hline.
  { intros l Hl. apply strip_line. eapply all_chars_impl; [|done].
    apply is_base_not_space. }
  split.
  - split; cbn [entry_block fa_header fa_sequence].
    + rewrite strip_header by (done || by apply strip_fixed). apply prefix_app.
    + apply Forall_fmap. eapply Forall_impl; [done|]. intros l [Hl Hb].
      unfold compose. cbn beta.
      rewrite (Hline _ Hb). split; [|done].
      destruct l as [|a l]; [done|]. cbn [all_chars] in Hb.
      apply andb_prop in Hb as [Ha _]. unfold is_base in Ha.
      apply andb_prop in Ha as [_ Ha].
      unfold Py.startswith. cbn [String.prefix].
      destruct (ascii_dec ">" a) as [<-|]; [|done]. by vm_compute in Ha.
  - unfold fa_record, entry_record. cbn [entry_block fa_header fa_sequence].
    rewrite strip_header by (done || by apply strip_fixed).
    assert (Py.join (Py.strip <$> ((λ l, l +:+ newline) <$>
                       linewrap_loop (entry_sequence e) 0 []))
            = entry_sequence e) as ->.
    { rewrite <- Hjoin at 2. f_equal. rewrite <- list_fmap_compose.
      rewrite <- (list_fmap_id (linewrap_loop _ _ _)) at 2.
      apply Forall_fmap_ext. eapply Forall_impl; [done|].
      intros l [_ Hl]. cbn. by apply Hline. }
    assert (∀ x, Py.from1 (">" +:+ x) = x) as Hfrom1 by done.
    rewrite Hfrom1.
    destruct (decide (entry_description e = "")) as [Hempty|Hfull].
    + rewrite Hempty, str_app_nil_r.
      rewrite Hb2, Ha2. by rewrite (strip_not_space _ Hn).
    + rewrite Hb1, Ha1.
      by rewrite (strip_not_space _ Hn), Hst.
Qed.

(** *** All entries *)

Lemma faiter_run_blocks (fuel : nat) (bs : list fa_block) :
  Forall fa_block_ok bs →
  length (concat (fa_lines <$> bs)) < fuel →
  run faiter fuel (concat (fa_lines <$> bs)) = (fa_record <$> bs, Stopped).
Proof.
  intros Hok Hfuel.
  destruct (length_concat_blocks fa_lines bs) as [Hk Hfuels].
  { intros b. unfold fa_lines. cbn. lia. }
  assert (Forall (λ b, length (fa_lines b) < fuel) bs) as Hfuels'.
  { eapply Forall_impl; [done|]. cbn. lia. }
  destruct fuel as [|k0]; [lia|].
  set (data := fresh (dom (∅ : heap))).
  assert (dom ((<[data := ∅]> (∅ : heap)) !!! data) ⊆ fa_keys) as Hdom0.
  { rewrite lookup_total_insert_eq. set_solver. }
  assert (∃ k, S k0 = length bs + S k) as [k Hkeq] by (exists (k0 - length bs); lia).
  rewrite <- (app_nil_r (concat (fa_lines <$> bs))).
  rewrite run_parked. fold data. rewrite Hkeq at 2.
  destruct (fasta_drive_blocks (S k0) (S k) data bs [] _ Hok Hfuels'
              (or_introl eq_refl) Hdom0) as (σ' & _ & ->).
  change (next_line []) with "". rewrite drive_stop.
  by rewrite app_nil_r, fmap_snd_pairs.
Qed.

(** The lines of the texts written for clean entries are the blocks of the
    entries, and [faiter] reads the entries from them. *)
Lemma entry_texts_lines (es : list fa_entry) (ts : list string) :
  Forall entry_clean es →
  Forall2 (λ e t, fasta_text (entry_value e) = Ok t) es ts →
  Py.readlines (Py.join ts) = concat (fa_lines <$> (entry_block <$> es)).
Proof.
  intros Hclean Hts.
  assert (ts = Py.join <$> (fa_lines <$> (entry_block <$> es))) as ->.
  { clear -Hclean Hts. induction Hts as [|e t es ts Ht Hts IH]; [done|].
    apply Forall_cons in Hclean as [[_ _ _ Hne Hs] Hclean].
    rewrite (entry_text e Hne Hs) in Ht. injection Ht as <-.
    cbn [fmap list_fmap]. f_equal. by apply IH. }
  rewrite join_join.
  assert (concat (fa_lines <$> (entry_block <$> es))
          = (λ l, l +:+ newline) <$> concat (entry_raw <$> es)) as Hlines.
  { clear. induction es as [|e es IH]; [done|].
    cbn [fmap list_fmap concat]. by rewrite fmap_app, IH, entry_block_raw. }
  rewrite Hlines. apply readlines_lines.
  apply Forall_concat, Forall_fmap. eapply Forall_impl; [done|].
  intros e He. by apply entry_raw_lines.
Qed.

Lemma faiter_reads_entry_blocks (fuel : nat) (es : list fa_entry) :
  Forall entry_clean es →
  length (concat (fa_lines <$> (entry_block <$> es))) < fuel →
  run faiter fuel (concat (fa_lines <$> (entry_block <$> es)))
  = (entry_record <$> es, Stopped).
Proof.
  intros Hclean Hfuel. rewrite faiter_run_blocks; [|..|done].
  - f_equal. rewrite <- list_fmap_compose. apply Forall_fmap_ext.
    eapply Forall_impl; [done|]. intros e He. cbn. by apply entry_block_ok.
  - apply Forall_fmap. eapply Forall_impl; [done|]. intros e He. cbn.
    by apply entry_block_ok.
Qed.

(** Round trip through the FASTA text: when every entry has a name without
    whitespace, a description without a newline and without whitespace
    around it, and a non-empty sequence without whitespace and without [>],
    [faiter] reads from the texts that [toFasta] writes for the entries, one
    after the other, exactly the entries again, and stops. *)
Theorem fasta_text_parses_back (fuel : nat) (es : list fa_entry) (ts : list string) :
  Forall entry_clean es →
  Forall2 (λ e t, fasta_text (entry_value e) = Ok t) es ts →
  length (Py.readlines (Py.join ts)) < fuel →
  run faiter fuel (Py.readlines (Py.join ts)) = (entry_record <$> es, Stopped).
Proof.
  intros Hclean Hts. rewrite (entry_texts_lines es ts Hclean Hts). intros Hfuel.
  by apply faiter_reads_entry_blocks.
Qed.

(** ** From the FASTQ text back to the records *)

Lemma is_sequence_char_not_space (c : ascii) :
  is_sequence_char c = true → not_space c = true.
Proof. unfold is_sequence_char, not_space. by intros [? _]%andb_prop. Qed.

Lemma is_accuracy_char_not_space (c : ascii) :
  is_accuracy_char c = true → not_space c = true.
Proof. unfold is_accuracy_char, not_space. by intros [? _]%andb_prop. Qed.

Lemma join_stripped_lines (p : ascii → bool) (ls : list string) :
  (∀ c, p c = true → not_space c = true) →
  Forall (λ l, l ≠ "" ∧ all_chars p l = true) ls →
  Py.join (Py.strip <$> ((λ l, l +:+ newline) <$> ls)) = Py.join ls.
Proof.
  intros Hp Hls. f_equal. rewrite <- list_fmap_compose.
  rewrite <- (list_fmap_id ls) at 2.
  apply Forall_fmap_ext. eapply Forall_impl; [done|].
  intros l [_ Hl]. cbn. apply strip_line. by eapply all_chars_impl.
Qed.

Lemma qentry_text (e : fq_entry) :
  qentry_clean e →
  fastq_text (qentry_value e) = Ok (Py.join (fq_lines (qentry_block e))).
Proof.
  intros [_ _ _ Hne Hs Hq Hbal].
  assert (qentry_accuracy e ≠ "") as Hqne.
  { intros Heq. rewrite Heq in Hbal. by destruct (qentry_sequence e). }
  destruct (sequence_lines _ _ Hne Hs) as (Hnil & _ & _).
  destruct (sequence_lines _ _ Hqne Hq) as (Hqnil & _ & _).
  rewrite (fastq_text_entry _ (qentry_name e) (qentry_sequence e));
    [|done|done|intros a [= <-]; by eexists].
  f_equal. unfold fastq_entry, fq_lines, qentry_block.
  cbn [fq_header fq_sequence fq_plus fq_accuracy].
  assert (comment_of (qentry_value e) = qentry_annotations e) as -> by done.
  assert (quality_of (qentry_value e) (qentry_sequence e) = qentry_accuracy e) as ->
    by done.
  rewrite join_cons, join_app, join_cons.
  rewrite <- !join_with_newline by done. unfold linewrap.
  by rewrite !str_app_assoc.
Qed.

Lemma qentry_block_raw (e : fq_entry) :
  fq_lines (qentry_block e) = (λ l, l +:+ newline) <$> qentry_raw e.
Proof.
  unfold fq_lines, qentry_block, qentry_raw.
  cbn [fq_header fq_sequence fq_plus fq_accuracy fmap list_fmap].
  rewrite fmap_app. cbn [fmap list_fmap]. by rewrite !str_app_assoc.
Qed.

Lemma qentry_raw_lines (e : fq_entry) :
  qentry_clean e → Forall (λ l, all_chars not_newline l = true) (qentry_raw e).
Proof.
  intros [Hn Ha _ Hne Hs Hq Hbal].
  assert (qentry_accuracy e ≠ "") as Hqne.
  { intros Heq. rewrite Heq in Hbal. by destruct (qentry_sequence e). }
  destruct (sequence_lines _ _ Hne Hs) as (_ & _ & Hls).
  destruct (sequence_lines _ _ Hqne Hq) as (_ & _ & Hqs).
  unfold qentry_raw. constructor; [|apply Forall_app; split; [|constructor]].
  - rewrite !all_chars_app, Ha.
    by rewrite (all_chars_impl _ _ _ not_space_not_newline Hn).
  - eapply Forall_impl; [exact Hls|]. intros l [_ Hl]. cbn.
    eapply all_chars_impl; [|done].
    intros c Hc. by apply not_space_not_newline, is_sequence_char_not_space.
  - done.
  - eapply Forall_impl; [exact Hqs|]. intros l [_ Hl]. cbn.
    eapply all_chars_impl; [|done].
    intros c Hc. by apply not_space_not_newline, is_accuracy_char_not_space.
Qed.

Lemma first_char_not (p : ascii → bool) (m : ascii) (l : string) :
  (∀ c, p c = true → c ≠ m) → all_chars p l = true →
  Py.startswith (String m "") l = false.
Proof.
  intros Hp Hl. destruct l as [|a l]; [done|].
  cbn [all_chars] in Hl. apply andb_prop in Hl as [Ha _].
  unfold Py.startswith. cbn [String.prefix].
  destruct (ascii_dec m a) as [<-|]; [|done]. by destruct (Hp _ Ha).
Qed.

Lemma qentry_block_ok (e : fq_entry) :
  qentry_clean e →
  fq_block_ok (qentry_block e) ∧ fq_balanced (qentry_block e) ∧
  fq_record (qentry_block e) = qentry_record e.
Proof.
  intros [Hn Ha Hst Hne Hs Hq Hbal].
  assert (qentry_accuracy e ≠ "") as Hqne.
  { intros Heq. rewrite Heq in Hbal. by destruct (qentry_sequence e). }
  destruct (sequence_lines _ _ Hne Hs) as (_ & Hjoin & Hls).
  destruct (sequence_lines _ _ Hqne Hq) as (_ & Hqjoin & Hqs).
  destruct (before_space_name (qentry_name e) (qentry_annotations e) Hn)
    as (Hb1 & Ha1 & Hb2 & Ha2).
  pose proof (join_stripped_lines _ _ is_sequence_char_not_space Hls) as Hseq.
  pose proof (join_stripped_lines _ _ is_accuracy_char_not_space Hqs) as Hacc.
  rewrite Hjoin in Hseq. rewrite Hqjoin in Hacc.
  assert (Py.strip ("@" +:+ qentry_name e +:+ " " +:+ qentry_annotations e +:+ newline)
          = "@" +:+ qentry_name e +:+
            (if decide (qentry_annotations e = "") then ""
             else " " +:+ qentry_annotations e)) as Hhead
    by by apply strip_header.
  split_and!.
  - split; cbn [qentry_block fq_header fq_sequence fq_plus fq_accuracy].
    + rewrite Hhead. apply prefix_app.
    + apply Forall_fmap. eapply Forall_impl; [exact Hls|]. intros l [Hl Hb].
      unfold compose. cbn beta.
      rewrite strip_line
        by (eapply all_chars_impl; [apply is_sequence_char_not_space|done]).
      eapply first_char_not; [|done]. intros c Hc ->. by vm_compute in Hc.
    + done.
    + apply Forall_fmap. eapply Forall_impl; [exact Hqs|]. intros l [Hl Hb].
      unfold compose. cbn beta.
      rewrite strip_line
        by (eapply all_chars_impl; [apply is_accuracy_char_not_space|done]).
      split; [|done].
      eapply first_char_not; [|done]. intros c Hc ->. by vm_compute in Hc.
  - unfold fq_balanced. cbn [qentry_block fq_sequence fq_accuracy].
    by rewrite Hseq, Hacc.
  - unfold fq_record, qentry_record.
    cbn [qentry_block fq_header fq_sequence fq_accuracy].
    rewrite Hhead, Hseq, Hacc.
    assert (∀ x, Py.from1 ("@" +:+ x) = x) as Hfrom1 by done.
    rewrite Hfrom1.
    destruct (decide (qentry_annotations e = "")) as [Hempty|Hfull].
    + rewrite Hempty, str_app_nil_r. by rewrite Hb2, Ha2.
    + by rewrite Hb1, Ha1.
Qed.

Lemma fqiter_run_blocks (fuel : nat) (bs : list fq_block) :
  Forall fq_block_ok bs → Forall fq_balanced bs →
  length (concat (fq_lines <$> bs)) < fuel →
  run fqiter fuel (concat (fq_lines <$> bs)) = (fq_record <$> bs, Stopped).
Proof.
  intros Hok Hbal Hfuel.
  destruct (length_concat_blocks fq_lines bs) as [Hk Hfuels].
  { intros b. unfold fq_lines. cbn. lia. }
  assert (Forall (λ b, length (fq_lines b) < fuel) bs) as Hfuels'.
  { eapply Forall_impl; [done|]. cbn. lia. }
  destruct fuel as [|k0]; [lia|].
  set (data := fresh (dom (∅ : heap))).
  assert (dom ((<[data := ∅]> (∅ : heap)) !!! data) ⊆ fq_keys) as Hdom0.
  { rewrite lookup_total_insert_eq. set_solver. }
  assert (∃ k, S k0 = length bs + S k) as [k Hkeq] by (exists (k0 - length bs); lia).
  rewrite <- (app_nil_r (concat (fq_lines <$> bs))).
  rewrite run_parked. fold data. rewrite Hkeq at 2.
  destruct (fastq_drive_blocks (S k0) (S k) data bs [] _ Hok Hbal Hfuels'
              (or_introl eq_refl) Hdom0) as (σ' & _ & ->).
  change (next_line []) with "". rewrite drive_stop.
  by rewrite app_nil_r, fmap_snd_pairs.
Qed.

(** The lines of the texts written for clean entries are the blocks of the
    entries, and [fqiter] reads the entries from them. *)
Lemma qentry_texts_lines (es : list fq_entry) (ts : list string) :
  Forall qentry_clean es →
  Forall2 (λ e t, fastq_text (qentry_value e) = Ok t) es ts →
  Py.readlines (Py.join ts) = concat (fq_lines <$> (qentry_block <$> es)).
Proof.
  intros Hclean Hts.
  assert (ts = Py.join <$> (fq_lines <$> (qentry_block <$> es))) as ->.
  { clear -Hclean Hts. induction Hts as [|e t es ts Ht Hts IH]; [done|].
    apply Forall_cons in Hclean as [He Hclean].
    rewrite (qentry_text e He) in Ht. injection Ht as <-.
    cbn [fmap list_fmap]. f_equal. by apply IH. }
  rewrite join_join.
  assert (concat (fq_lines <$> (qentry_block <$> es))
          = (λ l, l +:+ newline) <$> concat (qentry_raw <$> es)) as Hlines.
  { clear. induction es as [|e es IH]; [done|].
    cbn [fmap list_fmap concat]. by rewrite fmap_app, IH, qentry_block_raw. }
  rewrite Hlines. apply readlines_lines.
  apply Forall_concat, Forall_fmap. eapply Forall_impl; [done|].
  intros e He. by apply qentry_raw_lines.
Qed.

Lemma fqiter_reads_qentry_blocks (fuel : nat) (es : list fq_entry) :
  Forall qentry_clean es →
  length (concat (fq_lines <$> (qentry_block <$> es))) < fuel →
  run fqiter fuel (concat (fq_lines <$> (qentry_block <$> es)))
  = (qentry_record <$> es, Stopped).
Proof.
  intros Hclean Hfuel. rewrite fqiter_run_blocks; [|..|done].
  - f_equal. rewrite <- list_fmap_compose. apply Forall_fmap_ext.
    eapply Forall_impl; [done|]. intros e He. cbn. by apply qentry_block_ok.
  - apply Forall_fmap. eapply Forall_impl; [done|]. intros e He. cbn.
    by apply qentry_block_ok.
  - apply Forall_fmap. eapply Forall_impl; [done|]. intros e He. cbn.
    by apply qentry_block_ok.
Qed.

(** Round trip through the FASTQ text: when every entry has a name without
    whitespace, annotations without a newline and without whitespace at
    their end, a non-empty sequence without whitespace and without [+], and
    an accuracy of the same length without whitespace and without [@],
    [fqiter] reads from the texts that [toFastq] writes for the entries, one
    after the other, exactly the entries again, and stops. *)
Theorem fastq_text_parses_back (fuel : nat) (es : list fq_entry) (ts : list string) :
  Forall qentry_clean es →
  Forall2 (λ e t, fastq_text (qentry_value e) = Ok t) es ts →
  length (Py.readlines (Py.join ts)) < fuel →
  run fqiter fuel (Py.readlines (Py.join ts)) = (qentry_record <$> es, Stopped).
Proof.
  intros Hclean Hts. rewrite (qentry_texts_lines es ts Hclean Hts). intros Hfuel.
  by apply fqiter_reads_qentry_blocks.
Qed.

(** ** From a FASTA file to the store and back to the file *)

Lemma entry_record_complete (e : fa_entry) :
  ∀ f, f ∈ FASTAFIELDTYPES → is_Some (entry_record e !! f).
Proof.
  intros f Hf. unfold FASTAFIELDTYPES in Hf.
  rewrite !elem_of_cons, elem_of_nil in Hf. unfold entry_record, fa_fields.
  destruct Hf as [->|[->|[->|[]]]]; rewrite !lookup_insert; cbn; eauto.
Qed.

Lemma entry_record_tuple (e : fa_entry) :
  (λ f, entry_record e !!! f) <$> FASTAFIELDTYPES
  = [entry_name e; entry_description e; entry_sequence e].
Proof.
  unfold entry_record, fa_fields, FASTAFIELDTYPES. cbn [fmap list_fmap].
  by rewrite !lookup_total_insert.
Qed.

(** The row of an entry is written as the entry is. *)
Lemma entry_row_text (e : fa_entry) (key : Z) :
  _PRIMARY_KEY ∉ FASTAFIELDTYPES →
  fasta_text (row_record FASTAFIELDTYPES
                (key, [entry_name e; entry_description e; entry_sequence e]))
  = fasta_text (entry_value e).
Proof.
  intros Hpk. unfold FASTAFIELDTYPES in Hpk.
  rewrite !not_elem_of_cons in Hpk. destruct Hpk as (Hn & Hd & Hs & _).
  rewrite (fasta_text_entry (row_record _ _) (entry_name e) (entry_sequence e)).
  - rewrite (fasta_text_entry (entry_value e) (entry_name e) (entry_sequence e))
      by done.
    do 2 f_equal. unfold comment_of, row_record.
    rewrite lookup_insert_ne by done. done.
  - unfold row_record. by rewrite lookup_insert_ne.
  - unfold row_record. by rewrite lookup_insert_ne.
Qed.

(** A FASTA file as [toFasta] writes it is reconstructed from its store:
    for one or more clean entries with pairwise distinct names,
    [read_fasta_sequences] on the file of their texts returns, and [toFasta]
    on the store it built writes that file again, character by character. *)
Theorem fasta_file_is_reconstructed (fuel : nat) (filename outputFile : string)
    (es : list fa_entry) (ts : list string) (fs : filesystem) :
  _PRIMARY_KEY ∉ FASTAFIELDTYPES →
  es ≠ [] → Forall entry_clean es → NoDup (entry_name <$> es) →
  Forall2 (λ e t, fasta_text (entry_value e) = Ok t) es ts →
  fs !! filename = Some (TextFile (Py.join ts)) →
  length (Py.readlines (Py.join ts)) < fuel →
  outputFile ≠ normalize filename →
  ∃ fs',
    read_fasta_sequences fuel filename fs = (Ok tt, fs') ∧
    toFasta filename outputFile fs'
    = (Ok tt, <[outputFile := TextFile (Py.join ts)]> fs').
Proof.
  intros Hpk Hne Hclean Hnames Hts Hfs Hfuel Hout.
  pose proof (fasta_schema_valid Hpk) as Hv.
  unfold read_fasta_sequences.
  erewrite io_bind_ok; [|unfold open_rb; by rewrite Hfs].
  rewrite (entry_texts_lines es ts Hclean Hts) in *.
  rewrite (faiter_reads_entry_blocks fuel es Hclean Hfuel).
  set (records := entry_record <$> es).
  assert (Forall (λ r : dict, ∀ f, f ∈ FASTAFIELDTYPES → is_Some (r !! f)) records)
    as Hall.
  { apply Forall_fmap, Forall_forall. intros e _. exact (entry_record_complete e). }
  assert (NoDup ((λ r : dict, r !! "name") <$> records)) as Hnd.
  { unfold records. rewrite <- list_fmap_compose.
    rewrite (list_fmap_ext _ (Some ∘ entry_name) es) by done.
    rewrite list_fmap_compose. by apply (NoDup_fmap_2 Some). }
  destruct (insert_all_rows FASTAFIELDTYPES "name" records
              (schema_only FASTAFIELDTYPES) (Table FASTAFIELDTYPES []))
    as (t & Hins & Hc & Hsnd); [done|done|done|done|done|done|].
  destruct (insert_all_ok FASTAFIELDTYPES "name" records (schema_only FASTAFIELDTYPES)
              _ (Table FASTAFIELDTYPES []) eq_refl eq_refl eq_refl
              (empty_table_ok FASTAFIELDTYPES "name") Hins)
    as (t' & [= <-] & _ & Hlen & Hok & _).
  cbn [rows fmap list_fmap app length Nat.add] in Hsnd, Hlen.
  rewrite (create_db_eq _ _ _ _ Hv). cbn [fst snd]. rewrite Hins.
  eexists. split; [done|].
  set (fs' := <[normalize filename := _]> fs).
  set (self := ScreedDB (Some t) FASTAFIELDTYPES "name" (max_rowid (rows t))).
  assert (columns t = _fieldTuple self) as Hcols by done.
  destruct Hv as [_ Hndf].
  assert (rows t ≠ []) as Hrows.
  { intros Heq. rewrite Heq in Hlen. unfold records in Hlen.
    rewrite length_fmap in Hlen. by destruct es. }
  unfold toFasta, io_bind at 1, open_wb.
  erewrite io_bind_ok; last first.
  { eapply (open_built filename FASTAFIELDTYPES "name");
      [rewrite lookup_insert_ne by done; apply lookup_insert_eq|done..]. }
  fold self.
  rewrite (itervalues_rows self t eq_refl Hcols Hok eq_refl Hndf Hrows eq_refl).
  erewrite write_all_ok; [|..|apply lookup_insert_eq].
  { by rewrite insert_insert_eq, str_app_nil_l. }
  apply Forall2_same_length_lookup_2.
  { rewrite length_fmap, Hlen. unfold records. rewrite length_fmap.
    by eapply Forall2_length. }
  intros i v tx Hv Htx. rewrite list_lookup_fmap in Hv.
  destruct (rows t !! i) as [[key data]|] eqn:Hi; [|done]. injection Hv as <-.
  assert ((rows t).*2 !! i = Some data) as Hd by by rewrite list_lookup_fmap, Hi.
  rewrite Hsnd in Hd. unfold records in Hd. rewrite !list_lookup_fmap in Hd.
  destruct (es !! i) as [e|] eqn:He; [|done].
  cbn [fmap option_fmap option_map] in Hd. injection Hd as <-.
  change [entry_record e !!! "name"; entry_record e !!! "description";
          entry_record e !!! "sequence"]
    with ((λ f, entry_record e !!! f) <$> FASTAFIELDTYPES).
  rewrite entry_record_tuple. cbn [_fieldTuple self].
  rewrite (entry_row_text e key Hpk).
  exact (Forall2_lookup_lr _ es ts i e tx Hts He Htx).
Qed.

(** ** From a FASTQ file to the store and back to the file *)

Lemma qentry_record_complete (e : fq_entry) :
  ∀ f, f ∈ FASTQFIELDTYPES → is_Some (qentry_record e !! f).
Proof.
  intros f Hf. unfold FASTQFIELDTYPES in Hf.
  rewrite !elem_of_cons, elem_of_nil in Hf. unfold qentry_record, fq_fields.
  destruct Hf as [->|[->|[->|[->|[]]]]]; rewrite !lookup_insert; cbn; eauto.
Qed.

Lemma qentry_record_tuple (e : fq_entry) :
  (λ f, qentry_record e !!! f) <$> FASTQFIELDTYPES
  = [qentry_name e; qentry_annotations e; qentry_sequence e; qentry_accuracy e].
Proof.
  unfold qentry_record, fq_fields, FASTQFIELDTYPES. cbn [fmap list_fmap].
  by rewrite !lookup_total_insert.
Qed.

(** The row of an entry is written as the entry is, unless the key column
    is called [description] (its number would then be taken for the
    comment). *)
Lemma qentry_row_text (e : fq_entry) (key : Z) :
  _PRIMARY_KEY ∉ FASTQFIELDTYPES → _PRIMARY_KEY ≠ "description" →
  fastq_text (row_record FASTQFIELDTYPES
                (key, [qentry_name e; qentry_annotations e; qentry_sequence e;
                       qentry_accuracy e]))
  = fastq_text (qentry_value e).
Proof.
  intros Hpk Hdesc. unfold FASTQFIELDTYPES in Hpk.
  rewrite !not_elem_of_cons in Hpk. destruct Hpk as (Hn & Ha & Hs & Hq & _).
  rewrite (fastq_text_entry (row_record _ _) (qentry_name e) (qentry_sequence e)).
  - rewrite (fastq_text_entry (qentry_value e) (qentry_name e) (qentry_sequence e));
      [|done|done|intros a [= <-]; by eexists].
    f_equal. unfold fastq_entry, comment_of, quality_of, row_record.
    rewrite !lookup_insert_ne by done. done.
  - unfold row_record. by rewrite lookup_insert_ne.
  - unfold row_record. by rewrite lookup_insert_ne.
  - unfold row_record. rewrite lookup_insert_ne by done.
    intros a [= <-]. by eexists.
Qed.

(** A FASTQ file as [toFastq] writes it is reconstructed from its store:
    for one or more clean entries with pairwise distinct names,
    [read_fastq_sequences] on the file of their texts returns, and [toFastq]
    on the store it built writes that file again, character by character
    (the key column not being called [description]). *)
Theorem fastq_file_is_reconstructed (fuel : nat) (filename outputFile : string)
    (es : list fq_entry) (ts : list string) (fs : filesystem) :
  _PRIMARY_KEY ∉ FASTQFIELDTYPES → _PRIMARY_KEY ≠ "description" →
  es ≠ [] → Forall qentry_clean es → NoDup (qentry_name <$> es) →
  Forall2 (λ e t, fastq_text (qentry_value e) = Ok t) es ts →
  fs !! filename = Some (TextFile (Py.join ts)) →
  length (Py.readlines (Py.join ts)) < fuel →
  outputFile ≠ normalize filename →
  ∃ fs',
    read_fastq_sequences fuel filename fs = (Ok tt, fs') ∧
    toFastq filename outputFile fs'
    = (Ok tt, <[outputFile := TextFile (Py.join ts)]> fs').
Proof.
  intros Hpk Hdesc Hne Hclean Hnames Hts Hfs Hfuel Hout.
  pose proof (fastq_schema_valid Hpk) as Hv.
  unfold read_fastq_sequences.
  erewrite io_bind_ok; [|unfold open_rb; by rewrite Hfs].
  rewrite (qentry_texts_lines es ts Hclean Hts) in *.
  rewrite (fqiter_reads_qentry_blocks fuel es Hclean Hfuel).
  set (records := qentry_record <$> es).
  assert (Forall (λ r : dict, ∀ f, f ∈ FASTQFIELDTYPES → is_Some (r !! f)) records)
    as Hall.
  { apply Forall_fmap, Forall_forall. intros e _. exact (qentry_record_complete e). }
  assert (NoDup ((λ r : dict, r !! "name") <$> records)) as Hnd.
  { unfold records. rewrite <- list_fmap_compose.
    rewrite (list_fmap_ext _ (Some ∘ qentry_name) es) by done.
    rewrite list_fmap_compose. by apply (NoDup_fmap_2 Some). }
  destruct (insert_all_rows FASTQFIELDTYPES "name" records
              (schema_only FASTQFIELDTYPES) (Table FASTQFIELDTYPES []))
    as (t & Hins & Hc & Hsnd); [done|done|done|done|done|done|].
  destruct (insert_all_ok FASTQFIELDTYPES "name" records (schema_only FASTQFIELDTYPES)
              _ (Table FASTQFIELDTYPES []) eq_refl eq_refl eq_refl
              (empty_table_ok FASTQFIELDTYPES "name") Hins)
    as (t' & [= <-] & _ & Hlen & Hok & _).
  cbn [rows fmap list_fmap app length Nat.add] in Hsnd, Hlen.
  rewrite (create_db_eq _ _ _ _ Hv). cbn [fst snd]. rewrite Hins.
  eexists. split; [done|].
  set (fs' := <[normalize filename := _]> fs).
  set (self := ScreedDB (Some t) FASTQFIELDTYPES "name" (max_rowid (rows t))).
  assert (columns t = _fieldTuple self) as Hcols by done.
  destruct Hv as [_ Hndf].
  assert (rows t ≠ []) as Hrows.
  { intros Heq. rewrite Heq in Hlen. unfold records in Hlen.
    rewrite length_fmap in Hlen. by destruct es. }
  unfold toFastq, io_bind at 1, open_wb.
  erewrite io_bind_ok; last first.
  { eapply (open_built filename FASTQFIELDTYPES "name");
      [rewrite lookup_insert_ne by done; apply lookup_insert_eq|done..]. }
  fold self.
  rewrite (itervalues_rows self t eq_refl Hcols Hok eq_refl Hndf Hrows eq_refl).
  erewrite write_all_ok; [|..|apply lookup_insert_eq].
  { by rewrite insert_insert_eq, str_app_nil_l. }
  apply Forall2_same_length_lookup_2.
  { rewrite length_fmap, Hlen. unfold records. rewrite length_fmap.
    by eapply Forall2_length. }
  intros i v tx Hv Htx. rewrite list_lookup_fmap in Hv.
  destruct (rows t !! i) as [[key data]|] eqn:Hi; [|done]. injection Hv as <-.
  assert ((rows t).*2 !! i = Some data) as Hd by by rewrite list_lookup_fmap, Hi.
  rewrite Hsnd in Hd. unfold records in Hd. rewrite !list_lookup_fmap in Hd.
  destruct (es !! i) as [e|] eqn:He; [|done].
  cbn [fmap option_fmap option_map] in Hd. injection Hd as <-.
  change [qentry_record e !!! "name"; qentry_record e !!! "annotations";
          qentry_record e !!! "sequence"; qentry_record e !!! "accuracy"]
    with ((λ f, qentry_record e !!! f) <$> FASTQFIELDTYPES).
  rewrite qentry_record_tuple. cbn [_fieldTuple self].
  rewrite (qentry_row_text e key Hpk Hdesc).
  exact (Forall2_lookup_lr _ es ts i e tx Hts He Htx).
Qed.

End Screed.

(** * Runs on the sample inputs *)

(** C1, counterexample: a FASTQ build that fails on a length mismatch leaves
    a store file at a target path that had none, and replaces the store that
    was there by one without records. *)
Lemma failed_build_changes_target :
  (let fs : filesystem := {[ "reads.fastq" := TextFile unbalanced_fastq ]} in
   let out := read_fastq_sequences ext pk 10 "reads.fastq" fs in
   out.1 = Raise IOError ∧ fs !! "reads.fastq_screed" = None ∧
   out.2 !! "reads.fastq_screed" = Some (DbFile (schema_only FASTQFIELDTYPES))) ∧
  (let fs : filesystem := {[ "reads.fastq" := TextFile unbalanced_fastq;
                             "reads.fastq_screed" := DbFile old_store ]} in
   let out := read_fastq_sequences ext pk 10 "reads.fastq" fs in
   out.1 = Raise IOError ∧ fs !! "reads.fastq_screed" = Some (DbFile old_store) ∧
   out.2 !! "reads.fastq_screed" = Some (DbFile (schema_only FASTQFIELDTYPES)) ∧
   out.2 !! "reads.fastq_screed" ≠ fs !! "reads.fastq_screed").
Proof.
  split; cbv zeta; split_and!; try reflexivity.
  intros H.
  apply (f_equal (λ o, match o with
                       | Some (DbFile db) => length (default [] (admin db))
                       | _ => 0
                       end)) in H.
  vm_compute in H. discriminate H.
Qed.

Lemma failed_build_leaves_schema_only_witness :
  ∃ e', create_db ext pk "reads.fastq" FASTQFIELDTYPES ([], Failed IOError) ∅
        = (Raise e', <[normalize ext "reads.fastq" := DbFile (schema_only FASTQFIELDTYPES)]> ∅).
Proof.
  apply (failed_build_leaves_schema_only ext pk "reads.fastq" FASTQFIELDTYPES
           [] IOError ∅).
  split; [done|]. unfold pk, FASTQFIELDTYPES. compute_done.
Defined.

(** C4, at the failing input: an empty FASTA file is parsed into zero
    records without an error and the build succeeds, but the opened store's
    [__len__] is [None], not [0], and [len(db)] raises [TypeError]. *)
Theorem empty_store_has_no_length :
  ∀ fuel : nat,
    let fs : filesystem := {[ "empty.fa" := TextFile "" ]} in
    let built := read_fasta_sequences ext pk (S fuel) "empty.fa" fs in
    let opened := __init__ ext "empty.fa" built.2 in
    run faiter (S fuel) (Py.readlines "") = ([], Stopped) ∧
    built.1 = Ok tt ∧
    opened.1 = Ok (ScreedDB (Some (Table FASTAFIELDTYPES [])) FASTAFIELDTYPES "name" None) ∧
    (∀ self, opened.1 = Ok self → __len__ self = None ∧ len self = Raise TypeError).
Proof.
  intros fuel. cbn zeta.
  assert (run faiter (S fuel) (Py.readlines "") = ([], Stopped)) as Hrun by done.
  split; [done|].
  assert (read_fasta_sequences ext pk (S fuel) "empty.fa" {[ "empty.fa" := TextFile "" ]}
          = create_db ext pk "empty.fa" FASTAFIELDTYPES ([], Stopped)
              {[ "empty.fa" := TextFile "" ]}) as ->.
  { unfold read_fasta_sequences. erewrite io_bind_ok; [|reflexivity].
    by rewrite Hrun. }
  split; [reflexivity|].
  assert ((__init__ ext "empty.fa"
             (create_db ext pk "empty.fa" FASTAFIELDTYPES ([], Stopped)
                {[ "empty.fa" := TextFile "" ]}).2).1
          = Ok (ScreedDB (Some (Table FASTAFIELDTYPES [])) FASTAFIELDTYPES "name" None))
    as Hopen by reflexivity.
  split; [done|]. rewrite Hopen. intros self Hself.
  injection Hself as <-. split; reflexivity.
Qed.

(** ** A two-record FASTQ stream: aliasing *)

(** A consumer that uses each record as it is yielded sees [r1], then [r2];
    the list of the yields is twice the same reference, which reads [r2]. *)
Lemma two_fastq_records_aliased :
  run fqiter 20 two_fastq_records = ([fastq_r1; fastq_r2], Stopped) ∧
  materialize fqiter 20 two_fastq_records
  = ([1%positive; 1%positive], [fastq_r2; fastq_r2], Stopped).
Proof. split; reflexivity. Qed.


(** ** A two-record FASTA store *)

Lemma sample_store_opened :
  read_fasta_sequences ext pk 20 "two.fa" {[ "two.fa" := TextFile two_fasta_records ]}
  = (Ok tt, sample_fs) ∧
  __init__ ext "two.fa" sample_fs = (Ok sample_store, sample_fs).
Proof. split; reflexivity. Qed.

Lemma sample_store_ok : store_ok pk sample_store.
Proof.
  split.
  - eexists. split_and!; [done|done| |done].
    split; [done|by repeat constructor|compute_done].
  - done.
  - compute_done.
Qed.

(** The length, the lookups by key and by index, and a missing key. *)
Lemma sample_store_lookups :
  len sample_store = Ok 2%Z ∧
  __getitem__ pk sample_store (VStr "A") = Ok record_A ∧
  loadRecordByIndex pk sample_store 0 = Ok record_A ∧
  __getitem__ pk sample_store (VStr "B") = Ok record_B ∧
  __getitem__ pk sample_store (VStr "ZZZ") = Raise KeyError ∧
  __contains__ pk sample_store (VStr "ZZZ") = Ok false ∧
  loadRecordByIndex pk sample_store 2 = Raise KeyError ∧
  loadRecordByIndex pk sample_store (-1) = Raise KeyError.
Proof. split_and!; reflexivity. Qed.





(** What [toFastq] writes for the FASTA store: the quality is synthesized. *)
Lemma sample_store_toFastq :
  (toFastq ext pk "two.fa" "two.fastq" sample_fs).2 !! "two.fastq"
  = Some (TextFile ("@A " +:+ newline +:+ "ACGT" +:+ newline +:+ "+" +:+ newline +:+
                    Py.repeat _null_accuracy 4 +:+ newline +:+
                    "@B sample" +:+ newline +:+ "TTTT" +:+ newline +:+ "+" +:+ newline +:+
                    Py.repeat _null_accuracy 4 +:+ newline)).
Proof. reflexivity. Qed.

(** ** Streams with a blank line *)

(** C2, counterexample: the stream has two lines that begin with [@] and,
    read by the words of the claim, two records; [fqiter] yields the first
    record and stops at the blank line without an error. *)
Lemma fqiter_stops_at_blank_line :
  let h := Py.readlines fastq_with_blank_line in
  count_headers "@" h = 2 ∧
  run fqiter 20 h = ([fq_fields "a" "" "AC" "II"], Stopped) ∧
  fastq_by_the_words 20 (Py.strip <$> h)
  = ([fq_fields "a" "" "AC" "II"; fq_fields "b" "" "GG" "HH"], Stopped) ∧
  run fqiter 20 h ≠ fastq_by_the_words 20 (Py.strip <$> h).
Proof.
  cbv zeta. split_and!; try reflexivity.
  intros H. apply (f_equal (λ t : trace, length t.1)) in H.
  vm_compute in H. discriminate H.
Qed.

Lemma fqiter_parses_blocks_witness :
  (next_line after_block_a = "" →
   run fqiter 20 (concat (fq_lines <$> [block_a]) ++ after_block_a)
   = (fq_record <$> [block_a], Stopped)) ∧
  (∀ b after, after_block_a = fq_lines b ++ after → fq_block_ok b → ¬ fq_balanced b →
     fq_stop after →
     run fqiter 20 (concat (fq_lines <$> [block_a]) ++ after_block_a)
     = (fq_record <$> [block_a], Failed IOError)) ∧
  ([block_a] = [] → next_line after_block_a ≠ "" →
   Py.startswith "@" (next_line after_block_a) = false →
   run fqiter 20 after_block_a = ([], Failed IOError)).
Proof.
  apply (fqiter_parses_blocks 20 [block_a] after_block_a).
  - constructor; [|constructor].
    split; [reflexivity|by repeat constructor|reflexivity|by repeat constructor].
  - constructor; [|constructor]. reflexivity.
  - vm_compute. lia.
Defined.

(** A FASTQ record with five bases and four qualities, after a good one. *)
Lemma fqiter_raises_at_unbalanced_record :
  run fqiter 20 (Py.readlines ("@a" +:+ newline +:+ "AC" +:+ newline +:+ "+" +:+ newline +:+
                               "II" +:+ newline +:+ unbalanced_fastq))
  = ([fq_fields "a" "" "AC" "II"], Failed IOError).
Proof. reflexivity. Qed.

(** C3, counterexample: of two records around a blank line [faiter] yields
    the first one only, where the words of the claim give two; and a
    non-empty stream that does not start with [>] (it starts with a blank
    line) is read as no record at all, without a format error. *)
Lemma faiter_stops_at_blank_line :
  (let h := Py.readlines fasta_with_blank_line in
   count_headers ">" h = 2 ∧
   run faiter 20 h = ([fa_fields "a" "" "AC"], Stopped) ∧
   fasta_by_the_words 20 (Py.strip <$> h)
   = ([fa_fields "a" "" "AC"; fa_fields "b" "" "GG"], Stopped) ∧
   run faiter 20 h ≠ fasta_by_the_words 20 (Py.strip <$> h)) ∧
  (let h := Py.readlines fasta_after_blank_line in
   h ≠ [] ∧ Py.startswith ">" fasta_after_blank_line = false ∧
   run faiter 20 h = ([], Stopped)).
Proof.
  split; cbv zeta; split_and!; try reflexivity; discriminate.
Qed.

Lemma faiter_parses_blocks_witness :
  (next_line after_block_fa = "" →
   run faiter 20 (concat (fa_lines <$> [block_fa]) ++ after_block_fa)
   = (fa_record <$> [block_fa], Stopped)) ∧
  ([block_fa] = [] → next_line after_block_fa ≠ "" →
   Py.startswith ">" (next_line after_block_fa) = false →
   run faiter 20 after_block_fa = ([], Failed IOError)).
Proof.
  apply (faiter_parses_blocks 20 [block_fa] after_block_fa).
  - constructor; [|constructor].
    split; [reflexivity|by repeat constructor].
  - vm_compute. lia.
Defined.

(** A FASTA stream whose first line does not begin with [>]. *)
Lemma faiter_raises_without_marker :
  run faiter 20 (Py.readlines ("a" +:+ newline +:+ "AC" +:+ newline))
  = ([], Failed IOError).
Proof. reflexivity. Qed.

(** ** Runs of the further properties *)

Lemma fasta_schema_is_valid : valid_schema pk FASTAFIELDTYPES.
Proof. split; [done|]. unfold pk, FASTAFIELDTYPES. compute_done. Qed.





Lemma faiter_terminates_witness :
  ((next_line (Py.readlines two_fasta_records) = ""
    ∨ Py.startswith ">" (next_line (Py.readlines two_fasta_records)) = true)
   ∧ ∃ rs, run faiter 20 (Py.readlines two_fasta_records) = (rs, Stopped))
  ∨ (next_line (Py.readlines two_fasta_records) ≠ ""
     ∧ Py.startswith ">" (next_line (Py.readlines two_fasta_records)) = false
     ∧ run faiter 20 (Py.readlines two_fasta_records) = ([], Failed IOError)).
Proof.
  apply (faiter_terminates 20 (Py.readlines two_fasta_records)).
  vm_compute. lia.
Defined.

Lemma havaiter_terminates_witness :
  ∃ rs, run havaiter 20 (hava_lines hava_group) = (rs, Stopped).
Proof.
  apply (havaiter_terminates 20 (hava_lines hava_group)).
  vm_compute. lia.
Defined.

Lemma havaiter_parses_groups_witness :
  (∀ rest : list string,
     length (concat (hava_lines <$> [hava_group]) ++ rest) < 20 →
     next_line rest = "" →
     run havaiter 20 (concat (hava_lines <$> [hava_group]) ++ rest)
     = (hava_record <$> [hava_group], Stopped))
  ∧ ∀ (b : hava_block) (l : string) (ls : list string),
      S (length (concat (hava_lines <$> [hava_group]) ++ l :: ls)) < 20 →
      Py.strip l ≠ "" →
      hava_lines b = l :: ls ++ replicate (5 - length ls) "" →
      run havaiter 20 (concat (hava_lines <$> [hava_group]) ++ l :: ls)
      = (hava_record <$> [hava_group] ++ [b], Stopped).
Proof.
  apply (havaiter_parses_groups 20 [hava_group]).
  constructor; [|constructor]. vm_compute. discriminate.
Defined.




Lemma create_db_touches_only_target_witness :
  (∀ p : string,
     p ≠ normalize ext "two.fa" →
     (create_db ext pk "two.fa" FASTAFIELDTYPES (two_records, Stopped) sample_fs).2 !! p
     = sample_fs !! p)
  ∧ (create_db ext pk "two.fa" FASTAFIELDTYPES (two_records, Stopped) sample_fs).1
    = (create_db ext pk "two.fa" FASTAFIELDTYPES (two_records, Stopped) ∅).1
  ∧ (create_db ext pk "two.fa" FASTAFIELDTYPES (two_records, Stopped) sample_fs).2
      !! normalize ext "two.fa"
    = (create_db ext pk "two.fa" FASTAFIELDTYPES (two_records, Stopped) ∅).2
      !! normalize ext "two.fa"
  ∧ ∃ db : database,
      (create_db ext pk "two.fa" FASTAFIELDTYPES (two_records, Stopped) sample_fs).2
        !! normalize ext "two.fa" = Some (DbFile db).
Proof.
  apply (create_db_touches_only_target ext pk "two.fa" FASTAFIELDTYPES
           (two_records, Stopped) sample_fs ∅).
  exact fasta_schema_is_valid.
Defined.


Lemma keys_are_distinct_and_found_witness :
  NoDup ["A"; "B"]
  ∧ length ["A"; "B"] = length (rows (the_table sample_store))
  ∧ ∀ k : string,
      k ∈ ["A"; "B"] →
      ∃ r : record,
        __getitem__ pk sample_store (VStr k) = Ok r
        ∧ r !! _queryBy sample_store = Some (VStr k).
Proof.
  apply (keys_are_distinct_and_found pk sample_store ["A"; "B"]).
  - exact sample_store_ok.
  - reflexivity.
Defined.


(** What [toFasta] writes for the FASTA store: the file it was built from. *)
Lemma sample_store_toFasta :
  (toFasta ext pk "two.fa" "out.fa" sample_fs).2 !! "out.fa"
  = Some (TextFile (">A " +:+ newline +:+ "ACGT" +:+ newline +:+
                    ">B sample" +:+ newline +:+ "TTTT" +:+ newline)).
Proof. reflexivity. Qed.

Lemma empty_store_cannot_be_serialized_witness :
  ∃ fs' : filesystem,
    create_db ext pk "empty.fa" FASTAFIELDTYPES ([], Stopped) ∅ = (Ok tt, fs')
    ∧ toFastq ext pk "empty.fa" "out.fa" fs'
      = (Raise TypeError, <["out.fa" := TextFile ""]> fs')
    ∧ toFasta ext pk "empty.fa" "out.fa" fs'
      = (Raise TypeError, <["out.fa" := TextFile ""]> fs').
Proof.
  apply (empty_store_cannot_be_serialized ext pk "empty.fa" "out.fa" FASTAFIELDTYPES ∅).
  - exact fasta_schema_is_valid.
  - compute_done.
Defined.

Lemma read_fasta_sequences_outcome_witness :
  ∃ (rs : list dict) (e : ending),
    run faiter 20 (Py.readlines two_fasta_records) = (rs, e)
    ∧ (e = Stopped ∨ e = Failed IOError ∧ rs = [])
    ∧ build_outcome ext pk "two.fa" FASTAFIELDTYPES "name" rs e
        {[ "two.fa" := TextFile two_fasta_records ]}
        (read_fasta_sequences ext pk 20 "two.fa"
           {[ "two.fa" := TextFile two_fasta_records ]}).1
        (read_fasta_sequences ext pk 20 "two.fa"
           {[ "two.fa" := TextFile two_fasta_records ]}).2.
Proof.
  apply (read_fasta_sequences_outcome ext pk 20 "two.fa" two_fasta_records
           {[ "two.fa" := TextFile two_fasta_records ]}).
  - unfold pk, FASTAFIELDTYPES. compute_done.
  - reflexivity.
  - vm_compute. lia.
Defined.

Lemma read_fastq_sequences_outcome_witness :
  ∃ (rs : list dict) (e : ending),
    run fqiter 20 (Py.readlines unbalanced_fastq) = (rs, e)
    ∧ (e = Stopped ∨ e = Failed IOError ∨ e = Diverged)
    ∧ build_outcome ext pk "reads.fastq" FASTQFIELDTYPES "name" rs e
        {[ "reads.fastq" := TextFile unbalanced_fastq ]}
        (read_fastq_sequences ext pk 20 "reads.fastq"
           {[ "reads.fastq" := TextFile unbalanced_fastq ]}).1
        (read_fastq_sequences ext pk 20 "reads.fastq"
           {[ "reads.fastq" := TextFile unbalanced_fastq ]}).2.
Proof.
  apply (read_fastq_sequences_outcome ext pk 20 "reads.fastq" unbalanced_fastq
           {[ "reads.fastq" := TextFile unbalanced_fastq ]}).
  - unfold pk, FASTQFIELDTYPES. compute_done.
  - reflexivity.
Defined.

Lemma hava_build_outcome_witness :
  ∃ rs : list dict,
    run havaiter 20 (hava_lines hava_group) = (rs, Stopped)
    ∧ build_outcome ext pk "one.hava" HAVAFIELDS "hava" rs Stopped ∅
        (create_db ext pk "one.hava" HAVAFIELDS
           (run havaiter 20 (hava_lines hava_group)) ∅).1
        (create_db ext pk "one.hava" HAVAFIELDS
           (run havaiter 20 (hava_lines hava_group)) ∅).2.
Proof.
  apply (hava_build_outcome ext pk 20 "one.hava" (hava_lines hava_group) ∅).
  - unfold pk, HAVAFIELDS. compute_done.
  - vm_compute. lia.
Defined.




Lemma two_entries_clean : Forall entry_clean two_entries.
Proof.
  repeat (constructor;
    [split; [reflexivity|reflexivity|reflexivity|discriminate|reflexivity]|]).
  constructor.
Qed.

Lemma two_entries_texts :
  Forall2 (λ e t, fasta_text (entry_value e) = Ok t) two_entries two_entry_texts.
Proof. repeat (constructor; [reflexivity|]). constructor. Qed.

Lemma fasta_text_parses_back_witness :
  run faiter 20 (Py.readlines (Py.join two_entry_texts))
  = (entry_record <$> two_entries, Stopped).
Proof.
  apply (fasta_text_parses_back 20 two_entries two_entry_texts).
  - exact two_entries_clean.
  - exact two_entries_texts.
  - vm_compute. lia.
Defined.

Lemma fasta_file_is_reconstructed_witness :
  ∃ fs' : filesystem,
    read_fasta_sequences ext pk 20 "two.fa"
      {[ "two.fa" := TextFile (Py.join two_entry_texts) ]} = (Ok tt, fs')
    ∧ toFasta ext pk "two.fa" "out.fa" fs'
      = (Ok tt, <["out.fa" := TextFile (Py.join two_entry_texts)]> fs').
Proof.
  apply (fasta_file_is_reconstructed ext pk 20 "two.fa" "out.fa" two_entries
           two_entry_texts {[ "two.fa" := TextFile (Py.join two_entry_texts) ]}).
  - unfold pk, FASTAFIELDTYPES. compute_done.
  - discriminate.
  - exact two_entries_clean.
  - compute_done.
  - exact two_entries_texts.
  - reflexivity.
  - vm_compute. lia.
  - compute_done.
Defined.

Lemma fastq_text_parses_back_witness :
  run fqiter 20 (Py.readlines (Py.join two_fastq_entry_texts))
  = (qentry_record <$> two_fastq_entries, Stopped).
Proof.
  apply (fastq_text_parses_back 20 two_fastq_entries two_fastq_entry_texts).
  - repeat (constructor;
      [split; [reflexivity|reflexivity|reflexivity|discriminate|reflexivity
              |reflexivity|reflexivity]|]).
    constructor.
  - repeat (constructor; [reflexivity|]). constructor.
  - vm_compute. lia.
Defined.

Lemma two_fastq_entries_clean : Forall qentry_clean two_fastq_entries.
Proof.
  repeat (constructor;
    [split; [reflexivity|reflexivity|reflexivity|discriminate|reflexivity
            |reflexivity|reflexivity]|]).
  constructor.
Qed.

Lemma two_fastq_entries_texts :
  Forall2 (λ e t, fastq_text (qentry_value e) = Ok t)
    two_fastq_entries two_fastq_entry_texts.
Proof. repeat (constructor; [reflexivity|]). constructor. Qed.

Lemma fastq_file_is_reconstructed_witness :
  ∃ fs' : filesystem,
    read_fastq_sequences ext pk 20 "two.fastq"
      {[ "two.fastq" := TextFile (Py.join two_fastq_entry_texts) ]} = (Ok tt, fs')
    ∧ toFastq ext pk "two.fastq" "out.fastq" fs'
      = (Ok tt, <["out.fastq" := TextFile (Py.join two_fastq_entry_texts)]> fs').
Proof.
  apply (fastq_file_is_reconstructed ext pk 20 "two.fastq" "out.fastq"
           two_fastq_entries two_fastq_entry_texts
           {[ "two.fastq" := TextFile (Py.join two_fastq_entry_texts) ]}).
  - unfold pk, FASTQFIELDTYPES. compute_done.
  - discriminate.
  - discriminate.
  - exact two_fastq_entries_clean.
  - compute_done.
  - exact two_fastq_entries_texts.
  - reflexivity.
  - vm_compute. lia.
  - compute_done.
Defined.
